(** * leafysd: packet codec and control session

    A shallow embedding of [lib/raw_packets.c] and of the transaction and
    worker-thread parts of [src/control.c], followed by the properties of
    the written specification that concern them.

    Conventions.
    - C integers are [Z]; a [uint8_t] lives in [0, 2^8), a [uint16_t] in
      [0, 2^16), a [uint32_t] in [0, 2^32); wrap-around is written out.
    - The payload of a packet (the union [p] and the samples that follow
      it) is a list of bytes; fields are read and written through the
      host's byte order, which is a parameter of the development.
    - An access outside a buffer is undefined in C; the model makes it a
      failure ([None], or [Abort MemoryFault] on the control side).
    - What the headers define and the sources do not show (type codes,
      wake-reason bits, [sizeof (struct raw_packet)]) is a parameter. *)

From Stdlib Require Import ZArith Lia Bool List.
From stdpp Require Import base option list.

Local Open Scope Z_scope.

(* ===================================================================== *)
(** * Part I: definitions                                                *)
(* ===================================================================== *)

(** ** Platform parameters *)

(** Values fixed by [raw_packets.h] and by the host, none of which is
    visible in the C files. *)
Class RawPacketsABI := {
  host_big_endian : bool;
  RAW_PKT_TYPE_BSAMP : Z;
  RAW_PKT_TYPE_REQ : Z;
  RAW_PKT_TYPE_RES : Z;
  RAW_PKT_TYPE_ERR : Z;
  sizeof_raw_packet : Z
}.

(** The four labels of a C [switch] are pairwise different, or the file
    would not compile. *)
Definition pkt_types_distinct `{RawPacketsABI} : Prop :=
  NoDup [RAW_PKT_TYPE_BSAMP; RAW_PKT_TYPE_REQ; RAW_PKT_TYPE_RES; RAW_PKT_TYPE_ERR].

(** ** Byte order *)

Definition bswap16 (x : Z) : Z :=
  (x mod 256) * 256 + (x / 256) mod 256.

Definition bswap32 (x : Z) : Z :=
  (x mod 256) * 16777216 + ((x / 256) mod 256) * 65536
  + ((x / 65536) mod 256) * 256 + (x / 16777216) mod 256.

Section ByteOrder.
Context `{RawPacketsABI}.

Definition htons (x : Z) : Z := if host_big_endian then x else bswap16 x.
Definition ntohs (x : Z) : Z := if host_big_endian then x else bswap16 x.
Definition htonl (x : Z) : Z := if host_big_endian then x else bswap32 x.
Definition ntohl (x : Z) : Z := if host_big_endian then x else bswap32 x.

(** *** Memory: typed loads and stores on a byte buffer *)

Definition byte_ok (b : Z) : Prop := 0 <= b < 256.

(** The value of two, and of four, consecutive bytes of memory, and
    the bytes of a value, in the host's order. *)
Definition dec16 (b0 b1 : Z) : Z :=
  if host_big_endian then b0 * 256 + b1 else b1 * 256 + b0.

Definition enc16 (v : Z) : list Z :=
  let lo := v mod 256 in
  let hi := (v / 256) mod 256 in
  if host_big_endian then [hi; lo] else [lo; hi].

Definition dec32 (b0 b1 b2 b3 : Z) : Z :=
  if host_big_endian
  then b0 * 16777216 + b1 * 65536 + b2 * 256 + b3
  else b3 * 16777216 + b2 * 65536 + b1 * 256 + b0.

Definition enc32 (v : Z) : list Z :=
  let v0 := v mod 256 in
  let v1 := (v / 256) mod 256 in
  let v2 := (v / 65536) mod 256 in
  let v3 := (v / 16777216) mod 256 in
  if host_big_endian then [v3; v2; v1; v0] else [v0; v1; v2; v3].

(** [m[a], m[a+1], ... = bytes], one [insert] per byte. *)
Fixpoint write_bytes (m : list Z) (a : nat) (bytes : list Z) : list Z :=
  match bytes with
  | [] => m
  | b :: bytes => write_bytes (<[a := b]> m) (S a) bytes
  end.

Definition load16 (m : list Z) (a : nat) : option Z :=
  b0 ← m !! a;
  b1 ← m !! S a;
  Some (dec16 b0 b1).

Definition store16 (m : list Z) (a : nat) (v : Z) : option (list Z) :=
  if decide (a + 2 ≤ length m)%nat then Some (write_bytes m a (enc16 v))
  else None.

Definition load32 (m : list Z) (a : nat) : option Z :=
  b0 ← m !! a;
  b1 ← m !! S a;
  b2 ← m !! S (S a);
  b3 ← m !! S (S (S a));
  Some (dec32 b0 b1 b2 b3).

Definition store32 (m : list Z) (a : nat) (v : Z) : option (list Z) :=
  if decide (a + 4 ≤ length m)%nat then Some (write_bytes m a (enc32 v))
  else None.

(** [msg->f = conv (msg->f)] for a 16-bit and a 32-bit field at offset [a]. *)
Definition conv16_at (conv : Z → Z) (m : list Z) (a : nat) : option (list Z) :=
  v ← load16 m a; store16 m a (conv v).

Definition conv32_at (conv : Z → Z) (m : list Z) (a : nat) : option (list Z) :=
  v ← load32 m a; store32 m a (conv v).
End ByteOrder.

(** ** Outcomes of a call

    A call returns, or it does not: an [assert] fires, memory outside a
    buffer is touched, or a pthread primitive is misused (which the
    [__control_must_*] wrappers turn into [control_fatal_err]). *)

Inductive failure := AssertionFailed | MemoryFault | MutexMisuse.

Inductive result (A : Type) :=
  | Ok (a : A)
  | Abort (f : failure).
Arguments Ok {A} a.
Arguments Abort {A} f.

#[global] Instance result_ret : MRet result := @Ok.
#[global] Instance result_bind : MBind result := λ A B f r,
  match r with Ok a => f a | Abort e => Abort e end.

(** A failed load or store is a memory fault. *)
Definition access {A} (o : option A) : result A :=
  match o with Some a => Ok a | None => Abort MemoryFault end.

(** ** lib/raw_packets.c *)

Definition PACKET_HEADER_MAGIC : Z := 0x5A.
Definition PACKET_HEADER_PROTO_VERS : Z := 0x00.

(** [<errno.h>] on Linux. *)
Definition EIO : Z := 5.
Definition EINVAL : Z := 22.
Definition EPROTO : Z := 71.

(** Modelled from the spec: [struct raw_packet] is declared in
    [raw_packets.h], which the sources do not include.  The fields are
    those the C file uses: the four header bytes, then the payload union
    [p], with the samples of a board sample behind it, as bytes. *)
Record raw_packet := {
  _p_magic : Z;
  _p_proto_vers : Z;
  p_type : Z;
  p_flags : Z;
  p : list Z
}.

Definition set_p (pkt : raw_packet) (payload : list Z) : raw_packet :=
  {| _p_magic := _p_magic pkt; _p_proto_vers := _p_proto_vers pkt;
     p_type := p_type pkt; p_flags := p_flags pkt; p := payload |}.

(** Modelled from the spec: offset of [r_id] in [struct raw_msg_req],
    which [raw_packets.h] declares and the sources do not show (section 6
    of the spec: [r_id], 2 bytes, at offset 0). *)
Definition off_r_id : nat := 0.

(** Modelled from the spec: offset of [r_val] in [struct raw_msg_req]
    (section 6 of the spec: [r_val], 4 bytes, at offset 4, after the
    one-byte [r_type] and [r_addr]). *)
Definition off_r_val : nat := 4.

(** Modelled from the spec: [sizeof (struct raw_msg_req)], the sum of the
    widths 2 + 1 + 1 + 4 of the spec's table. *)
Definition sizeof_raw_msg_req : nat := 8.

(** Modelled from the spec: offset of [bs_idx] (u32) in
    [struct raw_msg_bsamp], the first field of the board-sample payload. *)
Definition off_bs_idx : nat := 0.

(** Modelled from the spec: offset of [bs_nchips] (u16), behind [bs_idx]. *)
Definition off_bs_nchips : nat := 4.

(** Modelled from the spec: offset of [bs_nlines] (u16), behind
    [bs_nchips]. *)
Definition off_bs_nlines : nat := 6.

(** Modelled from the spec: [sizeof (struct raw_msg_bsamp)], which is also
    the offset of its flexible member [bs_samples]: the samples follow
    [bs_idx], [bs_nchips] and [bs_nlines] directly. *)
Definition sizeof_raw_msg_bsamp : nat := 8.

(** Modelled from the spec: [sizeof (raw_samp_t)]; a sample has 16 bits. *)
Definition sizeof_raw_samp_t : nat := 2.

(** Offset of [bs_samples[i]] in the payload. *)
Definition off_sample (i : nat) : nat :=
  (sizeof_raw_msg_bsamp + sizeof_raw_samp_t * i)%nat.

(** The socket layer, [recv(2)] and [send(2)]: given the descriptor, the
    buffer, the length, the flags and the current [errno], a call yields
    its return value, the new [errno] and (for [recv]) the new contents
    of the buffer. *)
Class SocketLayer := {
  sys_recv : Z → raw_packet → Z → Z → Z → Z * Z * raw_packet;
  sys_send : Z → raw_packet → Z → Z → Z → Z * Z
}.

(** What a send leaves behind: the return value, [errno] and the packet
    buffer, which is converted in place. *)
Record send_state := {
  snd_ret : Z;
  snd_errno : Z;
  snd_packet : raw_packet
}.

(** What a receive leaves behind: the return value, [errno], the cell
    [packtype] points to ([None] for a null pointer) and the packet
    buffer. *)
Record recv_state := {
  rcv_ret : Z;
  rcv_errno : Z;
  rcv_packtype : option Z;
  rcv_packet : raw_packet
}.

Section RawPackets.
Context `{RawPacketsABI} `{SocketLayer}.

Definition raw_packet_init (packet : raw_packet) (type flags : Z) : raw_packet :=
  {| _p_magic := PACKET_HEADER_MAGIC;
     _p_proto_vers := PACKET_HEADER_PROTO_VERS;
     p_type := type;
     p_flags := flags;
     p := p packet |}.

(** Modelled from the spec: [raw_bsamp_nsamps] is an inline helper of
    [raw_packets.h]; the number of samples of a board sample is
    [nchips × nlines], computed on [size_t] as in
    [raw_packet_create_bsamp]. *)
Definition raw_bsamp_nsamps (msg : list Z) : option Z :=
  nchips ← load16 msg off_bs_nchips;
  nlines ← load16 msg off_bs_nlines;
  Some (nchips * nlines).

(** Modelled from the spec: [raw_packet_sampsize] is an inline helper of
    [raw_packets.h]; the sample payload length is
    [nchips × nlines × 2] bytes. *)
Definition raw_packet_sampsize (packet : raw_packet) : option Z :=
  n ← raw_bsamp_nsamps (p packet);
  Some (n * Z.of_nat sizeof_raw_samp_t).

(** [memcpy] of the first [n] bytes of a payload. *)
Definition memcpy (dst src : list Z) (n : nat) : option (list Z) :=
  if decide (n ≤ length src ∧ n ≤ length dst)%nat
  then Some (take n src ++ drop n dst)
  else None.

(** [memcpy(dst, src, offsetof(struct raw_packet, p))]. *)
Definition copy_header (dst src : raw_packet) : raw_packet :=
  {| _p_magic := _p_magic src; _p_proto_vers := _p_proto_vers src;
     p_type := p_type src; p_flags := p_flags src; p := p dst |}.

Definition raw_packet_copy (dst src : raw_packet) : result raw_packet :=
  let dst := copy_header dst src in
  if p_type src =? RAW_PKT_TYPE_BSAMP then
    sampsize ← access (raw_packet_sampsize src);
    payload ← access (memcpy (p dst) (p src)
                        (sizeof_raw_msg_bsamp + Z.to_nat sampsize));
    Ok (set_p dst payload)
  else if (p_type src =? RAW_PKT_TYPE_REQ) || (p_type src =? RAW_PKT_TYPE_RES) then
    payload ← access (memcpy (p dst) (p src) sizeof_raw_msg_req);
    Ok (set_p dst payload)
  else if p_type src =? RAW_PKT_TYPE_ERR then
    Ok dst
  else
    Abort AssertionFailed.

(** [for (size_t i = 0; i < raw_bsamp_nsamps(msg); i++)
       msg->bs_samples[i] = conv(msg->bs_samples[i]);]
    The bound is read from the message again before every iteration, as
    in the source.  Each iteration touches two bytes of the buffer that
    no earlier one touched, so a buffer of [n] bytes admits fewer than
    [n] iterations: the callers pass [S (length msg)] as [fuel]. *)
Fixpoint for_each_sample (conv : Z → Z) (fuel i : nat) (msg : list Z)
  : option (list Z) :=
  match fuel with
  | O => None
  | S fuel =>
      n ← raw_bsamp_nsamps msg;
      if Z.of_nat i <? n then
        msg ← conv16_at conv msg (off_sample i);
        for_each_sample conv fuel (S i) msg
      else Some msg
  end.

Definition raw_msg_bsamp_hton (msg : list Z) : option (list Z) :=
  msg ← for_each_sample htons (S (length msg)) 0 msg;
  msg ← conv32_at htonl msg off_bs_idx;
  msg ← conv16_at htons msg off_bs_nchips;
  conv16_at htons msg off_bs_nlines.

Definition raw_msg_req_hton (msg : list Z) : option (list Z) :=
  msg ← conv16_at htons msg off_r_id;
  conv32_at htonl msg off_r_val.

Definition raw_msg_res_hton (msg : list Z) : option (list Z) :=
  raw_msg_req_hton msg.

Definition raw_packet_send (sockfd : Z) (packet : raw_packet) (flags errno : Z)
  : result send_state :=
  let packet_size := sizeof_raw_packet in
  let send packet packet_size :=
    let '(ret, errno) := sys_send sockfd packet packet_size flags errno in
    Ok {| snd_ret := ret; snd_errno := errno; snd_packet := packet |} in
  if p_type packet =? RAW_PKT_TYPE_BSAMP then
    sampsize ← access (raw_packet_sampsize packet);
    payload ← access (raw_msg_bsamp_hton (p packet));
    send (set_p packet payload) (packet_size + sampsize)
  else if p_type packet =? RAW_PKT_TYPE_REQ then
    payload ← access (raw_msg_req_hton (p packet));
    send (set_p packet payload) packet_size
  else if p_type packet =? RAW_PKT_TYPE_RES then
    payload ← access (raw_msg_res_hton (p packet));
    send (set_p packet payload) packet_size
  else if p_type packet =? RAW_PKT_TYPE_ERR then
    send packet packet_size
  else
    Ok {| snd_ret := -1; snd_errno := EINVAL; snd_packet := packet |}.

Definition raw_msg_bsamp_ntoh (msg : list Z) : option (list Z) :=
  msg ← conv32_at ntohl msg off_bs_idx;
  msg ← conv16_at ntohs msg off_bs_nchips;
  msg ← conv16_at ntohs msg off_bs_nlines;
  for_each_sample ntohs (S (length msg)) 0 msg.

Definition raw_msg_req_ntoh (msg : list Z) : option (list Z) :=
  msg ← conv16_at ntohs msg off_r_id;
  conv32_at ntohl msg off_r_val.

Definition raw_msg_res_ntoh (msg : list Z) : option (list Z) :=
  raw_msg_req_ntoh msg.

(** The [switch] on the packet type that ends [raw_packet_recv]: [ret] and
    [errno] are what [recv] left, [out] builds the final state from the
    return value, [errno] and the packet. *)
Definition recv_switch (pt : Z) (ret errno : Z) (packet : raw_packet)
    (out : Z → Z → raw_packet → recv_state) : result recv_state :=
  if pt =? RAW_PKT_TYPE_BSAMP then
    payload ← access (raw_msg_bsamp_ntoh (p packet));
    Ok (out ret errno (set_p packet payload))
  else if pt =? RAW_PKT_TYPE_REQ then
    payload ← access (raw_msg_req_ntoh (p packet));
    Ok (out ret errno (set_p packet payload))
  else if pt =? RAW_PKT_TYPE_RES then
    payload ← access (raw_msg_res_ntoh (p packet));
    Ok (out ret errno (set_p packet payload))
  else if pt =? RAW_PKT_TYPE_ERR then
    Ok (out ret errno packet)
  else
    Ok (out (-1) EPROTO packet).

(** The number of bytes [raw_packet_recv] asks [recv] for:
    [packsize = sizeof(struct raw_packet)], plus the sample size found
    in the caller's buffer when a board sample is expected. *)
Definition recv_packsize (packet : raw_packet) (pt : Z) : option Z :=
  let packsize := sizeof_raw_packet in
  if pt =? RAW_PKT_TYPE_BSAMP then
    sampsize ← raw_packet_sampsize packet;
    Some (packsize + sampsize)
  else Some packsize.

(** [packtype] is [None] for a null pointer (the local [pt = 0] is then
    used and lost on return) and [Some t] for a pointer to a cell that
    holds [t]. *)
Definition raw_packet_recv (sockfd : Z) (packet : raw_packet)
    (packtype : option Z) (flags errno : Z) : result recv_state :=
  let pt := default 0 packtype in
  let out pt ret errno packet :=
    {| rcv_ret := ret; rcv_errno := errno;
       rcv_packtype := (λ _, pt) <$> packtype; rcv_packet := packet |} in
  packsize ← access (recv_packsize packet pt);
  let '(ret, errno, packet) := sys_recv sockfd packet packsize flags errno in
  if negb (_p_magic packet =? PACKET_HEADER_MAGIC) then
    Ok (out pt (-1) EPROTO packet)
  else if ret =? -1 then
    Ok (out pt (-1) errno packet)
  else if pt =? 0 then
    recv_switch (p_type packet) ret errno packet (out (p_type packet))
  else if negb (pt =? p_type packet) then
    Ok (out pt (-1) EIO packet)
  else
    recv_switch pt ret errno packet (out pt).
End RawPackets.

(** ** src/control.c *)

(** The wake reasons of [enum control_worker_why], which [control.h]
    defines and the sources do not show. *)
Class ControlABI := {
  CONTROL_WHY_NONE : Z;
  CONTROL_WHY_EXIT : Z;
  CONTROL_WHY_CLIENT_CMD : Z;
  CONTROL_WHY_CLIENT_RES : Z;
  CONTROL_WHY_DNODE_TXN : Z
}.

(** [<event2/bufferevent.h>] of libevent. *)
Definition BEV_EVENT_EOF : Z := 0x10.
Definition BEV_EVENT_ERROR : Z := 0x20.

(** Modelled from the spec: [struct raw_msg_req] ([raw_packets.h]) as the
    control code sees it through [ctxn_req(txn)->r_id], with the typed
    fields [(r_id: u16, r_type: u8, r_addr: u8, r_val: u32)]. *)
Record raw_msg_req := {
  r_id : Z;
  r_type : Z;
  r_addr : Z;
  r_val : Z
}.

(** Modelled from the spec: [struct control_txn] is declared in
    [control-private.h], which the sources do not include; a transaction
    pairs a request with the buffer of its response, and [ctxn_req]
    yields the request. *)
Record control_txn := {
  ctxn_req : raw_msg_req;
  ctxn_res : raw_msg_req
}.

(** Modelled from the spec: the fields of [struct control_session]
    ([control-private.h]) that the code below reads or writes.  Pointers
    to bufferevents are addresses, [0] for [NULL]; [ctl_txns] is [None]
    for [NULL] and otherwise holds the array it points to; [ctl_cur_rid]
    has the width of [r_id], 16 bits. *)
Record control_session := {
  wake_why : Z;
  cbev : Z;
  dbev : Z;
  ctl_txns : option (list control_txn);
  ctl_n_txns : Z;
  ctl_cur_txn : Z;
  ctl_cur_rid : Z
}.

(** Modelled from the spec: the hooks of one side ([struct control_ops]
    of [control.h]) that the code below calls; a null hook is [None].  A
    hook receives the session and may change it. *)
Record control_ops := {
  cs_close : option (control_session → control_session);
  cs_thread : option (control_session → control_session)
}.

(** The two global tables [control_client_ops] and [control_dnode_ops]. *)
Class ControlOps := {
  control_client_ops : control_ops;
  control_dnode_ops : control_ops
}.

Inductive side := Client | Dnode.

(** What a thread does that others can observe, in program order. *)
Inductive event :=
  | EvLock
  | EvUnlock
  | EvCondWait
  | EvBevFree (bev : Z)
  | EvFreeTxns
  | EvStoreTxns
  | EvCloseHook (s : side)
  | EvThreadHook (s : side)
  | EvThreadExit.

(** The running thread's view: the session, whether this thread holds
    [cs->mtx], and what it has done so far. *)
Record machine := {
  sess : control_session;
  mtx_held : bool;
  trace : list event
}.

Definition upd_sess (f : control_session → control_session) (m : machine) : machine :=
  {| sess := f (sess m); mtx_held := mtx_held m; trace := trace m |}.

Definition emit (e : event) (m : machine) : machine :=
  {| sess := sess m; mtx_held := mtx_held m; trace := trace m ++ [e] |}.

Definition set_cbev (v : Z) (cs : control_session) : control_session :=
  {| wake_why := wake_why cs; cbev := v; dbev := dbev cs;
     ctl_txns := ctl_txns cs; ctl_n_txns := ctl_n_txns cs;
     ctl_cur_txn := ctl_cur_txn cs; ctl_cur_rid := ctl_cur_rid cs |}.

Definition set_dbev (v : Z) (cs : control_session) : control_session :=
  {| wake_why := wake_why cs; cbev := cbev cs; dbev := v;
     ctl_txns := ctl_txns cs; ctl_n_txns := ctl_n_txns cs;
     ctl_cur_txn := ctl_cur_txn cs; ctl_cur_rid := ctl_cur_rid cs |}.

Definition set_wake_why (v : Z) (cs : control_session) : control_session :=
  {| wake_why := v; cbev := cbev cs; dbev := dbev cs;
     ctl_txns := ctl_txns cs; ctl_n_txns := ctl_n_txns cs;
     ctl_cur_txn := ctl_cur_txn cs; ctl_cur_rid := ctl_cur_rid cs |}.

Definition set_txns (txns : option (list control_txn)) (n_txns cur_txn cur_rid : Z)
    (cs : control_session) : control_session :=
  {| wake_why := wake_why cs; cbev := cbev cs; dbev := dbev cs;
     ctl_txns := txns; ctl_n_txns := n_txns;
     ctl_cur_txn := cur_txn; ctl_cur_rid := cur_rid |}.

Definition set_r_id (rid : Z) (txn : control_txn) : control_txn :=
  {| ctxn_req := {| r_id := rid; r_type := r_type (ctxn_req txn);
                    r_addr := r_addr (ctxn_req txn); r_val := r_val (ctxn_req txn) |};
     ctxn_res := ctxn_res txn |}.

(** ** Locking.  [control_must_lock] and its siblings are macros of
    [control-private.h] for the functions below.  A thread that locks the
    mutex it holds, or unlocks or waits with a mutex it does not hold,
    misuses it. *)

Definition __control_must_lock (m : machine) : result machine :=
  if mtx_held m then Abort MutexMisuse
  else Ok {| sess := sess m; mtx_held := true; trace := trace m ++ [EvLock] |}.

Definition __control_must_unlock (m : machine) : result machine :=
  if mtx_held m
  then Ok {| sess := sess m; mtx_held := false; trace := trace m ++ [EvUnlock] |}
  else Abort MutexMisuse.

(** While a thread sleeps in [pthread_cond_wait] the mutex is free and the
    other threads act on the session; [others] is what they did before
    this thread owns the mutex again. *)
Definition __control_must_cond_wait (others : control_session → control_session)
    (m : machine) : result machine :=
  if mtx_held m then Ok (emit EvCondWait (upd_sess others m))
  else Abort MutexMisuse.

(** ** Transactions *)

Definition is_null {A} (ptr : option A) : bool :=
  match ptr with None => true | Some _ => false end.

(** The expression of the [assert] in [control_set_transactions]. *)
Definition set_transactions_assertion (cs : control_session)
    (txns : option (list control_txn)) (n_txns : Z) : bool :=
  (is_null (ctl_txns cs) && (ctl_cur_txn cs =? -1) && (ctl_n_txns cs =? 0))
  || (is_null txns && (n_txns =? 0)).

(** [for (size_t i = 0; i < n_txns; i++)
       ctxn_req(&txns[i])->r_id = cs->ctl_cur_rid++;]
    with [count] iterations left, [i] the index and [rid] the value of
    [cs->ctl_cur_rid]; the increment wraps at 16 bits. *)
Fixpoint stamp_requests (count i : nat) (txns : list control_txn) (rid : Z)
  : option (list control_txn * Z) :=
  match count with
  | O => Some (txns, rid)
  | S count =>
      txn ← txns !! i;
      stamp_requests count (S i) (<[i := set_r_id rid txn]> txns) ((rid + 1) mod 65536)
  end.

Definition control_set_transactions (m : machine)
    (txns : option (list control_txn)) (n_txns : Z) (have_lock : bool)
  : result machine :=
  m ← (if have_lock then Ok m else __control_must_lock m);
  if negb (set_transactions_assertion (sess m) txns n_txns) then
    Abort AssertionFailed
  else
    let m := if is_null (ctl_txns (sess m)) then m else emit EvFreeTxns m in
    let cur_rid := ctl_cur_rid (sess m) in
    m ← (if n_txns =? 0 then
           Ok (emit EvStoreTxns (upd_sess (set_txns txns n_txns (-1) cur_rid) m))
         else
           '(stamped, cur_rid) ←
             access (array ← txns; stamp_requests (Z.to_nat n_txns) 0 array cur_rid);
           Ok (emit EvStoreTxns (upd_sess (set_txns (Some stamped) n_txns 0 cur_rid) m)));
    if have_lock then Ok m else __control_must_unlock m.

(** Modelled from the spec: [control_clear_transactions] comes from
    [control-private.h]; the spec describes it as the convenience form of
    setting the empty list, [set(∅, 0)].  Its second argument is passed
    on as the holding-lock flag of [control_set_transactions]: both
    callers pass [1] between [control_must_lock] and
    [control_must_unlock]. *)
Definition control_clear_transactions (m : machine) (have_lock : bool)
  : result machine :=
  control_set_transactions m None 0 have_lock.

Section Control.
Context `{ControlABI} `{ControlOps}.

(** The point where a hook is called: the call is recorded and the
    hook, unless it is null, acts on the session. *)
Definition run_hook (hook : option (control_session → control_session))
    (e : event) (m : machine) : machine :=
  emit e (match hook with
          | Some h => upd_sess h m
          | None => m
          end).

Definition control_client_close (m : machine) : result machine :=
  m ← __control_must_lock m;
  if cbev (sess m) =? 0 then Abort AssertionFailed
  else
    let m := emit (EvBevFree (cbev (sess m))) m in
    let m := upd_sess (set_cbev 0) m in
    m ← (if is_null (ctl_txns (sess m)) then Ok m
         else control_clear_transactions m true);
    m ← __control_must_unlock m;
    Ok (run_hook (cs_close control_client_ops) (EvCloseHook Client) m).

Definition control_dnode_close (m : machine) : result machine :=
  m ← __control_must_lock m;
  if dbev (sess m) =? 0 then Abort AssertionFailed
  else
    let m := emit (EvBevFree (dbev (sess m))) m in
    let m := upd_sess (set_dbev 0) m in
    m ← (if is_null (ctl_txns (sess m)) then Ok m
         else control_clear_transactions m true);
    m ← __control_must_unlock m;
    Ok (run_hook (cs_close control_dnode_ops) (EvCloseHook Dnode) m).

Definition control_client_thread (m : machine) : machine :=
  run_hook (cs_thread control_client_ops) (EvThreadHook Client) m.

Definition control_dnode_thread (m : machine) : machine :=
  run_hook (cs_thread control_dnode_ops) (EvThreadHook Dnode) m.

Definition control_bevt_handler (m : machine) (events : Z)
    (on_close : machine → result machine) : result machine :=
  if negb (Z.land events BEV_EVENT_EOF =? 0)
     || negb (Z.land events BEV_EVENT_ERROR =? 0)
  then on_close m
  else Ok m.

Definition control_client_event (bev events : Z) (m : machine) : result machine :=
  if negb (bev =? cbev (sess m)) then Abort AssertionFailed
  else control_bevt_handler m events control_client_close.

Definition control_dnode_event (bev events : Z) (m : machine) : result machine :=
  if negb (bev =? dbev (sess m)) then Abort AssertionFailed
  else control_bevt_handler m events control_dnode_close.

(** *** The worker thread *)

(** What became of the worker: it finished an iteration of its outer
    loop and goes on, it called [pthread_exit], it sleeps in
    [pthread_cond_wait] with nobody left to wake it, or it failed. *)
Inductive worker_state :=
  | Running (m : machine) (env : list (control_session → control_session))
  | Exited (m : machine)
  | Asleep (m : machine)
  | Failed (f : failure).

(** [while (cs->wake_why == CONTROL_WHY_NONE) control_must_cond_wait(cs);]
    [env] lists, one per wait, what the other threads do to the session
    while the worker sleeps. *)
Fixpoint wait_for_wake (env : list (control_session → control_session))
    (m : machine) : worker_state :=
  if wake_why (sess m) =? CONTROL_WHY_NONE then
    match env with
    | [] => Asleep m
    | others :: env =>
        match __control_must_cond_wait others m with
        | Ok m => wait_for_wake env m
        | Abort f => Failed f
        end
    end
  else Running m env.

(** One iteration of the [while (1)] of [control_worker_main]. *)
Definition control_worker_iteration
    (env : list (control_session → control_session)) (m : machine)
  : worker_state :=
  match __control_must_lock m with
  | Abort f => Failed f
  | Ok m =>
      match wait_for_wake env m with
      | Running m env =>
          if wake_why (sess m) =? CONTROL_WHY_NONE then Failed AssertionFailed
          else if negb (Z.land (wake_why (sess m)) CONTROL_WHY_EXIT =? 0) then
            match __control_must_unlock m with
            | Ok m => Exited (emit EvThreadExit m)
            | Abort f => Failed f
            end
          else
            let m :=
              if negb (Z.land (wake_why (sess m))
                         (Z.lor CONTROL_WHY_CLIENT_CMD CONTROL_WHY_CLIENT_RES) =? 0)
              then control_client_thread m else m in
            let m :=
              if negb (Z.land (wake_why (sess m)) CONTROL_WHY_DNODE_TXN =? 0)
              then control_dnode_thread m else m in
            match __control_must_unlock m with
            | Ok m => Running m env
            | Abort f => Failed f
            end
      | other => other
      end
  end.

(** [control_worker_main], for at most [fuel] iterations of its loop. *)
Fixpoint control_worker_main (fuel : nat)
    (env : list (control_session → control_session)) (m : machine)
  : worker_state :=
  match fuel with
  | O => Running m env
  | S fuel =>
      match control_worker_iteration env m with
      | Running m env => control_worker_main fuel env m
      | other => other
      end
  end.
End Control.

(** ** Functions used to state the properties *)

Section SpecFunctions.
Context `{RawPacketsABI} `{ControlABI}.

(** The first [n] samples of [samples] (two bytes each) converted by
    [conv], the bytes behind them as they are. *)
Fixpoint conv_samples (conv : Z → Z) (n : nat) (samples : list Z) : list Z :=
  match n, samples with
  | S n, b0 :: b1 :: samples => enc16 (conv (dec16 b0 b1)) ++ conv_samples conv n samples
  | _, _ => samples
  end.

(** The session after the other threads acted on it, one after the
    other. *)
Definition sess_after (others : list (control_session → control_session))
    (cs : control_session) : control_session :=
  foldl (λ cs f, f cs) cs others.

(** A wake reason is set in [cs->wake_why]. *)
Definition wake_set (why : Z) (cs : control_session) : bool :=
  negb (Z.land (wake_why cs) why =? 0).

(** The transaction list of the session is empty. *)
Definition txns_empty (cs : control_session) : Prop :=
  ctl_txns cs = None ∧ ctl_n_txns cs = 0 ∧ ctl_cur_txn cs = -1.
End SpecFunctions.

(** ** A concrete platform, for the examples

    A little-endian host; the type codes are pairwise different and
    different from [0], which [raw_packet_recv] reads as "any type". *)

Definition abi_le : RawPacketsABI :=
  {| host_big_endian := false;
     RAW_PKT_TYPE_BSAMP := 1;
     RAW_PKT_TYPE_REQ := 2;
     RAW_PKT_TYPE_RES := 3;
     RAW_PKT_TYPE_ERR := 4;
     sizeof_raw_packet := 12 |}.

(** A board sample of 2 chips and 1 line with index 42, samples [0x0102]
    and [0x0304], in a buffer with room for a third sample. *)
Definition bsamp_2x1 : list Z :=
  [42; 0; 0; 0;  2; 0;  1; 0;  0x02; 0x01;  0x04; 0x03;  0xAA; 0xBB].

(** A request with [r_id = 0x1234] and [r_val = 0xDEADBEEF] as a
    little-endian host holds it, in a packet that was never initialised. *)
Definition req_payload : list Z :=
  [0x34; 0x12; 0x01; 0x00; 0xEF; 0xBE; 0xAD; 0xDE].

Definition stale_packet : raw_packet :=
  {| _p_magic := 0xFF; _p_proto_vers := 0x07; p_type := 0; p_flags := 0x80;
     p := req_payload |}.

(** ** The claims on [raw_packet_init] and [raw_packet_copy], as the
    specification words them *)

Section PacketClaims.
Context `{RawPacketsABI}.

(** "writes magic, version, type, flags; zeroes the rest". *)
Definition init_zeroes_the_rest (packet : raw_packet) (type flags : Z) : Prop :=
  let packet' := raw_packet_init packet type flags in
  _p_magic packet' = 0x5A ∧ _p_proto_vers packet' = 0x00
  ∧ p_type packet' = type ∧ p_flags packet' = flags
  ∧ Forall (λ b, b = 0) (p packet').

(** The number of payload bytes a packet occupies, by its type: none
    for an error, a request message for a request or a response, the
    board-sample structure and [nchips × nlines] samples for a board
    sample. *)
Inductive payload_extent (src : raw_packet) : nat → Prop :=
  | extent_err :
      p_type src = RAW_PKT_TYPE_ERR → payload_extent src 0
  | extent_req :
      p_type src = RAW_PKT_TYPE_REQ → payload_extent src sizeof_raw_msg_req
  | extent_res :
      p_type src = RAW_PKT_TYPE_RES → payload_extent src sizeof_raw_msg_req
  | extent_bsamp nchips nlines :
      p_type src = RAW_PKT_TYPE_BSAMP →
      load16 (p src) off_bs_nchips = Some nchips →
      load16 (p src) off_bs_nlines = Some nlines →
      payload_extent src
        (sizeof_raw_msg_bsamp + sizeof_raw_samp_t * Z.to_nat (nchips * nlines)).
End PacketClaims.

(** ** The claims on [raw_packet_recv], as the specification words them *)

#[global] Instance result_fmap : FMap result := λ A B f r,
  match r with Ok a => Ok (f a) | Abort e => Abort e end.

(** A socket whose [recv] fails or succeeds with [ret] and [errno] and
    leaves [packet] in the buffer, whatever it is asked. *)
Definition sock_delivers (ret errno : Z) (packet : raw_packet) : SocketLayer :=
  {| sys_recv := λ _ _ _ _ _, (ret, errno, packet);
     sys_send := λ _ _ len _ errno, (len, errno) |}.

Definition set_proto_vers (v : Z) (pkt : raw_packet) : raw_packet :=
  {| _p_magic := _p_magic pkt; _p_proto_vers := v;
     p_type := p_type pkt; p_flags := p_flags pkt; p := p pkt |}.

(** The socket [S] with the version byte of whatever it delivers
    replaced by [v]. *)
Definition with_version (S : SocketLayer) (v : Z) : SocketLayer :=
  {| sys_recv := λ sockfd packet len flags errno,
       let '(ret, errno, packet) := sys_recv sockfd packet len flags errno in
       (ret, errno, set_proto_vers v packet);
     sys_send := sys_send |}.

Definition state_with_version (v : Z) (st : recv_state) : recv_state :=
  {| rcv_ret := rcv_ret st; rcv_errno := rcv_errno st;
     rcv_packtype := rcv_packtype st;
     rcv_packet := set_proto_vers v (rcv_packet st) |}.

(** A request in network order behind a good header, and the same
    packet with another protocol version. *)
Definition wire_req : raw_packet :=
  {| _p_magic := 0x5A; _p_proto_vers := 0x00; p_type := 2; p_flags := 0;
     p := [0x12; 0x34; 0x01; 0x00; 0xDE; 0xAD; 0xBE; 0xEF] |}.

Definition wire_req_v1 : raw_packet := set_proto_vers 0x01 wire_req.

(** A caller's buffer that holds a board sample of 2 chips and 1 line
    and has no room for more, and what a peer can leave there: a board
    sample that announces 3 chips and 1 line, in network order. *)
Definition bsamp_buffer_2x1 : raw_packet :=
  {| _p_magic := 0x5A; _p_proto_vers := 0x00; p_type := 1; p_flags := 0;
     p := [42; 0; 0; 0;  2; 0;  1; 0;  0x02; 0x01;  0x04; 0x03] |}.

Definition wire_bsamp_3x1 : raw_packet :=
  {| _p_magic := 0x5A; _p_proto_vers := 0x00; p_type := 1; p_flags := 0;
     p := [0; 0; 0; 42;  0; 3;  0; 1;  0x01; 0x02;  0x03; 0x04] |}.

Section RecvClaims.
Context `{RawPacketsABI} `{SocketLayer}.

Definition known_type (t : Z) : Prop :=
  t = RAW_PKT_TYPE_BSAMP ∨ t = RAW_PKT_TYPE_REQ
  ∨ t = RAW_PKT_TYPE_RES ∨ t = RAW_PKT_TYPE_ERR.

(** [payload'] is [payload] converted from network to host byte order
    as a packet of type [t]. *)
Inductive converted (t : Z) (payload : list Z) : list Z → Prop :=
  | converted_bsamp payload' :
      t = RAW_PKT_TYPE_BSAMP → raw_msg_bsamp_ntoh payload = Some payload' →
      converted t payload payload'
  | converted_req payload' :
      t = RAW_PKT_TYPE_REQ → raw_msg_req_ntoh payload = Some payload' →
      converted t payload payload'
  | converted_res payload' :
      t = RAW_PKT_TYPE_RES → raw_msg_res_ntoh payload = Some payload' →
      converted t payload payload'
  | converted_err :
      t = RAW_PKT_TYPE_ERR → converted t payload payload.

(** The bytes of [payload] that a message of type [t] lying there in
    network byte order takes: a request or a response takes
    [sizeof (struct raw_msg_req)]; a board sample takes its fixed part
    and one [raw_samp_t] for each of the [nchips × nlines] samples that
    its own dimensions announce; an error takes none. *)
Definition wire_extent (t : Z) (payload : list Z) : nat :=
  if t =? RAW_PKT_TYPE_BSAMP then
    let nchips := ntohs (default 0 (load16 payload off_bs_nchips)) in
    let nlines := ntohs (default 0 (load16 payload off_bs_nlines)) in
    sizeof_raw_msg_bsamp + sizeof_raw_samp_t * Z.to_nat (nchips * nlines)
  else if (t =? RAW_PKT_TYPE_REQ) || (t =? RAW_PKT_TYPE_RES) then
    sizeof_raw_msg_req
  else 0.

(** The call returns [ret] with [errno], [t] in the cell of the
    expected type and [packet] in the buffer. *)
Definition recv_leaves (sockfd : Z) (packet : raw_packet) (packtype : option Z)
    (flags errno : Z) (ret errno' t : Z) (packet' : raw_packet) : Prop :=
  raw_packet_recv sockfd packet packtype flags errno
  = Ok {| rcv_ret := ret; rcv_errno := errno';
          rcv_packtype := (λ _, t) <$> packtype; rcv_packet := packet' |}.

(** C1 as the specification states it, for a call in which the socket
    returned [ret] and [errno'] and left [packet'] in the buffer: the
    magic is checked, then the expected type is set or compared, then
    the type is looked up and the payload converted. *)
Definition recv_claim_as_stated (sockfd : Z) (packet : raw_packet)
    (packtype : option Z) (flags errno : Z)
    (ret errno' : Z) (packet' : raw_packet) : Prop :=
  let expected := default 0 packtype in
  let received := p_type packet' in
  let leaves := recv_leaves sockfd packet packtype flags errno in
  (_p_magic packet' ≠ 0x5A → leaves (-1) EPROTO expected packet')
  ∧ (_p_magic packet' = 0x5A → expected = 0 →
     ∃ st, raw_packet_recv sockfd packet packtype flags errno = Ok st
           ∧ rcv_packtype st = (λ _, received) <$> packtype)
  ∧ (_p_magic packet' = 0x5A → expected ≠ 0 → expected ≠ received →
     leaves (-1) EIO expected packet')
  ∧ (_p_magic packet' = 0x5A → expected = 0 ∨ expected = received →
     ¬ known_type received → leaves (-1) EPROTO received packet')
  ∧ (∀ payload,
       _p_magic packet' = 0x5A → expected = 0 ∨ expected = received →
       converted received (p packet') payload →
       leaves ret errno' received (set_p packet' payload)).

(** C7 as the specification states it: a packet is rejected for its
    magic and for its protocol version. *)
Definition recv_validates_version (sockfd : Z) (packet : raw_packet)
    (packtype : option Z) (flags errno : Z) (packet' : raw_packet) : Prop :=
  _p_magic packet' ≠ 0x5A ∨ _p_proto_vers packet' ≠ 0x00 →
  recv_leaves sockfd packet packtype flags errno
    (-1) EPROTO (default 0 packtype) packet'.
End RecvClaims.

(** ** The claims on the control session, as the specification words
    them, and what they are stated with *)

(** The machine at the assertion of [control_set_transactions]: the
    mutex is taken unless the caller holds it. *)
Definition entered (have_lock : bool) (m : machine) : machine :=
  if have_lock then m
  else {| sess := sess m; mtx_held := true; trace := trace m ++ [EvLock] |}.

(** What a hook does to the session; a null hook does nothing. *)
Definition hook_app (hook : option (control_session → control_session))
    (cs : control_session) : control_session :=
  match hook with
  | Some h => h cs
  | None => cs
  end.

(** A hook that leaves an empty transaction list empty. *)
Definition keeps_txns_empty (hook : option (control_session → control_session)) : Prop :=
  ∀ cs, txns_empty cs → txns_empty (hook_app hook cs).

(** C3 as the specification states it, with [k] the value of [cur_rid]
    before the call and [n] the length of [txns]: request [i] is stamped
    with [k + i] and [cur_rid] ends as [k + n]. *)
Definition stamping_claim_as_stated (m : machine) (txns : list control_txn)
    (have_lock : bool) : Prop :=
  let k := ctl_cur_rid (sess m) in
  let n := length txns in
  ∃ m' stamped,
    control_set_transactions m (Some txns) (Z.of_nat n) have_lock = Ok m'
    ∧ ctl_txns (sess m') = Some stamped
    ∧ (∀ i, (i < n)%nat →
         r_id ∘ ctxn_req <$> stamped !! i = Some (k + Z.of_nat i))
    ∧ ctl_cur_rid (sess m') = k + Z.of_nat n
    ∧ ctl_cur_txn (sess m') = 0.

(** Wake reasons as bits, no hooks, a request, and a session at rest
    whose [cur_rid] is [rid]. *)
Definition why_bits : ControlABI :=
  {| CONTROL_WHY_NONE := 0; CONTROL_WHY_EXIT := 1; CONTROL_WHY_CLIENT_CMD := 2;
     CONTROL_WHY_CLIENT_RES := 4; CONTROL_WHY_DNODE_TXN := 8 |}.

Definition no_hooks : ControlOps :=
  {| control_client_ops := {| cs_close := None; cs_thread := None |};
     control_dnode_ops := {| cs_close := None; cs_thread := None |} |}.

Definition req0 : raw_msg_req :=
  {| r_id := 0; r_type := 1; r_addr := 0; r_val := 0 |}.

Definition txn0 : control_txn := {| ctxn_req := req0; ctxn_res := req0 |}.

Definition session_at_rest (rid : Z) : machine :=
  {| sess := {| wake_why := 0; cbev := 0x1000; dbev := 0x2000;
                ctl_txns := None; ctl_n_txns := 0; ctl_cur_txn := -1;
                ctl_cur_rid := rid |};
     mtx_held := false;
     trace := [] |}.

(** A session in the middle of three transactions. *)
Definition session_busy : machine :=
  {| sess := {| wake_why := 0; cbev := 0x1000; dbev := 0x2000;
                ctl_txns := Some [txn0; txn0; txn0]; ctl_n_txns := 3;
                ctl_cur_txn := 1; ctl_cur_rid := 3 |};
     mtx_held := false;
     trace := [] |}.

(** The worker after [k] waits: the others acted [k] times on the
    session, the mutex is held again. *)
Definition waited (k : nat) (env : list (control_session → control_session))
    (m : machine) : machine :=
  {| sess := sess_after (take k env) (sess m);
     mtx_held := true;
     trace := trace m ++ replicate k EvCondWait |}.

(** Another thread calls [control_set_wake(cs, why)]. *)
Definition sets_wake (why : Z) (cs : control_session) : control_session :=
  set_wake_why (Z.lor (wake_why cs) why) cs.

(* ===================================================================== *)
(** * Part I, continued: the rest of the two files                       *)
(* ===================================================================== *)

(** ** lib/raw_packets.c: allocation *)

(** [malloc(3)], as the block it returns ([None] for [NULL]; the contents
    are whatever the allocator left there), the largest [size_t], and
    the offset of the union [p] in [struct raw_packet], which
    [raw_packets.h] fixes and the sources do not show. *)
Class Allocator := {
  SIZE_MAX : Z;
  offsetof_raw_packet_p : nat;
  malloc : Z → option (list Z)
}.

(** The four [uint8_t] fields of the header. *)
Definition sizeof_raw_packet_header : nat := 4.

(** Modelled from the spec: a [struct raw_packet] laid over a block of
    memory; the header is in bytes 0 to 3 (section 6 of the spec:
    magic, protocol version, type, flags), the payload starts at
    [offsetof(struct raw_packet, p)]. *)
Definition packet_at `{Allocator} (block : list Z) : raw_packet :=
  {| _p_magic := default 0 (block !! 0%nat);
     _p_proto_vers := default 0 (block !! 1%nat);
     p_type := default 0 (block !! 2%nat);
     p_flags := default 0 (block !! 3%nat);
     p := drop offsetof_raw_packet_p block |}.

Section RawPacketsAlloc.
Context `{RawPacketsABI} `{Allocator}.

(** [nchips] and [nlines] are [uint16_t]; the size is computed on
    [size_t], where it wraps at [SIZE_MAX + 1].  The result is [None]
    for a null pointer; writing the header of a block that is too short
    for it is a memory fault, as are the two stores. *)
Definition raw_packet_create_bsamp (nchips nlines : Z) : result (option raw_packet) :=
  let bsamp_size := (Z.of_nat offsetof_raw_packet_p
                     + Z.of_nat sizeof_raw_msg_bsamp
                     + nchips * nlines * Z.of_nat sizeof_raw_samp_t)
                    mod (SIZE_MAX + 1) in
  match malloc bsamp_size with
  | None => Ok None
  | Some block =>
      if decide (sizeof_raw_packet_header ≤ length block)%nat then
        let ret := raw_packet_init (packet_at block) RAW_PKT_TYPE_BSAMP 0 in
        payload ← access (store16 (p ret) off_bs_nchips nchips);
        payload ← access (store16 payload off_bs_nlines nlines);
        Ok (Some (set_p ret payload))
      else Abort MemoryFault
  end.

(** [wire] is [payload] converted from host to network byte order as a
    packet of type [t]. *)
Inductive sent_as (t : Z) (payload : list Z) : list Z → Prop :=
  | sent_bsamp wire :
      t = RAW_PKT_TYPE_BSAMP → raw_msg_bsamp_hton payload = Some wire →
      sent_as t payload wire
  | sent_req wire :
      t = RAW_PKT_TYPE_REQ → raw_msg_req_hton payload = Some wire →
      sent_as t payload wire
  | sent_res wire :
      t = RAW_PKT_TYPE_RES → raw_msg_res_hton payload = Some wire →
      sent_as t payload wire
  | sent_err :
      t = RAW_PKT_TYPE_ERR → sent_as t payload payload.
End RawPacketsAlloc.

(** An allocator that hands out blocks of [0xCD] bytes, for a header of
    four bytes, on a machine with a [size_t] of [bits] bits. *)
Definition alloc_cd (bits : Z) : Allocator :=
  {| SIZE_MAX := 2 ^ bits - 1;
     offsetof_raw_packet_p := 4;
     malloc := λ size, Some (replicate (Z.to_nat size) 0xCD) |}.

(** A request as [raw_packet_init] and the caller make it. *)
Definition host_req : raw_packet :=
  set_p (raw_packet_init stale_packet 2 0) req_payload.

(** ** lib/raw_packets.c: the buffer of [raw_packet_copy] where it stops

    [raw_packet_copy] once more, statement by statement, with what is
    in [dst] when the call ends: the header is copied first, then the
    [switch] copies the payload or reaches [assert(0)].  Where the
    assertion fires the caller's buffer is the one the first [memcpy]
    left; a [memcpy] that runs off a buffer leaves nothing that could
    be relied on. *)
Inductive copy_outcome :=
  | Copied (dst : raw_packet)
  | Asserted (dst : raw_packet)
  | RanOff.

Definition raw_packet_copy_outcome `{RawPacketsABI}
    (dst src : raw_packet) : copy_outcome :=
  let dst := copy_header dst src in
  if p_type src =? RAW_PKT_TYPE_BSAMP then
    match raw_packet_sampsize src with
    | Some sampsize =>
        match memcpy (p dst) (p src)
                (sizeof_raw_msg_bsamp + Z.to_nat sampsize) with
        | Some payload => Copied (set_p dst payload)
        | None => RanOff
        end
    | None => RanOff
    end
  else if (p_type src =? RAW_PKT_TYPE_REQ) || (p_type src =? RAW_PKT_TYPE_RES) then
    match memcpy (p dst) (p src) sizeof_raw_msg_req with
    | Some payload => Copied (set_p dst payload)
    | None => RanOff
    end
  else if p_type src =? RAW_PKT_TYPE_ERR then
    Copied dst
  else
    Asserted dst.

(** The outcome as a result: what the caller gets. *)
Definition result_of_copy (o : copy_outcome) : result raw_packet :=
  match o with
  | Copied dst => Ok dst
  | Asserted _ => Abort AssertionFailed
  | RanOff => Abort MemoryFault
  end.

(** ** src/control.c: waking the worker *)

(** [control_set_wake]: [cs->wake_why |= why] between
    [control_must_lock] and [control_must_unlock]. *)
Definition control_set_wake (m : machine) (why : Z) : result machine :=
  m ← __control_must_lock m;
  __control_must_unlock (upd_sess (sets_wake why) m).

(** Two sessions that differ at most in [wake_why]. *)
Definition same_but_wake (cs cs' : control_session) : Prop :=
  cbev cs' = cbev cs ∧ dbev cs' = dbev cs ∧ ctl_txns cs' = ctl_txns cs
  ∧ ctl_n_txns cs' = ctl_n_txns cs ∧ ctl_cur_txn cs' = ctl_cur_txn cs
  ∧ ctl_cur_rid cs' = ctl_cur_rid cs.

(** The bit test [events & BEV_EVENT_EOF || events & BEV_EVENT_ERROR]. *)
Definition closing (events : Z) : bool :=
  negb (Z.land events BEV_EVENT_EOF =? 0)
  || negb (Z.land events BEV_EVENT_ERROR =? 0).

(** A hook that leaves a field of the session alone. *)
Definition keeps {A} (field : control_session → A)
    (hook : option (control_session → control_session)) : Prop :=
  ∀ cs, field (hook_app hook cs) = field cs.


(** The lock discipline of a trace: the mutex is taken only when free
    and released only when held; waiting, the thread hooks, freeing an
    endpoint and replacing the transaction list happen with the mutex
    held, the close hooks and the exit of the thread without it.
    [held] tells whether the mutex is held before the trace; the result
    is [None] when the discipline is broken and otherwise tells whether
    the mutex is held after it. *)
Fixpoint well_locked (held : bool) (tr : list event) : option bool :=
  match tr with
  | [] => Some held
  | EvLock :: tr => if held then None else well_locked true tr
  | EvUnlock :: tr => if held then well_locked false tr else None
  | (EvCloseHook _ | EvThreadExit) :: tr =>
      if held then None else well_locked false tr
  | _ :: tr => if held then well_locked true tr else None
  end.

(** [control_worker_main] among the other threads.  The mutex is free
    from [control_must_unlock], which ends an iteration, to
    [control_must_lock], which begins the next, and there the other
    threads can act on the session, as [control_set_wake] does.
    [between] lists, one per iteration, what they do before the worker
    takes the mutex; the worker runs for [length between] iterations
    at most.  [env] is, as before, what they do during the waits. *)
Fixpoint control_worker_main_among `{ControlABI} `{ControlOps}
    (between env : list (control_session → control_session)) (m : machine)
  : worker_state :=
  match between with
  | [] => Running m env
  | others :: between =>
      match control_worker_iteration env (upd_sess others m) with
      | Running m env => control_worker_main_among between env m
      | other => other
      end
  end.


(** Thread hooks that ask for the worker to exit, for the examples. *)
Definition exit_hooks : ControlOps :=
  {| control_client_ops := {| cs_close := None; cs_thread := Some (sets_wake 1) |};
     control_dnode_ops := {| cs_close := None; cs_thread := None |} |}.

(** ** src/control.c: connections, reading, and the life of a session *)

(** [<event2/bufferevent.h>], [<event2/listener.h>] and
    [<event2/event.h>] of libevent. *)
Definition BEV_OPT_CLOSE_ON_FREE : Z := 0x01.
Definition BEV_OPT_THREADSAFE : Z := 0x02.
Definition LEV_OPT_CLOSE_ON_FREE : Z := 0x02.
Definition LEV_OPT_REUSEABLE : Z := 0x08.
Definition LEV_OPT_THREADSAFE : Z := 0x10.
Definition EV_READ : Z := 0x02.

(** The calls the code below makes into libc, libevent, pthreads,
    [sockutil.h] and the hook tables, with the arguments and results
    the code looks at; [Sync] is a step on the session's mutex.
    Pointers are addresses, [0] for [NULL]. *)
Inductive lib_call :=
  | Sync (e : event)
  | MallocSession (ok : bool)
  | FreeSession
  | FreeTxnArray
  | TcpPassive (port fd : Z)
  | TcpConnected (port fd : Z)
  | UdpSocket (port fd : Z)
  | MakeNonblocking (fd ret : Z)
  | Close (fd : Z)
  | Closesocket (fd : Z)
  | Recvfrom (fd : Z)
  | ListenerNew (fd flags ecl : Z)
  | ListenerSetErrorCb (ecl : Z)
  | ListenerFree (ecl : Z)
  | BevSocketNew (fd opts bev : Z)
  | BevGetEnabled (bev : Z)
  | BevDisable (bev : Z)
  | BevSetcb (bev : Z) (s : side)
  | BevEnable (bev : Z)
  | BevFree (bev : Z)
  | EventNew (fd ev : Z)
  | EventAdd (ev : Z)
  | EventFree (ev : Z)
  | MutexInit (en : Z)
  | MutexDestroy (en : Z)
  | CondInit (en : Z)
  | CondDestroy (en : Z)
  | CondSignal (en : Z)
  | ThreadCreate (en : Z)
  | ThreadJoin (en : Z)
  | StartHook (s : side) (ret : Z)
  | StopHook (s : side)
  | OpenHook (s : side) (fd ret : Z)
  | ReadHook (s : side) (ret : Z).

(** What the libraries and the system answer: the results of the calls
    that the code tests, and what the worker does to the session until
    it has exited. *)
Class System := {
  malloc_session : bool;
  sockutil_get_tcp_passive : Z → Z;
  sockutil_get_tcp_connected_p : Z → Z;
  sockutil_get_udp_socket : Z → Z;
  evutil_make_socket_nonblocking : Z → Z;
  evconnlistener_new : Z → Z → Z;
  bufferevent_socket_new : Z → Z → Z;
  event_new : Z → Z;
  pthread_mutex_init : Z;
  pthread_mutex_destroy : Z;
  pthread_cond_init : Z;
  pthread_cond_destroy : Z;
  pthread_cond_signal : Z;
  pthread_create : Z;
  pthread_join : Z;
  worker_until_exit : control_session → control_session
}.

(** Modelled from the spec: the [cs_start], [cs_stop], [cs_open] and
    [cs_read] hooks of one side ([struct control_ops] of [control.h]);
    a null hook is [None].  A hook receives the session and may change
    it; [cs_read] returns the reason to wake the worker for. *)
Record side_ops := {
  cs_start : option (control_session → control_session * Z);
  cs_stop : option (control_session → control_session);
  cs_open : option (control_session → Z → control_session * Z);
  cs_read : option (control_session → control_session * Z)
}.

Class ControlSideOps := {
  client_side_ops : side_ops;
  dnode_side_ops : side_ops
}.

(** The session with the fields of [struct control_session] that only
    [control_new], [control_free] and [control_sample] use, and the
    calls made so far. *)
Record process := {
  mach : machine;
  cecl : Z;
  ddatafd : Z;
  cdatafd : Z;
  ddataevt : Z;
  calls : list lib_call
}.

Definition call (c : lib_call) (pr : process) : process :=
  {| mach := mach pr; cecl := cecl pr; ddatafd := ddatafd pr;
     cdatafd := cdatafd pr; ddataevt := ddataevt pr;
     calls := calls pr ++ [c] |}.

Definition upd_cs (f : control_session → control_session) (pr : process) : process :=
  {| mach := upd_sess f (mach pr); cecl := cecl pr; ddatafd := ddatafd pr;
     cdatafd := cdatafd pr; ddataevt := ddataevt pr; calls := calls pr |}.

Definition set_cecl (v : Z) (pr : process) : process :=
  {| mach := mach pr; cecl := v; ddatafd := ddatafd pr;
     cdatafd := cdatafd pr; ddataevt := ddataevt pr; calls := calls pr |}.

Definition set_ddatafd (v : Z) (pr : process) : process :=
  {| mach := mach pr; cecl := cecl pr; ddatafd := v;
     cdatafd := cdatafd pr; ddataevt := ddataevt pr; calls := calls pr |}.

Definition set_cdatafd (v : Z) (pr : process) : process :=
  {| mach := mach pr; cecl := cecl pr; ddatafd := ddatafd pr;
     cdatafd := v; ddataevt := ddataevt pr; calls := calls pr |}.

Definition set_ddataevt (v : Z) (pr : process) : process :=
  {| mach := mach pr; cecl := cecl pr; ddatafd := ddatafd pr;
     cdatafd := cdatafd pr; ddataevt := v; calls := calls pr |}.

(** [if (test) { c; }], where the test and the call look at the
    session. *)
Definition when (test : process → bool) (c : process → lib_call) (pr : process)
  : process :=
  {| mach := mach pr; cecl := cecl pr; ddatafd := ddatafd pr;
     cdatafd := cdatafd pr; ddataevt := ddataevt pr;
     calls := calls pr ++ (if test pr then [c pr] else []) |}.

(** A step on the mutex, taken on the machine and recorded among the
    calls. *)
Definition on_machine (f : machine → result machine) (pr : process)
  : result process :=
  m ← f (mach pr);
  Ok {| mach := m; cecl := cecl pr; ddatafd := ddatafd pr;
        cdatafd := cdatafd pr; ddataevt := ddataevt pr;
        calls := calls pr
                 ++ (Sync <$> drop (length (trace (mach pr))) (trace m)) |}.

Definition session (pr : process) : control_session := sess (mach pr).

(** The endpoint of a side: [cs->cbev] or [cs->dbev]. *)
Definition slot (s : side) : control_session → Z :=
  match s with Client => cbev | Dnode => dbev end.

Definition set_slot (s : side) : Z → control_session → control_session :=
  match s with Client => set_cbev | Dnode => set_dbev end.

(** How a function ends: it returns ([control_new]: with the session),
    it returns [NULL], the process ends in [control_fatal_err], or it
    fails. *)
Inductive ending :=
  | Done (pr : process)
  | Null (pr : process)
  | Fatal (pr : process)
  | Broken (f : failure).

(** The labels at the end of [control_new], in the order of the text. *)
Inductive label :=
  | noworker | noddataevt | nobnonblock | nobsock | nodnode | noclient
  | nocv | nomtx | nodnonblock | nodsock | nocecl | nocs.

Definition labels : list label :=
  [noworker; noddataevt; nobnonblock; nobsock; nodnode; noclient;
   nocv; nomtx; nodnonblock; nodsock; nocecl; nocs].

Definition label_index (l : label) : nat :=
  match l with
  | noworker => 0 | noddataevt => 1 | nobnonblock => 2 | nobsock => 3
  | nodnode => 4 | noclient => 5 | nocv => 6 | nomtx => 7
  | nodnonblock => 8 | nodsock => 9 | nocecl => 10 | nocs => 11
  end.

Section ControlLife.
Context `{ControlABI} `{System} `{ControlSideOps}.

Definition side_ops_of (s : side) : side_ops :=
  match s with Client => client_side_ops | Dnode => dnode_side_ops end.

(** [control_client_start] and [control_dnode_start]. *)
Definition control_start (s : side) (pr : process) : process * Z :=
  match cs_start (side_ops_of s) with
  | None => (pr, 0)
  | Some hook =>
      let ret := snd (hook (session pr)) in
      (call (StartHook s ret) (upd_cs (λ cs, fst (hook cs)) pr), ret)
  end.

(** [control_client_stop] and [control_dnode_stop]. *)
Definition control_stop (s : side) (pr : process) : process :=
  match cs_stop (side_ops_of s) with
  | None => pr
  | Some hook => call (StopHook s) (upd_cs hook pr)
  end.

(** [control_client_open] and [control_dnode_open]. *)
Definition control_open (s : side) (sockfd : Z) (pr : process) : process * Z :=
  match cs_open (side_ops_of s) with
  | None => (pr, 0)
  | Some hook =>
      let ret := snd (hook (session pr) sockfd) in
      (call (OpenHook s sockfd ret) (upd_cs (λ cs, fst (hook cs sockfd)) pr), ret)
  end.

(** [control_client_read] and [control_dnode_read]. *)
Definition control_read (s : side) (pr : process) : process * Z :=
  match cs_read (side_ops_of s) with
  | None => (pr, CONTROL_WHY_NONE)
  | Some hook =>
      let ret := snd (hook (session pr)) in
      (call (ReadHook s ret) (upd_cs (λ cs, fst (hook cs)) pr), ret)
  end.

(** [control_must_signal] and [control_must_join]: an error ends the
    process in [control_fatal_err] ([inr]). *)
Definition __control_must_signal (pr : process) : process + process :=
  let pr := call (CondSignal pthread_cond_signal) pr in
  if negb (pthread_cond_signal =? 0) then inr pr else inl pr.

(** While the caller waits in [pthread_join] the worker runs to its
    exit and acts on the session. *)
Definition __control_must_join (pr : process) : process + process :=
  let pr := upd_cs worker_until_exit pr in
  let pr := call (ThreadJoin pthread_join) pr in
  if negb (pthread_join =? 0) then inr pr else inl pr.

Definition control_must_wake (why : Z) (pr : process) : ending :=
  match on_machine (λ m, control_set_wake m why) pr with
  | Abort f => Broken f
  | Ok pr =>
      match __control_must_signal pr with
      | inl pr => Done pr
      | inr pr => Fatal pr
      end
  end.

(** The [switch] of [control_bev_reader]: [case CONTROL_WHY_NONE],
    [case CONTROL_WHY_EXIT], [default]; [reader] is the read wrapper of
    the side [s]. *)
Definition control_bev_reader (s : side) (pr : process) : ending :=
  let '(pr, read_why_wake) := control_read s pr in
  if read_why_wake =? CONTROL_WHY_NONE then Done pr
  else if read_why_wake =? CONTROL_WHY_EXIT then Fatal pr
  else control_must_wake read_why_wake pr.

Definition control_client_bev_read (pr : process) : ending :=
  control_bev_reader Client pr.

Definition control_dnode_bev_read (pr : process) : ending :=
  control_bev_reader Dnode pr.

Definition control_new_listener (port : Z) (pr : process) : process * Z :=
  let sockfd := sockutil_get_tcp_passive port in
  let pr := call (TcpPassive port sockfd) pr in
  if sockfd =? -1 then (pr, 0)
  else
    let pr := call (MakeNonblocking sockfd
                      (evutil_make_socket_nonblocking sockfd)) pr in
    let flags := Z.lor (Z.lor LEV_OPT_CLOSE_ON_FREE LEV_OPT_REUSEABLE)
                   LEV_OPT_THREADSAFE in
    let ecl := evconnlistener_new sockfd flags in
    let pr := call (ListenerNew sockfd flags ecl) pr in
    if ecl =? 0 then (call (Close sockfd) pr, 0)
    else (call (ListenerSetErrorCb ecl) pr, ecl).

(** The callbacks are those of the side [s]. *)
Definition control_new_bev (s : side) (fd : Z) (pr : process) : process * Z :=
  let bev_opts := Z.lor BEV_OPT_CLOSE_ON_FREE BEV_OPT_THREADSAFE in
  let ret := bufferevent_socket_new fd bev_opts in
  let pr := call (BevSocketNew fd bev_opts ret) pr in
  if ret =? 0 then (pr, 0)
  else
    let pr := call (BevGetEnabled ret) pr in
    let pr := call (BevDisable ret) pr in
    let pr := call (BevSetcb ret s) pr in
    (pr, ret).

Definition refuse_connection (fd : Z) (pr : process) : process :=
  call (Closesocket fd) pr.

(** [control_conn_open] for the side [s]: [bevp] is the address of the
    side's endpoint, [read], [event] and [on_open] are the side's.  The
    second [bufferevent_disable] comes before the test of [bev]. *)
Definition control_conn_open (s : side) (fd : Z) (pr : process) : result process :=
  if negb (slot s (session pr) =? 0) then Ok (refuse_connection fd pr)
  else
    let '(pr, bev) := control_new_bev s fd pr in
    let pr := call (BevGetEnabled bev) pr in
    let pr := call (BevDisable bev) pr in
    if bev =? 0 then Ok pr
    else
      pr ← on_machine __control_must_lock pr;
      let pr := upd_cs (set_slot s bev) pr in
      pr ← on_machine __control_must_unlock pr;
      let '(pr, opened) := control_open s fd pr in
      if opened =? -1 then
        let pr := refuse_connection fd pr in
        let pr := call (BevFree bev) pr in
        Ok (upd_cs (set_slot s 0) pr)
      else
        Ok (call (BevEnable bev) pr).

Definition client_ecl (fd : Z) (pr : process) : result process :=
  control_conn_open Client fd pr.

(** [control_sample]: a datagram that nobody wants is read and
    dropped. *)
Definition control_sample (sockfd events : Z) (pr : process) : process :=
  if negb (sockfd =? ddatafd pr) then pr
  else if negb (Z.land events EV_READ =? 0) && (cdatafd pr =? -1) then
    call (Recvfrom (ddatafd pr)) pr
  else pr.

(** The statements at one label of [control_new]; [local_cecl] and
    [local_ddatafd] are the local variables [cecl] and [ddatafd] (the
    socket connected to the data node; [cs->ddatafd] is the sample
    socket).  [inr] is the end of the process in
    [control_fatal_err]. *)
Definition at_label (l : label) (local_cecl local_ddatafd : Z) (pr : process)
  : process + process :=
  match l with
  | noworker => inl (call (EventFree (ddataevt pr)) pr)
  | noddataevt => inl pr
  | nobnonblock => inl (call (Closesocket (ddatafd pr)) pr)
  | nobsock =>
      let pr := if negb (dbev (session pr) =? 0)
                then call (BevFree (dbev (session pr))) pr else pr in
      inl (control_stop Dnode pr)
  | nodnode => inl (control_stop Client pr)
  | noclient =>
      let pr := call (CondDestroy pthread_cond_destroy) pr in
      if negb (pthread_cond_destroy =? 0) then inr pr else inl pr
  | nocv =>
      let pr := call (MutexDestroy pthread_mutex_destroy) pr in
      if negb (pthread_mutex_destroy =? 0) then inr pr else inl pr
  | nomtx => inl pr
  | nodnonblock => inl (call (Closesocket local_ddatafd) pr)
  | nodsock => inl (call (ListenerFree local_cecl) pr)
  | nocecl => inl (call FreeSession pr)
  | nocs => inl pr
  end.

(** Falling through the labels [ls], then [return NULL]. *)
Fixpoint fall_through (ls : list label) (local_cecl local_ddatafd : Z)
    (pr : process) : ending :=
  match ls with
  | [] => Null pr
  | l :: ls =>
      match at_label l local_cecl local_ddatafd pr with
      | inl pr => fall_through ls local_cecl local_ddatafd pr
      | inr pr => Fatal pr
      end
  end.

(** [goto l]. *)
Definition goto (l : label) (local_cecl local_ddatafd : Z) (pr : process)
  : ending :=
  fall_through (drop (label_index l) labels) local_cecl local_ddatafd pr.

(** [control_new]; [pr] holds the session as [malloc] returns it, its
    fields being whatever was in the block.  A local variable that is
    not yet set when a label is reached is not used from there on, and
    is given as [0]. *)
Definition control_new (client_port dnode_port sample_port : Z) (pr : process)
  : ending :=
  let pr := call (MallocSession malloc_session) pr in
  if negb malloc_session then goto nocs 0 0 pr else
  let '(pr, local_cecl) := control_new_listener client_port pr in
  if local_cecl =? 0 then goto nocecl local_cecl 0 pr else
  let local_ddatafd := sockutil_get_tcp_connected_p dnode_port in
  let pr := call (TcpConnected dnode_port local_ddatafd) pr in
  if local_ddatafd =? -1 then goto nodsock local_cecl local_ddatafd pr else
  let nonblocking := evutil_make_socket_nonblocking local_ddatafd in
  let pr := call (MakeNonblocking local_ddatafd nonblocking) pr in
  if negb (nonblocking =? 0) then goto nodnonblock local_cecl local_ddatafd pr else
  let pr := call (MutexInit pthread_mutex_init) pr in
  if negb (pthread_mutex_init =? 0) then goto nomtx local_cecl local_ddatafd pr else
  let pr := call (CondInit pthread_cond_init) pr in
  if negb (pthread_cond_init =? 0) then goto nocv local_cecl local_ddatafd pr else
  let pr := upd_cs (set_wake_why CONTROL_WHY_NONE) pr in
  let pr := set_cecl local_cecl pr in
  let pr := upd_cs (set_cbev 0) pr in
  let '(pr, started) := control_start Client pr in
  if negb (started =? 0) then goto noclient local_cecl local_ddatafd pr else
  let pr := upd_cs (set_dbev 0) pr in
  let '(pr, started) := control_start Dnode pr in
  if negb (started =? 0) then goto nodnode local_cecl local_ddatafd pr else
  match control_conn_open Dnode local_ddatafd pr with
  | Abort f => Broken f
  | Ok pr =>
      let sample_fd := sockutil_get_udp_socket sample_port in
      let pr := set_ddatafd sample_fd (call (UdpSocket sample_port sample_fd) pr) in
      if ddatafd pr =? -1 then goto nobsock local_cecl local_ddatafd pr else
      let nonblocking := evutil_make_socket_nonblocking (ddatafd pr) in
      let pr := call (MakeNonblocking (ddatafd pr) nonblocking) pr in
      if nonblocking =? -1 then goto nobnonblock local_cecl local_ddatafd pr else
      let pr := set_cdatafd (-1) pr in
      let ev := event_new (ddatafd pr) in
      let pr := set_ddataevt ev (call (EventNew (ddatafd pr) ev) pr) in
      if ddataevt pr =? 0 then goto noddataevt local_cecl local_ddatafd pr else
      let pr := call (EventAdd (ddataevt pr)) pr in
      let pr := upd_cs (set_txns None 0 (-1) 0) pr in
      match on_machine __control_must_lock pr with
      | Abort f => Broken f
      | Ok pr =>
          let pr := call (ThreadCreate pthread_create) pr in
          match on_machine __control_must_unlock pr with
          | Abort f => Broken f
          | Ok pr =>
              if negb (pthread_create =? 0)
              then goto noworker local_cecl local_ddatafd pr
              else Done pr
          end
      end
  end.

(** [control_free]; the results of the two [destroy] calls are not
    looked at here. *)
Definition control_free (pr : process) : ending :=
  match control_must_wake CONTROL_WHY_EXIT pr with
  | Done pr =>
      match __control_must_join pr with
      | inr pr => Fatal pr
      | inl pr =>
          let pr := when (λ pr, negb (ddataevt pr =? 0))
                      (λ pr, EventFree (ddataevt pr)) pr in
          let pr := when (λ pr, negb (cdatafd pr =? -1))
                      (λ pr, Closesocket (cdatafd pr)) pr in
          let pr := when (λ pr, negb (ddatafd pr =? -1))
                      (λ pr, Closesocket (ddatafd pr)) pr in
          let pr := control_stop Dnode pr in
          let pr := control_stop Client pr in
          let pr := call (CondDestroy pthread_cond_destroy) pr in
          let pr := call (MutexDestroy pthread_mutex_destroy) pr in
          let pr := when (λ pr, negb (dbev (session pr) =? 0))
                      (λ pr, BevFree (dbev (session pr))) pr in
          let pr := call (ListenerFree (cecl pr)) pr in
          let pr := when (λ pr, negb (cbev (session pr) =? 0))
                      (λ pr, BevFree (cbev (session pr))) pr in
          let pr := when (λ pr, negb (is_null (ctl_txns (session pr))))
                      (λ _, FreeTxnArray) pr in
          Done (call FreeSession pr)
      end
  | other => other
  end.
End ControlLife.

(** What a hook that returns a value does to the session and what it
    returns; a null hook changes nothing and returns [dflt]. *)
Definition hook_ret (hook : option (control_session → control_session * Z))
    (dflt : Z) (cs : control_session) : control_session * Z :=
  match hook with
  | Some h => h cs
  | None => (cs, dflt)
  end.

(** ** What is acquired and what is released

    The resources that the calls above acquire and release.  A
    bufferevent made with [BEV_OPT_CLOSE_ON_FREE], and a listener made
    with [LEV_OPT_CLOSE_ON_FREE], owns its socket: freeing it closes
    the socket. *)
Inductive resource :=
  | RSession
  | RFd (fd : Z)
  | RListener (ecl : Z)
  | RBev (bev : Z)
  | REvent (ev : Z)
  | RMutex
  | RCond
  | RThread.

Definition same_resource (r r' : resource) : bool :=
  match r, r' with
  | RSession, RSession | RMutex, RMutex | RCond, RCond | RThread, RThread => true
  | RFd a, RFd b | RListener a, RListener b | RBev a, RBev b
  | REvent a, REvent b => a =? b
  | _, _ => false
  end.

(** The resources that are live, the latest first, and the sockets
    that live resources own. *)
Record ledger := {
  live : list resource;
  owned : list (resource * Z)
}.

Definition no_resources : ledger := {| live := []; owned := [] |}.

Definition acquire (r : resource) (lg : ledger) : ledger :=
  {| live := r :: live lg; owned := owned lg |}.

Definition own (r : resource) (fd : Z) (lg : ledger) : ledger :=
  {| live := live lg; owned := (r, fd) :: owned lg |}.

(** Taking a resource out of the live ones; [None] when it is not
    there: it was never acquired, or it is released a second time. *)
Fixpoint take_out (r : resource) (rs : list resource) : option (list resource) :=
  match rs with
  | [] => None
  | r' :: rs =>
      if same_resource r r' then Some rs
      else rs ← take_out r rs; Some (r' :: rs)
  end.

Definition release (r : resource) (lg : ledger) : option ledger :=
  rs ← take_out r (live lg);
  Some {| live := rs; owned := owned lg |}.

(** Releasing an owner releases the sockets it owns. *)
Fixpoint release_owned (r : resource) (os : list (resource * Z)) (lg : ledger)
  : option ledger :=
  match os with
  | [] => Some lg
  | (r', fd) :: os =>
      lg ← (if same_resource r r' then release (RFd fd) lg else Some lg);
      release_owned r os lg
  end.

Fixpoint disown (r : resource) (os : list (resource * Z)) : list (resource * Z) :=
  match os with
  | [] => []
  | (r', fd) :: os =>
      if same_resource r r' then disown r os else (r', fd) :: disown r os
  end.

Definition release_owner (r : resource) (lg : ledger) : option ledger :=
  lg ← release r lg;
  lg ← release_owned r (owned lg) lg;
  Some {| live := live lg; owned := disown r (owned lg) |}.

Definition account_call (c : lib_call) (lg : ledger) : option ledger :=
  match c with
  | MallocSession ok => Some (if ok then acquire RSession lg else lg)
  | FreeSession => release RSession lg
  | TcpPassive _ fd | TcpConnected _ fd | UdpSocket _ fd =>
      Some (if fd =? -1 then lg else acquire (RFd fd) lg)
  | Close fd | Closesocket fd => release (RFd fd) lg
  | ListenerNew fd flags ecl =>
      Some (if ecl =? 0 then lg
            else if Z.land flags LEV_OPT_CLOSE_ON_FREE =? 0
                 then acquire (RListener ecl) lg
                 else own (RListener ecl) fd (acquire (RListener ecl) lg))
  | ListenerFree ecl => release_owner (RListener ecl) lg
  | BevSocketNew fd opts bev =>
      Some (if bev =? 0 then lg
            else if Z.land opts BEV_OPT_CLOSE_ON_FREE =? 0
                 then acquire (RBev bev) lg
                 else own (RBev bev) fd (acquire (RBev bev) lg))
  | BevFree bev | Sync (EvBevFree bev) => release_owner (RBev bev) lg
  | EventNew _ ev => Some (if ev =? 0 then lg else acquire (REvent ev) lg)
  | EventFree ev => release (REvent ev) lg
  | MutexInit en => Some (if en =? 0 then acquire RMutex lg else lg)
  | MutexDestroy en => if en =? 0 then release RMutex lg else Some lg
  | CondInit en => Some (if en =? 0 then acquire RCond lg else lg)
  | CondDestroy en => if en =? 0 then release RCond lg else Some lg
  | ThreadCreate en => Some (if en =? 0 then acquire RThread lg else lg)
  | ThreadJoin en => if en =? 0 then release RThread lg else Some lg
  | _ => Some lg
  end.

(** The ledger after the calls [cs]; [None] when one of them releases
    what is not live. *)
Fixpoint account (cs : list lib_call) (lg : ledger) : option ledger :=
  match cs with
  | [] => Some lg
  | c :: cs => lg ← account_call c lg; account cs lg
  end.

(** ** A concrete system, for the examples

    Every call succeeds; descriptors and pointers are told apart by
    their values. *)
Definition sys_ok : System :=
  {| malloc_session := true;
     sockutil_get_tcp_passive := λ _, 3;
     sockutil_get_tcp_connected_p := λ _, 4;
     sockutil_get_udp_socket := λ _, 5;
     evutil_make_socket_nonblocking := λ _, 0;
     evconnlistener_new := λ fd _, 0x100 + fd;
     bufferevent_socket_new := λ fd _, 0x200 + fd;
     event_new := λ fd, 0x300 + fd;
     pthread_mutex_init := 0;
     pthread_mutex_destroy := 0;
     pthread_cond_init := 0;
     pthread_cond_destroy := 0;
     pthread_cond_signal := 0;
     pthread_create := 0;
     pthread_join := 0;
     worker_until_exit := λ cs, cs |}.

(** The same system without memory for bufferevents, and one that
    cannot start a thread. *)
Definition sys_no_bev : System :=
  {| malloc_session := true;
     sockutil_get_tcp_passive := λ _, 3;
     sockutil_get_tcp_connected_p := λ _, 4;
     sockutil_get_udp_socket := λ _, 5;
     evutil_make_socket_nonblocking := λ _, 0;
     evconnlistener_new := λ fd _, 0x100 + fd;
     bufferevent_socket_new := λ _ _, 0;
     event_new := λ fd, 0x300 + fd;
     pthread_mutex_init := 0;
     pthread_mutex_destroy := 0;
     pthread_cond_init := 0;
     pthread_cond_destroy := 0;
     pthread_cond_signal := 0;
     pthread_create := 0;
     pthread_join := 0;
     worker_until_exit := λ cs, cs |}.

Definition sys_no_thread : System :=
  {| malloc_session := true;
     sockutil_get_tcp_passive := λ _, 3;
     sockutil_get_tcp_connected_p := λ _, 4;
     sockutil_get_udp_socket := λ _, 5;
     evutil_make_socket_nonblocking := λ _, 0;
     evconnlistener_new := λ fd _, 0x100 + fd;
     bufferevent_socket_new := λ fd _, 0x200 + fd;
     event_new := λ fd, 0x300 + fd;
     pthread_mutex_init := 0;
     pthread_mutex_destroy := 0;
     pthread_cond_init := 0;
     pthread_cond_destroy := 0;
     pthread_cond_signal := 0;
     pthread_create := 11;
     pthread_join := 0;
     worker_until_exit := λ cs, cs |}.

(** Hook tables: no hooks at all; a client side that asks for a command
    to be run when it reads; a data-node side that refuses every
    connection. *)
Definition null_side_ops : side_ops :=
  {| cs_start := None; cs_stop := None; cs_open := None; cs_read := None |}.

Definition no_side_hooks : ControlSideOps :=
  {| client_side_ops := null_side_ops; dnode_side_ops := null_side_ops |}.

Definition read_cmd : ControlSideOps :=
  {| client_side_ops :=
       {| cs_start := None; cs_stop := None; cs_open := None;
          cs_read := Some (λ cs, (cs, 2)) |};
     dnode_side_ops := null_side_ops |}.

Definition refusing : ControlSideOps :=
  {| client_side_ops := null_side_ops;
     dnode_side_ops :=
       {| cs_start := None; cs_stop := None;
          cs_open := Some (λ cs _, (cs, -1)); cs_read := None |} |}.

(** A process around a machine, before any call, and the block that
    [malloc] hands to [control_new]: every field holds [0x77]. *)
Definition process_of (m : machine) : process :=
  {| mach := m; cecl := 0; ddatafd := -1; cdatafd := -1; ddataevt := 0;
     calls := [] |}.

Definition fresh_block : process :=
  {| mach := {| sess := {| wake_why := 0x77; cbev := 0x77; dbev := 0x77;
                           ctl_txns := Some [txn0]; ctl_n_txns := 0x77;
                           ctl_cur_txn := 0x77; ctl_cur_rid := 0x77 |};
                mtx_held := false; trace := [] |};
     cecl := 0x77; ddatafd := 0x77; cdatafd := 0x77; ddataevt := 0x77;
     calls := [] |}.

(** ** Functions used to state the properties of [control_new] *)

(** A bufferevent has been made among the calls. *)
Definition made_bev (cs : list lib_call) : bool :=
  existsb (λ c, match c with
                | BevSocketNew _ _ bev => negb (bev =? 0)
                | _ => false
                end) cs.

(** The calls of the hook wrappers. *)
Definition start_calls (s : side) (ops : side_ops)
    (cs : control_session) : list lib_call :=
  match cs_start ops with
  | Some hook => [StartHook s (hook cs).2]
  | None => []
  end.

Definition stop_calls (s : side) (ops : side_ops)
  : list lib_call :=
  match cs_stop ops with
  | Some _ => [StopHook s]
  | None => []
  end.

(** A hook with a result that leaves a field of the session alone. *)
Definition keeps_ret {A} (field : control_session → A)
    (hook : option (control_session → control_session * Z)) : Prop :=
  ∀ cs, field (hook_ret hook 0 cs).1 = field cs.

(** Calls that neither acquire nor release. *)
Definition neutral (cs : list lib_call) : Prop :=
  ∀ lg, account cs lg = Some lg.


(** The calls of [goto l] in [control_new] when it gets to
    [return NULL]. *)
Definition unwind `{System} `{ControlSideOps} (l : label)
    (local_cecl local_ddatafd : Z) (pr : process) : list lib_call :=
  let from i := (label_index l <=? i)%nat in
  (if from 0%nat then [EventFree (ddataevt pr)] else [])
  ++ (if from 2%nat then [Closesocket (ddatafd pr)] else [])
  ++ (if from 3%nat then
        (if dbev (session pr) =? 0 then [] else [BevFree (dbev (session pr))])
        ++ stop_calls Dnode dnode_side_ops
      else [])
  ++ (if from 4%nat then stop_calls Client client_side_ops else [])
  ++ (if from 5%nat then [CondDestroy pthread_cond_destroy] else [])
  ++ (if from 6%nat then [MutexDestroy pthread_mutex_destroy] else [])
  ++ (if from 8%nat then [Closesocket local_ddatafd] else [])
  ++ (if from 9%nat then [ListenerFree local_cecl] else [])
  ++ (if from 10%nat then [FreeSession] else []).


(** The [cs_open] hook has refused a connection among the calls. *)
Definition refused (cs : list lib_call) : bool :=
  existsb (λ c, match c with
                | OpenHook _ _ ret => ret =? -1
                | _ => false
                end) cs.

(** Hooks that leave the two endpoints of the session alone. *)
Definition side_keeps_endpoints (ops : side_ops) : Prop :=
  keeps_ret cbev (cs_start ops) ∧ keeps_ret dbev (cs_start ops)
  ∧ keeps cbev (cs_stop ops) ∧ keeps dbev (cs_stop ops)
  ∧ ∀ fd, keeps_ret cbev ((λ h cs, h cs fd) <$> cs_open ops)
          ∧ keeps_ret dbev ((λ h cs, h cs fd) <$> cs_open ops).


(** The session when [control_free] looks at the endpoints: the exit
    has been asked for, the worker has run to its end, and the two stop
    hooks have been called. *)
Definition stopped `{ControlABI} `{System} `{ControlSideOps}
    (cs : control_session) : control_session :=
  hook_app (cs_stop client_side_ops)
    (hook_app (cs_stop dnode_side_ops)
       (worker_until_exit (sets_wake CONTROL_WHY_EXIT cs))).

(** The calls of [control_free] when it returns. *)
Definition free_calls `{ControlABI} `{System} `{ControlSideOps}
    (pr : process) : list lib_call :=
  [Sync EvLock; Sync EvUnlock; CondSignal pthread_cond_signal;
   ThreadJoin pthread_join]
  ++ (if negb (ddataevt pr =? 0) then [EventFree (ddataevt pr)] else [])
  ++ (if negb (cdatafd pr =? -1) then [Closesocket (cdatafd pr)] else [])
  ++ (if negb (ddatafd pr =? -1) then [Closesocket (ddatafd pr)] else [])
  ++ stop_calls Dnode dnode_side_ops
  ++ stop_calls Client client_side_ops
  ++ [CondDestroy pthread_cond_destroy; MutexDestroy pthread_mutex_destroy]
  ++ (if negb (dbev (stopped (session pr)) =? 0)
      then [BevFree (dbev (stopped (session pr)))] else [])
  ++ [ListenerFree (cecl pr)]
  ++ (if negb (cbev (stopped (session pr)) =? 0)
      then [BevFree (cbev (stopped (session pr)))] else [])
  ++ (if negb (is_null (ctl_txns (stopped (session pr))))
      then [FreeTxnArray] else [])
  ++ [FreeSession].

(* ===================================================================== *)
(** * Part II: properties                                                *)
(* ===================================================================== *)

Ltac zdm := Z.div_mod_to_equations; lia.

(** ** Byte order *)

Section ByteOrderFacts.
Context `{RawPacketsABI}.

Lemma bswap16_range x : 0 <= bswap16 x < 65536.
Proof. unfold bswap16. zdm. Qed.

Lemma bswap16_involutive x : 0 <= x < 65536 → bswap16 (bswap16 x) = x.
Proof. unfold bswap16. intros. zdm. Qed.

Lemma bswap32_range x : 0 <= bswap32 x < 4294967296.
Proof. unfold bswap32. zdm. Qed.

Lemma bytes_of_u32 x :
  0 <= x < 4294967296 →
  ∃ b0 b1 b2 b3,
    (byte_ok b0 ∧ byte_ok b1 ∧ byte_ok b2 ∧ byte_ok b3)
    ∧ x = b3 * 16777216 + b2 * 65536 + b1 * 256 + b0.
Proof.
  intros. unfold byte_ok.
  exists (x mod 256), ((x / 256) mod 256), ((x / 65536) mod 256),
         ((x / 16777216) mod 256).
  zdm.
Qed.

Lemma bswap32_bytes b0 b1 b2 b3 :
  byte_ok b0 → byte_ok b1 → byte_ok b2 → byte_ok b3 →
  bswap32 (b3 * 16777216 + b2 * 65536 + b1 * 256 + b0)
  = b0 * 16777216 + b1 * 65536 + b2 * 256 + b3.
Proof. unfold byte_ok, bswap32. intros. zdm. Qed.

Lemma bswap32_involutive x : 0 <= x < 4294967296 → bswap32 (bswap32 x) = x.
Proof.
  intros Hx. destruct (bytes_of_u32 x Hx) as (b0 & b1 & b2 & b3 & Hb & ->).
  destruct Hb as (? & ? & ? & ?). rewrite !bswap32_bytes; auto.
Qed.

Lemma htons_range x : 0 <= x < 65536 → 0 <= htons x < 65536.
Proof. unfold htons. destruct host_big_endian; auto using bswap16_range. Qed.

Lemma ntohs_range x : 0 <= x < 65536 → 0 <= ntohs x < 65536.
Proof. unfold ntohs. destruct host_big_endian; auto using bswap16_range. Qed.

Lemma htonl_range x : 0 <= x < 4294967296 → 0 <= htonl x < 4294967296.
Proof. unfold htonl. destruct host_big_endian; auto using bswap32_range. Qed.

Lemma ntohl_range x : 0 <= x < 4294967296 → 0 <= ntohl x < 4294967296.
Proof. unfold ntohl. destruct host_big_endian; auto using bswap32_range. Qed.

Lemma ntohs_htons x : 0 <= x < 65536 → ntohs (htons x) = x.
Proof.
  unfold ntohs, htons. destruct host_big_endian; auto using bswap16_involutive.
Qed.

Lemma htons_ntohs x : 0 <= x < 65536 → htons (ntohs x) = x.
Proof.
  unfold ntohs, htons. destruct host_big_endian; auto using bswap16_involutive.
Qed.

Lemma ntohl_htonl x : 0 <= x < 4294967296 → ntohl (htonl x) = x.
Proof.
  unfold ntohl, htonl. destruct host_big_endian; auto using bswap32_involutive.
Qed.

Lemma dec16_range b0 b1 : byte_ok b0 → byte_ok b1 → 0 <= dec16 b0 b1 < 65536.
Proof. unfold byte_ok, dec16. destruct host_big_endian; lia. Qed.

Lemma dec32_range b0 b1 b2 b3 :
  byte_ok b0 → byte_ok b1 → byte_ok b2 → byte_ok b3 →
  0 <= dec32 b0 b1 b2 b3 < 4294967296.
Proof. unfold byte_ok, dec32. destruct host_big_endian; lia. Qed.

Lemma enc16_dec16 b0 b1 :
  byte_ok b0 → byte_ok b1 → enc16 (dec16 b0 b1) = [b0; b1].
Proof.
  unfold byte_ok, enc16, dec16. intros.
  destruct host_big_endian; repeat f_equal; zdm.
Qed.

Lemma enc32_dec32 b0 b1 b2 b3 :
  byte_ok b0 → byte_ok b1 → byte_ok b2 → byte_ok b3 →
  enc32 (dec32 b0 b1 b2 b3) = [b0; b1; b2; b3].
Proof.
  unfold byte_ok, enc32, dec32. intros.
  destruct host_big_endian; repeat f_equal; zdm.
Qed.

(** The two bytes of a 16-bit value, and what they decode to. *)
Lemma enc16_inv v :
  ∃ b0 b1, enc16 v = [b0; b1] ∧ byte_ok b0 ∧ byte_ok b1
           ∧ dec16 b0 b1 = v mod 65536.
Proof.
  unfold enc16, dec16, byte_ok.
  destruct host_big_endian; do 2 eexists; (split; [reflexivity |]); zdm.
Qed.

Lemma enc32_inv v :
  ∃ b0 b1 b2 b3, enc32 v = [b0; b1; b2; b3]
    ∧ byte_ok b0 ∧ byte_ok b1 ∧ byte_ok b2 ∧ byte_ok b3
    ∧ dec32 b0 b1 b2 b3 = v mod 4294967296.
Proof.
  unfold enc32, dec32, byte_ok.
  destruct host_big_endian; do 4 eexists; (split; [reflexivity |]); zdm.
Qed.
End ByteOrderFacts.

(** ** Loads and stores on a buffer split at the accessed field *)

Section MemoryFacts.
Context `{RawPacketsABI}.

Lemma length_enc16 v : length (enc16 v) = 2%nat.
Proof. unfold enc16. by destruct host_big_endian. Qed.

Lemma length_enc32 v : length (enc32 v) = 4%nat.
Proof. unfold enc32. by destruct host_big_endian. Qed.

Lemma write_bytes_app new : ∀ pre old post a,
  a = length pre → length old = length new →
  write_bytes (pre ++ old ++ post) a new = pre ++ new ++ post.
Proof.
  induction new as [| b new IH]; intros pre old post a -> Hlen.
  - destruct old; [done | discriminate].
  - destruct old as [| o old]; [discriminate |]. simpl in *.
    rewrite insert_app_r_alt, Nat.sub_diag by lia. simpl.
    change (b :: old ++ post) with ([b] ++ old ++ post).
    change (b :: new ++ post) with ([b] ++ new ++ post).
    rewrite !(app_assoc pre [b]).
    apply IH; [rewrite length_app; simpl; lia | lia].
Qed.

Lemma length_write_bytes bytes : ∀ m a,
  length (write_bytes m a bytes) = length m.
Proof.
  induction bytes as [| b bytes IH]; intros m a; simpl; [done |].
  by rewrite IH, length_insert.
Qed.

Lemma store16_length m a v m' : store16 m a v = Some m' → length m' = length m.
Proof.
  unfold store16. case_decide; [| done]. intros [= <-].
  apply length_write_bytes.
Qed.

Lemma store16_short m a v : (length m < a + 2)%nat → store16 m a v = None.
Proof. intros. unfold store16. by rewrite decide_False by lia. Qed.

Lemma store32_length m a v m' : store32 m a v = Some m' → length m' = length m.
Proof.
  unfold store32. case_decide; [| done]. intros [= <-].
  apply length_write_bytes.
Qed.

Lemma store32_short m a v : (length m < a + 4)%nat → store32 m a v = None.
Proof. intros. unfold store32. by rewrite decide_False by lia. Qed.

(** A conversion in place keeps the length of the buffer, and runs off
    a buffer that ends before the field does. *)
Lemma conv16_at_length conv m a m' :
  conv16_at conv m a = Some m' → length m' = length m.
Proof.
  unfold conv16_at. destruct (load16 m a); cbn [mbind option_bind]; [| done].
  apply store16_length.
Qed.

Lemma conv32_at_length conv m a m' :
  conv32_at conv m a = Some m' → length m' = length m.
Proof.
  unfold conv32_at. destruct (load32 m a); cbn [mbind option_bind]; [| done].
  apply store32_length.
Qed.

Lemma conv16_at_short conv m a :
  (length m < a + 2)%nat → conv16_at conv m a = None.
Proof.
  intros. unfold conv16_at. destruct (load16 m a); cbn [mbind option_bind];
    [by apply store16_short | done].
Qed.

Lemma conv32_at_short conv m a :
  (length m < a + 4)%nat → conv32_at conv m a = None.
Proof.
  intros. unfold conv32_at. destruct (load32 m a); cbn [mbind option_bind];
    [by apply store32_short | done].
Qed.

Lemma split_eight (l : list Z) :
  (8 ≤ length l)%nat →
  ∃ h0 h1 h2 h3 h4 h5 h6 h7 rest, l = [h0; h1; h2; h3; h4; h5; h6; h7] ++ rest.
Proof.
  intros Hlen.
  do 8 (destruct l as [| ? l]; [simpl in Hlen; lia |]).
  by repeat eexists.
Qed.

Lemma load16_app pre b0 b1 post a :
  a = length pre → load16 (pre ++ b0 :: b1 :: post) a = Some (dec16 b0 b1).
Proof.
  intros ->. unfold load16.
  rewrite (list_lookup_middle pre _ b0 (length pre)) by reflexivity. simpl.
  rewrite (lookup_app_r pre) by lia.
  replace (S (length pre) - length pre)%nat with 1%nat by lia.
  reflexivity.
Qed.

Lemma conv16_at_app conv pre b0 b1 post a :
  a = length pre →
  conv16_at conv (pre ++ b0 :: b1 :: post) a
  = Some (pre ++ enc16 (conv (dec16 b0 b1)) ++ post).
Proof.
  intros Ha. unfold conv16_at. rewrite load16_app by done. simpl.
  unfold store16. rewrite decide_True by (rewrite length_app; simpl; lia).
  f_equal. apply (write_bytes_app _ pre [b0; b1] post); [done |].
  by rewrite length_enc16.
Qed.

Lemma load32_app pre b0 b1 b2 b3 post a :
  a = length pre →
  load32 (pre ++ b0 :: b1 :: b2 :: b3 :: post) a = Some (dec32 b0 b1 b2 b3).
Proof.
  intros ->. unfold load32.
  rewrite (list_lookup_middle pre _ b0 (length pre)) by reflexivity. simpl.
  rewrite (lookup_app_r pre), (lookup_app_r pre), (lookup_app_r pre) by lia.
  replace (S (length pre) - length pre)%nat with 1%nat by lia.
  replace (S (S (length pre)) - length pre)%nat with 2%nat by lia.
  replace (S (S (S (length pre))) - length pre)%nat with 3%nat by lia.
  done.
Qed.

Lemma conv32_at_app conv pre b0 b1 b2 b3 post a :
  a = length pre →
  conv32_at conv (pre ++ b0 :: b1 :: b2 :: b3 :: post) a
  = Some (pre ++ enc32 (conv (dec32 b0 b1 b2 b3)) ++ post).
Proof.
  intros Ha. unfold conv32_at. rewrite load32_app by done. simpl.
  unfold store32. rewrite decide_True by (rewrite length_app; simpl; lia).
  f_equal. apply (write_bytes_app _ pre [b0; b1; b2; b3] post); [done |].
  by rewrite length_enc32.
Qed.

Lemma conv32_at_head conv b0 b1 b2 b3 post a :
  a = 0%nat →
  conv32_at conv (b0 :: b1 :: b2 :: b3 :: post) a
  = Some (enc32 (conv (dec32 b0 b1 b2 b3)) ++ post).
Proof. intros ->. by apply (conv32_at_app conv []). Qed.

Lemma conv16_at_head conv b0 b1 post a :
  a = 0%nat →
  conv16_at conv (b0 :: b1 :: post) a = Some (enc16 (conv (dec16 b0 b1)) ++ post).
Proof. intros ->. by apply (conv16_at_app conv []). Qed.

Lemma Forall_byte_ok_enc16 v : Forall byte_ok (enc16 v).
Proof.
  destruct (enc16_inv v) as (b0 & b1 & -> & ? & ? & _).
  apply Forall_cons; split; [done |]. apply Forall_cons; split; [done |].
  apply Forall_nil_2.
Qed.

Lemma conv_samples_length conv n : ∀ samples,
  length (conv_samples conv n samples) = length samples.
Proof.
  induction n as [| n IH]; intros [| b0 [| b1 samples]]; simpl; try done.
  rewrite length_app, length_enc16, IH. done.
Qed.

(** Converting back what was converted restores the samples. *)
Lemma conv_samples_inverse n : ∀ samples,
  Forall byte_ok samples →
  conv_samples ntohs n (conv_samples htons n samples) = samples.
Proof.
  induction n as [| n IH]; intros [| b0 [| b1 samples]] Hok; simpl; try done.
  apply Forall_cons in Hok as [Hb0 Hok]. apply Forall_cons in Hok as [Hb1 Hok].
  pose proof (dec16_range b0 b1 Hb0 Hb1) as Hv.
  destruct (enc16_inv (htons (dec16 b0 b1))) as (c0 & c1 & -> & _ & _ & Hdec).
  simpl. rewrite Hdec, Z.mod_small by (by apply htons_range).
  rewrite ntohs_htons, enc16_dec16, IH by done. done.
Qed.
End MemoryFacts.

(** ** The sample loop and the board-sample codec *)

Section CodecFacts.
Context `{RawPacketsABI}.

Lemma raw_bsamp_nsamps_hdr h0 h1 h2 h3 h4 h5 h6 h7 tl :
  raw_bsamp_nsamps ([h0; h1; h2; h3; h4; h5; h6; h7] ++ tl)
  = Some (dec16 h4 h5 * dec16 h6 h7).
Proof. reflexivity. Qed.

(** The loop converts as many samples as the dimensions of the message
    it runs on say, and nothing else.  [done] are the samples already
    converted, [rest] the others. *)
Lemma for_each_sample_spec conv h0 h1 h2 h3 h4 h5 h6 h7 : ∀ k fuel i done rest,
  length done = (2 * i)%nat →
  dec16 h4 h5 * dec16 h6 h7 = Z.of_nat (i + k) →
  (2 * k ≤ length rest)%nat →
  (k < fuel)%nat →
  for_each_sample conv fuel i ([h0; h1; h2; h3; h4; h5; h6; h7] ++ done ++ rest)
  = Some ([h0; h1; h2; h3; h4; h5; h6; h7] ++ done ++ conv_samples conv k rest).
Proof.
  induction k as [| k IH]; intros fuel i done rest Hdone Hn Hrest Hfuel;
    (destruct fuel as [| fuel]; [lia |]); cbn [for_each_sample];
    rewrite raw_bsamp_nsamps_hdr, Hn; cbn [mbind option_bind].
  - rewrite (proj2 (Z.ltb_ge _ _)) by lia. by destruct rest.
  - rewrite (proj2 (Z.ltb_lt _ _)) by lia.
    destruct rest as [| b0 [| b1 rest]]; simpl in Hrest; try lia.
    rewrite (app_assoc _ done).
    rewrite conv16_at_app
      by (rewrite length_app, Hdone; unfold off_sample, sizeof_raw_msg_bsamp,
            sizeof_raw_samp_t; simpl; lia).
    cbn [mbind option_bind].
    rewrite <- (app_assoc _ done), (app_assoc done).
    rewrite IH; [| rewrite length_app, length_enc16; lia | lia | lia | lia].
    by rewrite <- (app_assoc done).
Qed.

(** Sending: the loop runs on the message as the host wrote it, the
    three scalar fields are converted after it. *)
Lemma bsamp_hton_explicit h0 h1 h2 h3 h4 h5 h6 h7 rest :
  byte_ok h4 → byte_ok h5 → byte_ok h6 → byte_ok h7 →
  (2 * Z.to_nat (dec16 h4 h5 * dec16 h6 h7) ≤ length rest)%nat →
  raw_msg_bsamp_hton ([h0; h1; h2; h3; h4; h5; h6; h7] ++ rest)
  = Some (enc32 (htonl (dec32 h0 h1 h2 h3))
          ++ enc16 (htons (dec16 h4 h5))
          ++ enc16 (htons (dec16 h6 h7))
          ++ conv_samples htons (Z.to_nat (dec16 h4 h5 * dec16 h6 h7)) rest).
Proof.
  intros H4 H5 H6 H7 Hrest.
  pose proof (dec16_range _ _ H4 H5). pose proof (dec16_range _ _ H6 H7).
  set (n := Z.to_nat (dec16 h4 h5 * dec16 h6 h7)) in *.
  unfold raw_msg_bsamp_hton.
  pose proof (for_each_sample_spec htons h0 h1 h2 h3 h4 h5 h6 h7 n
                (S (length ([h0; h1; h2; h3; h4; h5; h6; h7] ++ rest))) 0 [] rest)
    as Hloop.
  cbn [app] in Hloop |- *. rewrite Hloop; [| done | lia | lia | simpl; lia].
  cbn [mbind option_bind].
  rewrite conv32_at_head by done.
  cbn [mbind option_bind app].
  rewrite (conv16_at_app htons (enc32 _)) by (by rewrite length_enc32).
  cbn [mbind option_bind].
  rewrite (app_assoc (enc32 _)).
  rewrite (conv16_at_app htons (enc32 _ ++ enc16 _))
    by (by rewrite length_app, length_enc32, length_enc16).
  by rewrite <- (app_assoc (enc32 _)).
Qed.

(** Receiving: the three scalar fields are converted first, and the
    loop runs on the message that holds them in host order. *)
Lemma bsamp_ntoh_explicit w0 w1 w2 w3 w4 w5 w6 w7 rest :
  byte_ok w4 → byte_ok w5 → byte_ok w6 → byte_ok w7 →
  (2 * Z.to_nat (ntohs (dec16 w4 w5) * ntohs (dec16 w6 w7)) ≤ length rest)%nat →
  raw_msg_bsamp_ntoh ([w0; w1; w2; w3; w4; w5; w6; w7] ++ rest)
  = Some (enc32 (ntohl (dec32 w0 w1 w2 w3))
          ++ enc16 (ntohs (dec16 w4 w5))
          ++ enc16 (ntohs (dec16 w6 w7))
          ++ conv_samples ntohs
               (Z.to_nat (ntohs (dec16 w4 w5) * ntohs (dec16 w6 w7))) rest).
Proof.
  intros H4 H5 H6 H7 Hrest.
  pose proof (ntohs_range _ (dec16_range _ _ H4 H5)) as Hc.
  pose proof (ntohs_range _ (dec16_range _ _ H6 H7)) as Hl.
  set (n := Z.to_nat (ntohs (dec16 w4 w5) * ntohs (dec16 w6 w7))) in *.
  unfold raw_msg_bsamp_ntoh. cbn [app].
  rewrite conv32_at_head by done.
  cbn [mbind option_bind app].
  rewrite (conv16_at_app ntohs (enc32 _)) by (by rewrite length_enc32).
  cbn [mbind option_bind].
  rewrite (app_assoc (enc32 _)).
  rewrite (conv16_at_app ntohs (enc32 _ ++ enc16 _))
    by (by rewrite length_app, length_enc32, length_enc16).
  cbn [mbind option_bind].
  rewrite <- (app_assoc (enc32 _)).
  destruct (enc32_inv (ntohl (dec32 w0 w1 w2 w3)))
    as (a0 & a1 & a2 & a3 & -> & _).
  destruct (enc16_inv (ntohs (dec16 w4 w5))) as (c0 & c1 & -> & _ & _ & Hdc).
  destruct (enc16_inv (ntohs (dec16 w6 w7))) as (l0 & l1 & -> & _ & _ & Hdl).
  rewrite Z.mod_small in Hdc, Hdl by done.
  pose proof (for_each_sample_spec ntohs a0 a1 a2 a3 c0 c1 l0 l1 n
                (S (length ([a0; a1; a2; a3; c0; c1; l0; l1] ++ rest))) 0 [] rest)
    as Hloop.
  cbn [app] in Hloop |- *. apply Hloop; [done | | lia | simpl; lia].
  rewrite Hdc, Hdl. lia.
Qed.

(** The loop runs off a message that holds fewer samples than its
    dimensions say. *)
Lemma for_each_sample_short conv h0 h1 h2 h3 h4 h5 h6 h7 : ∀ fuel k i sofar rest,
  length sofar = (2 * i)%nat →
  dec16 h4 h5 * dec16 h6 h7 = Z.of_nat (i + k) →
  (length rest < 2 * k)%nat →
  for_each_sample conv fuel i ([h0; h1; h2; h3; h4; h5; h6; h7] ++ sofar ++ rest)
  = None.
Proof.
  induction fuel as [| fuel IH]; intros k i sofar rest Hdone Hn Hrest; [done |].
  cbn [for_each_sample]. rewrite raw_bsamp_nsamps_hdr, Hn.
  cbn [mbind option_bind]. rewrite (proj2 (Z.ltb_lt _ _)) by lia.
  destruct rest as [| b0 [| b1 rest]].
  - rewrite conv16_at_short; [done |].
    rewrite !length_app, Hdone. unfold off_sample, sizeof_raw_msg_bsamp,
      sizeof_raw_samp_t. simpl. lia.
  - rewrite conv16_at_short; [done |].
    rewrite !length_app, Hdone. unfold off_sample, sizeof_raw_msg_bsamp,
      sizeof_raw_samp_t. simpl. lia.
  - simpl in Hrest. rewrite (app_assoc _ sofar).
    rewrite conv16_at_app
      by (rewrite length_app, Hdone; unfold off_sample, sizeof_raw_msg_bsamp,
            sizeof_raw_samp_t; simpl; lia).
    cbn [mbind option_bind].
    rewrite <- (app_assoc _ sofar), (app_assoc sofar).
    apply (IH (k - 1)%nat (S i));
      [rewrite length_app, length_enc16; lia | lia | lia].
Qed.

(** Receiving a board sample whose dimensions, as they arrive, announce
    more samples than the buffer holds: the loop takes them at their
    word. *)
Lemma bsamp_ntoh_short w0 w1 w2 w3 w4 w5 w6 w7 rest :
  byte_ok w4 → byte_ok w5 → byte_ok w6 → byte_ok w7 →
  (length rest < 2 * Z.to_nat (ntohs (dec16 w4 w5) * ntohs (dec16 w6 w7)))%nat →
  raw_msg_bsamp_ntoh ([w0; w1; w2; w3; w4; w5; w6; w7] ++ rest) = None.
Proof.
  intros H4 H5 H6 H7 Hrest.
  pose proof (ntohs_range _ (dec16_range _ _ H4 H5)) as Hc.
  pose proof (ntohs_range _ (dec16_range _ _ H6 H7)) as Hl.
  set (n := Z.to_nat (ntohs (dec16 w4 w5) * ntohs (dec16 w6 w7))) in *.
  unfold raw_msg_bsamp_ntoh. cbn [app].
  rewrite conv32_at_head by done.
  cbn [mbind option_bind app].
  rewrite (conv16_at_app ntohs (enc32 _)) by (by rewrite length_enc32).
  cbn [mbind option_bind].
  rewrite (app_assoc (enc32 _)).
  rewrite (conv16_at_app ntohs (enc32 _ ++ enc16 _))
    by (by rewrite length_app, length_enc32, length_enc16).
  cbn [mbind option_bind].
  rewrite <- (app_assoc (enc32 _)).
  destruct (enc32_inv (ntohl (dec32 w0 w1 w2 w3)))
    as (a0 & a1 & a2 & a3 & -> & _).
  destruct (enc16_inv (ntohs (dec16 w4 w5))) as (c0 & c1 & -> & _ & _ & Hdc).
  destruct (enc16_inv (ntohs (dec16 w6 w7))) as (l0 & l1 & -> & _ & _ & Hdl).
  rewrite Z.mod_small in Hdc, Hdl by done.
  pose proof (for_each_sample_short ntohs a0 a1 a2 a3 c0 c1 l0 l1
                (S (length ([a0; a1; a2; a3; c0; c1; l0; l1] ++ rest)))
                n 0 [] rest) as Hloop.
  cbn [app] in Hloop |- *. apply Hloop; [done | | lia].
  rewrite Hdc, Hdl. lia.
Qed.

(** A board sample shorter than its fixed part. *)
Lemma bsamp_ntoh_no_header msg :
  (length msg < sizeof_raw_msg_bsamp)%nat → raw_msg_bsamp_ntoh msg = None.
Proof.
  unfold sizeof_raw_msg_bsamp, raw_msg_bsamp_ntoh. intros Hlen.
  destruct (conv32_at ntohl msg off_bs_idx) as [m1 |] eqn:E1; [| done].
  apply conv32_at_length in E1. cbn [mbind option_bind].
  destruct (conv16_at ntohs m1 off_bs_nchips) as [m2 |] eqn:E2; [| done].
  apply conv16_at_length in E2. cbn [mbind option_bind].
  rewrite conv16_at_short; [done |]. unfold off_bs_nlines. lia.
Qed.

(** What was sent is what is received. *)
Lemma bsamp_ntoh_hton h0 h1 h2 h3 h4 h5 h6 h7 rest :
  Forall byte_ok ([h0; h1; h2; h3; h4; h5; h6; h7] ++ rest) →
  (2 * Z.to_nat (dec16 h4 h5 * dec16 h6 h7) ≤ length rest)%nat →
  raw_msg_bsamp_hton ([h0; h1; h2; h3; h4; h5; h6; h7] ++ rest)
    ≫= raw_msg_bsamp_ntoh
  = Some ([h0; h1; h2; h3; h4; h5; h6; h7] ++ rest).
Proof.
  intros Hok Hrest.
  repeat (apply Forall_cons in Hok as [? Hok]).
  pose proof (dec16_range h4 h5) as Hc. pose proof (dec16_range h6 h7) as Hl.
  pose proof (dec32_range h0 h1 h2 h3) as Hi.
  rewrite bsamp_hton_explicit by done. cbn [mbind option_bind].
  destruct (enc32_inv (htonl (dec32 h0 h1 h2 h3)))
    as (a0 & a1 & a2 & a3 & -> & _ & _ & _ & _ & Hdi).
  destruct (enc16_inv (htons (dec16 h4 h5))) as (c0 & c1 & -> & ? & ? & Hdc).
  destruct (enc16_inv (htons (dec16 h6 h7))) as (l0 & l1 & -> & ? & ? & Hdl).
  rewrite Z.mod_small in Hdi by (apply htonl_range; auto).
  rewrite Z.mod_small in Hdc, Hdl by (apply htons_range; auto).
  change ([a0; a1; a2; a3] ++ [c0; c1] ++ [l0; l1] ++ ?x)
    with ([a0; a1; a2; a3; c0; c1; l0; l1] ++ x).
  rewrite bsamp_ntoh_explicit; try done.
  - rewrite Hdi, Hdc, Hdl, ntohl_htonl, !ntohs_htons by auto.
    rewrite conv_samples_inverse by done.
    rewrite enc32_dec32, !enc16_dec16 by done. done.
  - rewrite Hdc, Hdl, !ntohs_htons by auto.
    by rewrite conv_samples_length.
Qed.
End CodecFacts.

(** ** Claims about the codec *)

Section CodecClaims.
Context `{RawPacketsABI}.

Lemma bsamp_split (msg : list Z) :
  (sizeof_raw_msg_bsamp ≤ length msg)%nat →
  ∃ h0 h1 h2 h3 h4 h5 h6 h7 rest,
    msg = [h0; h1; h2; h3; h4; h5; h6; h7] ++ rest.
Proof.
  unfold sizeof_raw_msg_bsamp. intros Hlen.
  do 8 (destruct msg as [| ? msg]; [simpl in Hlen; lia |]).
  by repeat eexists.
Qed.

(** C2.  In the board-sample codec the per-sample loop of the sending
    side runs before [bs_idx], [bs_nchips] and [bs_nlines] are put in
    network order, and the one of the receiving side after they are
    back in host order: each loop converts exactly [nchips × nlines]
    samples, the count in host order, and what was sent is received
    unchanged. *)
Theorem bsamp_codec_counts_samples_in_host_order
    (msg : list Z) (idx nchips nlines : Z) :
  Forall byte_ok msg →
  load32 msg off_bs_idx = Some idx →
  load16 msg off_bs_nchips = Some nchips →
  load16 msg off_bs_nlines = Some nlines →
  (sizeof_raw_msg_bsamp + sizeof_raw_samp_t * Z.to_nat (nchips * nlines)
     ≤ length msg)%nat →
  ∃ wire,
    raw_msg_bsamp_hton msg = Some wire
    ∧ load32 wire off_bs_idx = Some (htonl idx)
    ∧ load16 wire off_bs_nchips = Some (htons nchips)
    ∧ load16 wire off_bs_nlines = Some (htons nlines)
    ∧ drop sizeof_raw_msg_bsamp wire
      = conv_samples htons (Z.to_nat (nchips * nlines))
          (drop sizeof_raw_msg_bsamp msg)
    ∧ raw_msg_bsamp_ntoh wire = Some msg
    ∧ drop sizeof_raw_msg_bsamp msg
      = conv_samples ntohs (Z.to_nat (ntohs (htons nchips) * ntohs (htons nlines)))
          (drop sizeof_raw_msg_bsamp wire).
Proof.
  intros Hok Hidx Hnc Hnl Hlen.
  destruct (bsamp_split msg) as (h0 & h1 & h2 & h3 & h4 & h5 & h6 & h7 & rest & ->);
    [lia |].
  injection Hidx as <-. injection Hnc as <-. injection Hnl as <-.
  assert (Hrest : (2 * Z.to_nat (dec16 h4 h5 * dec16 h6 h7) ≤ length rest)%nat).
  { rewrite length_app in Hlen. unfold sizeof_raw_msg_bsamp, sizeof_raw_samp_t in Hlen.
    simpl in Hlen. lia. }
  pose proof (bsamp_ntoh_hton _ _ _ _ _ _ _ _ _ Hok Hrest) as Hround.
  rewrite bsamp_hton_explicit in Hround |- *;
    try (by repeat (apply Forall_cons in Hok as [? Hok])).
  cbn [mbind option_bind] in Hround.
  eexists. split; [reflexivity |].
  assert (Hrange : 0 <= dec16 h4 h5 < 65536 ∧ 0 <= dec16 h6 h7 < 65536).
  { repeat (apply Forall_cons in Hok as [? Hok]). split; by apply dec16_range. }
  destruct Hrange as [Hc Hl].
  assert (Hsamples : Forall byte_ok rest).
  { by repeat (apply Forall_cons in Hok as [? Hok]). }
  destruct (enc32_inv (htonl (dec32 h0 h1 h2 h3)))
    as (a0 & a1 & a2 & a3 & Ea & _ & _ & _ & _ & Hdi).
  destruct (enc16_inv (htons (dec16 h4 h5))) as (c0 & c1 & Ec & _ & _ & Hdc).
  destruct (enc16_inv (htons (dec16 h6 h7))) as (l0 & l1 & El & _ & _ & Hdl).
  rewrite Ea, Ec, El in *.
  split_and!.
  - unfold load32; simpl. rewrite Hdi. f_equal. apply Z.mod_small.
    apply htonl_range. repeat (apply Forall_cons in Hok as [? Hok]).
    by apply dec32_range.
  - unfold load16; simpl. rewrite Hdc, Z.mod_small; [done | by apply htons_range].
  - unfold load16; simpl. rewrite Hdl, Z.mod_small; [done | by apply htons_range].
  - by unfold sizeof_raw_msg_bsamp.
  - exact Hround.
  - unfold sizeof_raw_msg_bsamp. cbn [drop app]. rewrite !drop_0.
    rewrite !ntohs_htons by done. by rewrite conv_samples_inverse.
Qed.
End CodecClaims.

(** The board sample [bsamp_2x1] on a little-endian host. *)
Lemma bsamp_codec_counts_samples_in_host_order_witness :
  ∃ wire,
    raw_msg_bsamp_hton (H := abi_le) bsamp_2x1 = Some wire
    ∧ load32 (H := abi_le) wire off_bs_idx = Some (htonl (H := abi_le) 42)
    ∧ load16 (H := abi_le) wire off_bs_nchips = Some (htons (H := abi_le) 2)
    ∧ load16 (H := abi_le) wire off_bs_nlines = Some (htons (H := abi_le) 1)
    ∧ drop sizeof_raw_msg_bsamp wire
      = conv_samples (H := abi_le) (htons (H := abi_le)) (Z.to_nat (2 * 1))
          (drop sizeof_raw_msg_bsamp bsamp_2x1)
    ∧ raw_msg_bsamp_ntoh (H := abi_le) wire = Some bsamp_2x1
    ∧ drop sizeof_raw_msg_bsamp bsamp_2x1
      = conv_samples (H := abi_le) (ntohs (H := abi_le))
          (Z.to_nat (ntohs (H := abi_le) (htons (H := abi_le) 2)
                     * ntohs (H := abi_le) (htons (H := abi_le) 1)))
          (drop sizeof_raw_msg_bsamp wire).
Proof.
  apply (bsamp_codec_counts_samples_in_host_order (H := abi_le) bsamp_2x1 42 2 1).
  - unfold bsamp_2x1, byte_ok. repeat (apply Forall_cons; split; [lia |]).
    apply Forall_nil_2.
  - reflexivity.
  - reflexivity.
  - reflexivity.
  - vm_compute. lia.
Defined.

(** ** Claims about [raw_packet_init] and [raw_packet_copy] *)

Section PacketClaimsFacts.
Context `{RawPacketsABI}.

(** C8, as stated, fails: a packet whose payload holds a request keeps
    it through [raw_packet_init]; nothing is zeroed. *)
Lemma raw_packet_init_keeps_stale_payload :
  ¬ init_zeroes_the_rest stale_packet 2 0.
Proof.
  unfold init_zeroes_the_rest. intros (_ & _ & _ & _ & Hzero).
  apply Forall_cons in Hzero as [Hb _]. discriminate Hb.
Qed.

(** C8, amended.  [raw_packet_init] writes the magic [0x5A], the
    protocol version [0x00], the type and the flags into the header and
    leaves every byte of the payload as it was. *)
Theorem raw_packet_init_writes_header_only (packet : raw_packet) (type flags : Z) :
  let packet' := raw_packet_init packet type flags in
  _p_magic packet' = 0x5A
  ∧ _p_proto_vers packet' = 0x00
  ∧ p_type packet' = type
  ∧ p_flags packet' = flags
  ∧ p packet' = p packet.
Proof. by cbv. Qed.

Lemma pkt_types_distinct_inv :
  pkt_types_distinct →
  RAW_PKT_TYPE_BSAMP ≠ RAW_PKT_TYPE_REQ ∧ RAW_PKT_TYPE_BSAMP ≠ RAW_PKT_TYPE_RES
  ∧ RAW_PKT_TYPE_BSAMP ≠ RAW_PKT_TYPE_ERR ∧ RAW_PKT_TYPE_REQ ≠ RAW_PKT_TYPE_RES
  ∧ RAW_PKT_TYPE_REQ ≠ RAW_PKT_TYPE_ERR ∧ RAW_PKT_TYPE_RES ≠ RAW_PKT_TYPE_ERR.
Proof.
  unfold pkt_types_distinct. intros Hd.
  apply NoDup_cons in Hd as [Hb Hd]. apply NoDup_cons in Hd as [Hq Hd].
  apply NoDup_cons in Hd as [Hs _].
  apply not_elem_of_cons in Hb as [? Hb]. apply not_elem_of_cons in Hb as [? Hb].
  apply not_elem_of_cons in Hb as [? _].
  apply not_elem_of_cons in Hq as [? Hq]. apply not_elem_of_cons in Hq as [? _].
  apply not_elem_of_cons in Hs as [? _].
  by split_and!.
Qed.

Lemma memcpy_lookup dst src n payload :
  memcpy dst src n = Some payload →
  length payload = length dst
  ∧ (∀ i, (i < n)%nat → payload !! i = src !! i)
  ∧ (∀ i, (n ≤ i)%nat → payload !! i = dst !! i).
Proof.
  unfold memcpy. case_decide as Hn; [| done]. intros [= <-].
  destruct Hn as [Hs Hd]. split_and!.
  - rewrite length_app, length_take, length_drop. lia.
  - intros i Hi. rewrite lookup_app_l by (rewrite length_take; lia).
    by apply lookup_take_lt.
  - intros i Hi. rewrite lookup_app_r by (rewrite length_take; lia).
    rewrite length_take, lookup_drop. f_equal. lia.
Qed.

(** C10.  [raw_packet_copy] writes into [dst] the header of [src] and
    the payload bytes that the type of [src] occupies (none for an
    error; a request message for a request or a response; the
    board-sample structure and [nchips × nlines] samples for a board
    sample) and leaves every other byte of [dst] as it was. *)
Theorem raw_packet_copy_frame (dst src : raw_packet) (n : nat) :
  pkt_types_distinct →
  payload_extent src n →
  (n ≤ length (p src))%nat →
  (n ≤ length (p dst))%nat →
  ∃ dst',
    raw_packet_copy dst src = Ok dst'
    ∧ _p_magic dst' = _p_magic src
    ∧ _p_proto_vers dst' = _p_proto_vers src
    ∧ p_type dst' = p_type src
    ∧ p_flags dst' = p_flags src
    ∧ length (p dst') = length (p dst)
    ∧ (∀ i, (i < n)%nat → p dst' !! i = p src !! i)
    ∧ (∀ i, (n ≤ i)%nat → p dst' !! i = p dst !! i).
Proof.
  intros Hdistinct Hextent Hsrc Hdst.
  destruct (pkt_types_distinct_inv Hdistinct) as (? & ? & ? & ? & ? & ?).
  assert (Hcopy : ∀ k, (k ≤ length (p src))%nat → (k ≤ length (p dst))%nat →
            ∃ payload, memcpy (p dst) (p src) k = Some payload).
  { intros k ? ?. unfold memcpy. rewrite decide_True by done. eauto. }
  unfold raw_packet_copy.
  destruct Hextent as [Ht | Ht | Ht | nchips nlines Ht Hnc Hnl]; rewrite Ht.
  - rewrite (proj2 (Z.eqb_neq _ _)) by congruence.
    rewrite (proj2 (Z.eqb_neq _ _)) by congruence.
    rewrite (proj2 (Z.eqb_neq _ _)) by congruence.
    rewrite Z.eqb_refl. simpl. eexists. split_and!; try done. lia.
  - rewrite (proj2 (Z.eqb_neq _ _)) by congruence.
    rewrite Z.eqb_refl. simpl.
    destruct (Hcopy sizeof_raw_msg_req) as [payload Hp]; [done | done |].
    rewrite Hp. simpl. destruct (memcpy_lookup _ _ _ _ Hp) as (? & ? & ?).
    eexists. split_and!; done.
  - rewrite (proj2 (Z.eqb_neq _ _)) by congruence.
    rewrite (proj2 (Z.eqb_neq RAW_PKT_TYPE_RES RAW_PKT_TYPE_REQ)) by congruence.
    rewrite Z.eqb_refl. simpl.
    destruct (Hcopy sizeof_raw_msg_req) as [payload Hp]; [done | done |].
    rewrite Hp. simpl. destruct (memcpy_lookup _ _ _ _ Hp) as (? & ? & ?).
    eexists. split_and!; done.
  - rewrite Z.eqb_refl. unfold raw_packet_sampsize, raw_bsamp_nsamps.
    rewrite Hnc, Hnl. cbn [mbind option_bind result_bind access copy_header p].
    replace (Z.to_nat (nchips * nlines * Z.of_nat sizeof_raw_samp_t))
      with (sizeof_raw_samp_t * Z.to_nat (nchips * nlines))%nat
      by (unfold sizeof_raw_samp_t; lia).
    destruct (Hcopy (sizeof_raw_msg_bsamp
                     + sizeof_raw_samp_t * Z.to_nat (nchips * nlines))%nat)
      as [payload Hp]; [done | done |].
    rewrite Hp. simpl. destruct (memcpy_lookup _ _ _ _ Hp) as (? & ? & ?).
    eexists. split_and!; done.
Qed.
End PacketClaimsFacts.

(** ** Claims about [raw_packet_recv] *)

Section RecvFacts.
Context `{RawPacketsABI} `{SocketLayer}.

Lemma set_p_same (pkt : raw_packet) : set_p pkt (p pkt) = pkt.
Proof. by destruct pkt. Qed.

Lemma recv_switch_converted t ret errno packet out payload :
  pkt_types_distinct →
  converted t (p packet) payload →
  recv_switch t ret errno packet out = Ok (out ret errno (set_p packet payload)).
Proof.
  intros Hd Hconv. unfold recv_switch.
  destruct (pkt_types_distinct_inv Hd) as (? & ? & ? & ? & ? & ?).
  destruct Hconv as [payload Ht Hp | payload Ht Hp | payload Ht Hp | Ht]; subst t.
  - by rewrite Z.eqb_refl, Hp.
  - rewrite (proj2 (Z.eqb_neq _ _)) by congruence.
    by rewrite Z.eqb_refl, Hp.
  - rewrite (proj2 (Z.eqb_neq _ _)) by congruence.
    rewrite (proj2 (Z.eqb_neq RAW_PKT_TYPE_RES RAW_PKT_TYPE_REQ)) by congruence.
    by rewrite Z.eqb_refl, Hp.
  - rewrite (proj2 (Z.eqb_neq _ _)) by congruence.
    rewrite (proj2 (Z.eqb_neq RAW_PKT_TYPE_ERR RAW_PKT_TYPE_REQ)) by congruence.
    rewrite (proj2 (Z.eqb_neq RAW_PKT_TYPE_ERR RAW_PKT_TYPE_RES)) by congruence.
    by rewrite Z.eqb_refl, set_p_same.
Qed.

Lemma recv_switch_unknown t ret errno packet out :
  ¬ known_type t →
  recv_switch t ret errno packet out = Ok (out (-1) EPROTO packet).
Proof.
  unfold known_type, recv_switch. intros Hunknown.
  rewrite (proj2 (Z.eqb_neq t RAW_PKT_TYPE_BSAMP)) by tauto.
  rewrite (proj2 (Z.eqb_neq t RAW_PKT_TYPE_REQ)) by tauto.
  rewrite (proj2 (Z.eqb_neq t RAW_PKT_TYPE_RES)) by tauto.
  by rewrite (proj2 (Z.eqb_neq t RAW_PKT_TYPE_ERR)) by tauto.
Qed.

(** A request or response of eight bytes or more is converted, field
    by field, and never faults. *)
Lemma req_ntoh_explicit b0 b1 b2 b3 b4 b5 b6 b7 rest :
  raw_msg_req_ntoh ([b0; b1; b2; b3; b4; b5; b6; b7] ++ rest)
  = Some (enc16 (ntohs (dec16 b0 b1)) ++ [b2; b3]
          ++ enc32 (ntohl (dec32 b4 b5 b6 b7)) ++ rest).
Proof.
  unfold raw_msg_req_ntoh. cbn [app].
  rewrite conv16_at_head by done. cbn [mbind option_bind].
  change (enc16 ?v ++ b2 :: b3 :: ?tl) with (enc16 v ++ [b2; b3] ++ tl).
  rewrite (app_assoc (enc16 _)).
  rewrite (conv32_at_app ntohl (enc16 _ ++ [b2; b3]))
    by (by rewrite length_app, length_enc16).
  by rewrite <- (app_assoc (enc16 _)).
Qed.

Lemma req_ntoh_short msg :
  (length msg < sizeof_raw_msg_req)%nat → raw_msg_req_ntoh msg = None.
Proof.
  unfold sizeof_raw_msg_req, raw_msg_req_ntoh. intros Hlen.
  destruct (conv16_at ntohs msg off_r_id) as [m1 |] eqn:E1; [| done].
  apply conv16_at_length in E1. cbn [mbind option_bind].
  rewrite conv32_at_short; [done |]. unfold off_r_val. lia.
Qed.

(** The conversion of a payload of bytes succeeds exactly when the
    payload holds the whole message that its type and, for a board
    sample, its dimensions announce. *)
Lemma converted_iff_fits t payload :
  pkt_types_distinct → known_type t → Forall byte_ok payload →
  (∃ payload', converted t payload payload')
  ↔ (wire_extent t payload ≤ length payload)%nat.
Proof.
  intros Hd Hknown Hok.
  destruct (pkt_types_distinct_inv Hd) as (? & ? & ? & ? & ? & ?).
  assert (Hreq : (∃ payload', raw_msg_req_ntoh payload = Some payload')
                 ↔ (sizeof_raw_msg_req ≤ length payload)%nat).
  { split.
    - intros [payload' Hconv].
      destruct (decide (sizeof_raw_msg_req ≤ length payload)%nat); [done |].
      rewrite req_ntoh_short in Hconv by lia. done.
    - unfold sizeof_raw_msg_req. intros Hlen.
      destruct (split_eight payload Hlen)
        as (b0 & b1 & b2 & b3 & b4 & b5 & b6 & b7 & rest & ->).
      rewrite req_ntoh_explicit. by eexists. }
  assert (Hbsamp : (∃ payload', raw_msg_bsamp_ntoh payload = Some payload')
                   ↔ (wire_extent RAW_PKT_TYPE_BSAMP payload ≤ length payload)%nat).
  { unfold wire_extent. rewrite Z.eqb_refl.
    destruct (decide (sizeof_raw_msg_bsamp ≤ length payload)%nat) as [Hlen | Hlen].
    - unfold sizeof_raw_msg_bsamp in Hlen.
      destruct (split_eight payload Hlen)
        as (w0 & w1 & w2 & w3 & w4 & w5 & w6 & w7 & rest & ->).
      do 4 (apply Forall_cons in Hok as [_ Hok]).
      apply Forall_cons in Hok as [Hw4 Hok]. apply Forall_cons in Hok as [Hw5 Hok].
      apply Forall_cons in Hok as [Hw6 Hok]. apply Forall_cons in Hok as [Hw7 Hok].
      change (load16 ([w0; w1; w2; w3; w4; w5; w6; w7] ++ rest) off_bs_nchips)
        with (Some (dec16 w4 w5)).
      change (load16 ([w0; w1; w2; w3; w4; w5; w6; w7] ++ rest) off_bs_nlines)
        with (Some (dec16 w6 w7)).
      cbn [from_option id]. cbv zeta.
      set (n := Z.to_nat (ntohs (dec16 w4 w5) * ntohs (dec16 w6 w7))).
      rewrite length_app. unfold sizeof_raw_msg_bsamp, sizeof_raw_samp_t.
      cbn [length].
      destruct (decide (2 * n ≤ length rest)%nat) as [Hfits | Hshort].
      + rewrite bsamp_ntoh_explicit by done.
        split; [intros _; lia | by eexists].
      + rewrite bsamp_ntoh_short by (try done; fold n; lia).
        split; [by intros [? ?] | lia].
    - rewrite bsamp_ntoh_no_header by lia.
      split; [by intros [? ?] |]. unfold sizeof_raw_msg_bsamp in *. lia. }
  destruct Hknown as [-> | [-> | [-> | ->]]].
  - rewrite <- Hbsamp. split.
    + intros [payload' Hconv].
      destruct Hconv as [? _ ? | ? ? _ | ? ? _ | ?]; by eauto.
    + intros [payload' Hconv]. exists payload'. by apply converted_bsamp.
  - unfold wire_extent.
    rewrite (proj2 (Z.eqb_neq RAW_PKT_TYPE_REQ RAW_PKT_TYPE_BSAMP)) by done.
    rewrite Z.eqb_refl. cbn [orb]. rewrite <- Hreq. split.
    + intros [payload' Hconv].
      destruct Hconv as [? ? _ | ? _ ? | ? ? _ | ?]; by eauto.
    + intros [payload' Hconv]. exists payload'. by apply converted_req.
  - unfold wire_extent.
    rewrite (proj2 (Z.eqb_neq RAW_PKT_TYPE_RES RAW_PKT_TYPE_BSAMP)) by done.
    rewrite Z.eqb_refl, orb_true_r. rewrite <- Hreq. split.
    + intros [payload' Hconv].
      destruct Hconv as [? ? _ | ? ? _ | ? _ ? | ?]; by eauto.
    + intros [payload' Hconv]. exists payload'. by apply converted_res.
  - unfold wire_extent.
    rewrite (proj2 (Z.eqb_neq RAW_PKT_TYPE_ERR RAW_PKT_TYPE_BSAMP)) by done.
    rewrite (proj2 (Z.eqb_neq RAW_PKT_TYPE_ERR RAW_PKT_TYPE_REQ)) by done.
    rewrite (proj2 (Z.eqb_neq RAW_PKT_TYPE_ERR RAW_PKT_TYPE_RES)) by done.
    cbn [orb]. split; [lia |]. intros _. exists payload. by apply converted_err.
Qed.

(** The [switch] on a known type whose payload cannot be converted runs
    off the buffer. *)
Lemma recv_switch_faults t ret errno packet out :
  known_type t →
  (∀ payload, ¬ converted t (p packet) payload) →
  recv_switch t ret errno packet out = Abort MemoryFault.
Proof.
  intros Hknown Hnone. unfold recv_switch.
  destruct (Z.eqb_spec t RAW_PKT_TYPE_BSAMP) as [Hb | Hb].
  { destruct (raw_msg_bsamp_ntoh (p packet)) as [payload |] eqn:Hconv; [| done].
    by destruct (Hnone payload); apply converted_bsamp. }
  destruct (Z.eqb_spec t RAW_PKT_TYPE_REQ) as [Hq | Hq].
  { destruct (raw_msg_req_ntoh (p packet)) as [payload |] eqn:Hconv; [| done].
    by destruct (Hnone payload); apply converted_req. }
  destruct (Z.eqb_spec t RAW_PKT_TYPE_RES) as [Hs | Hs].
  { unfold raw_msg_res_ntoh.
    destruct (raw_msg_req_ntoh (p packet)) as [payload |] eqn:Hconv; [| done].
    by destruct (Hnone payload); apply converted_res. }
  destruct (Hnone (p packet)). apply converted_err.
  unfold known_type in Hknown. tauto.
Qed.

Section OneCall.
Variables (sockfd : Z) (packet : raw_packet) (packtype : option Z)
          (flags errno : Z).
Variables (packsize ret errno' : Z) (packet' : raw_packet).

(** The caller's buffer tells how much to read, and the socket
    answers with [ret], [errno'] and [packet']. *)
Hypothesis Hpacksize : recv_packsize packet (default 0 packtype) = Some packsize.
Hypothesis Hrecv : sys_recv sockfd packet packsize flags errno = (ret, errno', packet').

Let expected := default 0 packtype.
Let received := p_type packet'.
Let leaves := recv_leaves sockfd packet packtype flags errno.

Lemma recv_bad_magic :
  _p_magic packet' ≠ 0x5A → leaves (-1) EPROTO expected packet'.
Proof.
  intros Hmagic. unfold leaves, recv_leaves, raw_packet_recv.
  rewrite Hpacksize. cbn [access mbind result_bind]. rewrite Hrecv.
  by rewrite (proj2 (Z.eqb_neq _ _)) by done.
Qed.

Lemma recv_socket_error :
  _p_magic packet' = 0x5A → ret = -1 → leaves (-1) errno' expected packet'.
Proof.
  intros Hmagic ->. unfold leaves, recv_leaves, raw_packet_recv.
  rewrite Hpacksize. cbn [access mbind result_bind]. rewrite Hrecv.
  by rewrite Hmagic.
Qed.

Lemma recv_type_mismatch :
  _p_magic packet' = 0x5A → ret ≠ -1 → expected ≠ 0 → expected ≠ received →
  leaves (-1) EIO expected packet'.
Proof.
  intros Hmagic Hret Hnz Hne. unfold leaves, recv_leaves, raw_packet_recv.
  rewrite Hpacksize. cbn [access mbind result_bind]. rewrite Hrecv.
  rewrite Hmagic. cbn [Z.eqb PACKET_HEADER_MAGIC Pos.eqb negb].
  rewrite (proj2 (Z.eqb_neq ret _)) by done.
  rewrite (proj2 (Z.eqb_neq _ 0)) by done.
  by rewrite (proj2 (Z.eqb_neq _ (p_type packet'))) by done.
Qed.

Lemma recv_type_accepted out_ret out_errno out_packet :
  _p_magic packet' = 0x5A → ret ≠ -1 → expected = 0 ∨ expected = received →
  (∀ out, recv_switch received ret errno' packet' out
          = Ok (out out_ret out_errno out_packet)) →
  leaves out_ret out_errno received out_packet.
Proof.
  intros Hmagic Hret Hexp Hswitch. unfold leaves, recv_leaves, raw_packet_recv.
  rewrite Hpacksize. cbn [access mbind result_bind]. rewrite Hrecv.
  rewrite Hmagic. cbn [Z.eqb PACKET_HEADER_MAGIC Pos.eqb negb].
  rewrite (proj2 (Z.eqb_neq ret _)) by done.
  fold expected. destruct (Z.eqb_spec expected 0) as [E0 | N0].
  - by rewrite Hswitch.
  - destruct Hexp as [? | Hexp]; [done |].
    rewrite Hexp, Z.eqb_refl. cbn [negb]. fold received. by rewrite Hswitch.
Qed.

Lemma recv_type_faults :
  _p_magic packet' = 0x5A → ret ≠ -1 → expected = 0 ∨ expected = received →
  (∀ out, recv_switch received ret errno' packet' out = Abort MemoryFault) →
  raw_packet_recv sockfd packet packtype flags errno = Abort MemoryFault.
Proof.
  intros Hmagic Hret Hexp Hswitch. unfold raw_packet_recv.
  rewrite Hpacksize. cbn [access mbind result_bind]. rewrite Hrecv.
  rewrite Hmagic. cbn [Z.eqb PACKET_HEADER_MAGIC Pos.eqb negb].
  rewrite (proj2 (Z.eqb_neq ret _)) by done.
  fold expected. destruct (Z.eqb_spec expected 0) as [E0 | N0].
  - by rewrite Hswitch.
  - destruct Hexp as [? | Hexp]; [done |].
    rewrite Hexp, Z.eqb_refl. cbn [negb]. fold received. by rewrite Hswitch.
Qed.

(** C1, as stated, promises more than the code does when the socket
    read fails.  The amended claim, the code's behaviour:
    if the magic byte of the buffer is not [0x5A] the call fails with
    [EPROTO] and leaves the payload as received; otherwise, if the
    socket read returned [-1], the call returns [-1] with the
    socket's [errno] and touches neither the expected type nor the
    payload; otherwise, an expected type of [0] is set to the
    received type, another one that differs from the received type
    makes the call fail with [EIO], a received type that is none of
    the four makes it fail with [EPROTO]; in the remaining case, when
    the buffer holds the whole message that the received type and, for
    a board sample, the received dimensions announce, the payload is
    converted from network to host byte order and the byte count of
    the socket read is returned, and when it does not, the conversion
    runs off the buffer and the call does not return: the sample loop
    takes its bound from the dimensions just received.  The last
    conjunct covers every call that gets as far as the conversion, the
    one before it says what a converted payload is. *)
Theorem raw_packet_recv_outcomes :
  pkt_types_distinct →
  (_p_magic packet' ≠ 0x5A → leaves (-1) EPROTO expected packet')
  ∧ (_p_magic packet' = 0x5A → ret = -1 →
     leaves (-1) errno' expected packet')
  ∧ (_p_magic packet' = 0x5A → ret ≠ -1 → expected ≠ 0 → expected ≠ received →
     leaves (-1) EIO expected packet')
  ∧ (_p_magic packet' = 0x5A → ret ≠ -1 → expected = 0 ∨ expected = received →
     ¬ known_type received → leaves (-1) EPROTO received packet')
  ∧ (∀ payload,
       _p_magic packet' = 0x5A → ret ≠ -1 → expected = 0 ∨ expected = received →
       converted received (p packet') payload →
       leaves ret errno' received (set_p packet' payload))
  ∧ (Forall byte_ok (p packet') →
     _p_magic packet' = 0x5A → ret ≠ -1 → expected = 0 ∨ expected = received →
     known_type received →
     if decide (wire_extent received (p packet') ≤ length (p packet'))%nat
     then ∃ payload, converted received (p packet') payload
                     ∧ leaves ret errno' received (set_p packet' payload)
     else raw_packet_recv sockfd packet packtype flags errno
          = Abort MemoryFault).
Proof.
  intros Hd. split_and!.
  - apply recv_bad_magic.
  - apply recv_socket_error.
  - apply recv_type_mismatch.
  - intros Hmagic Hret Hexp Hunknown. apply recv_type_accepted; try done.
    intros out. by apply recv_switch_unknown.
  - intros payload Hmagic Hret Hexp Hconv. apply recv_type_accepted; try done.
    intros out. by apply recv_switch_converted.
  - intros Hok Hmagic Hret Hexp Hknown.
    pose proof (converted_iff_fits received (p packet') Hd Hknown Hok) as Hfits.
    case_decide as Hle.
    + apply Hfits in Hle as [payload Hconv]. exists payload.
      split; [done |]. apply recv_type_accepted; try done.
      intros out. by apply recv_switch_converted.
    + apply recv_type_faults; try done. intros out.
      apply recv_switch_faults; [done |].
      intros payload Hconv. apply Hle, Hfits. by exists payload.
Qed.

(** C9.  The magic byte is tested before the return value of [recv]:
    whenever the buffer ends up with a magic byte other than [0x5A]
    the call returns [-1] with [EPROTO], whatever [recv] returned and
    whatever [errno] it set, also when it failed with [-1]; the
    socket's own error is reported only behind a good magic byte. *)
Theorem raw_packet_recv_magic_before_socket_error :
  (_p_magic packet' ≠ 0x5A →
   ∃ st,
     raw_packet_recv sockfd packet packtype flags errno = Ok st
     ∧ rcv_ret st = -1
     ∧ rcv_errno st = EPROTO
     ∧ rcv_packtype st = packtype
     ∧ rcv_packet st = packet')
  ∧ (_p_magic packet' = 0x5A → ret = -1 →
     ∃ st,
       raw_packet_recv sockfd packet packtype flags errno = Ok st
       ∧ rcv_ret st = -1
       ∧ rcv_errno st = errno'
       ∧ rcv_packtype st = packtype
       ∧ rcv_packet st = packet').
Proof.
  split.
  - intros Hmagic. pose proof (recv_bad_magic Hmagic) as Hleaves.
    unfold leaves, recv_leaves in Hleaves. rewrite Hleaves.
    eexists. split_and!; try done. simpl. unfold expected.
    by destruct packtype.
  - intros Hmagic Hret. pose proof (recv_socket_error Hmagic Hret) as Hleaves.
    unfold leaves, recv_leaves in Hleaves. rewrite Hleaves.
    eexists. split_and!; try done. simpl. unfold expected.
    by destruct packtype.
Qed.
End OneCall.

Lemma recv_switch_version v t ret errno packet pt (packtype : option Z) :
  recv_switch t ret errno (set_proto_vers v packet)
    (λ ret errno packet,
       {| rcv_ret := ret; rcv_errno := errno;
          rcv_packtype := (λ _, pt) <$> packtype; rcv_packet := packet |})
  = state_with_version v <$>
    recv_switch t ret errno packet
      (λ ret errno packet,
         {| rcv_ret := ret; rcv_errno := errno;
            rcv_packtype := (λ _, pt) <$> packtype; rcv_packet := packet |}).
Proof.
  unfold recv_switch, raw_msg_res_ntoh. cbn [set_proto_vers p].
  destruct (t =? RAW_PKT_TYPE_BSAMP);
    [by destruct (raw_msg_bsamp_ntoh (p packet)) |].
  destruct (t =? RAW_PKT_TYPE_REQ);
    [by destruct (raw_msg_req_ntoh (p packet)) |].
  destruct (t =? RAW_PKT_TYPE_RES);
    [by destruct (raw_msg_req_ntoh (p packet)) |].
  by destruct (t =? RAW_PKT_TYPE_ERR).
Qed.

(** C7, as stated, fails for the protocol version.  The amended claim:
    on every receive the magic byte is validated, and a buffer whose
    magic byte is not [0x5A] is rejected with [EPROTO]; the
    protocol-version byte is not looked at: replacing it in what the
    socket delivers by any [v] changes nothing in the outcome of the
    call but that byte of the buffer. *)
Theorem raw_packet_recv_validates_magic_only
    (sockfd : Z) (packet : raw_packet) (packtype : option Z) (flags errno : Z)
    (packsize ret errno' : Z) (packet' : raw_packet) (v : Z) :
  recv_packsize packet (default 0 packtype) = Some packsize →
  sys_recv sockfd packet packsize flags errno = (ret, errno', packet') →
  (_p_magic packet' ≠ 0x5A →
   recv_leaves sockfd packet packtype flags errno
     (-1) EPROTO (default 0 packtype) packet')
  ∧ raw_packet_recv (H0 := with_version _ v) sockfd packet packtype flags errno
    = state_with_version v <$> raw_packet_recv sockfd packet packtype flags errno.
Proof.
  intros Hpacksize Hrecv. split; [by eapply recv_bad_magic |].
  unfold raw_packet_recv. rewrite Hpacksize. cbn [access mbind result_bind].
  cbn [sys_recv with_version]. rewrite Hrecv. cbn [set_proto_vers _p_magic p_type].
  destruct (_p_magic packet' =? PACKET_HEADER_MAGIC); [| done]. cbn [negb].
  destruct (ret =? -1); [done |].
  destruct (default 0 packtype =? 0); [apply recv_switch_version |].
  destruct (default 0 packtype =? p_type packet'); [| done]. cbn [negb].
  apply recv_switch_version.
Qed.
End RecvFacts.

(** ** The claims at concrete calls, on a little-endian host *)

Lemma abi_le_distinct : pkt_types_distinct (H := abi_le).
Proof.
  unfold pkt_types_distinct. cbn.
  repeat (apply NoDup_cons; split;
          [rewrite ?elem_of_cons, elem_of_nil; lia |]).
  apply NoDup_nil_2.
Qed.

(** C1, as stated, fails when the socket read fails behind a good magic
    byte: [recv] returns [-1] with [EAGAIN] and the buffer still holds
    a request from an earlier call; the expected type, [0] on entry, is
    not set to the type in the buffer. *)
Lemma raw_packet_recv_socket_error_counterexample :
  ¬ recv_claim_as_stated (H := abi_le) (H0 := sock_delivers (-1) 11 wire_req)
      3 wire_req (Some 0) 0 0 (-1) 11 wire_req.
Proof.
  intros (_ & Hset & _).
  destruct Hset as (st & Hst & Hpt); [reflexivity | reflexivity |].
  vm_compute in Hst. injection Hst as <-. discriminate Hpt.
Qed.

(** A request arrives in a buffer whose old contents were no packet: the
    expected type is set, the payload converted, the count returned.
    A board sample of 3 chips arrives in a buffer for 2: the call runs
    off the buffer. *)
Lemma raw_packet_recv_outcomes_witness :
  raw_packet_recv (H := abi_le) (H0 := sock_delivers 12 0 wire_req)
    3 stale_packet (Some 0) 0 0
  = Ok {| rcv_ret := 12; rcv_errno := 0; rcv_packtype := Some 2;
          rcv_packet := set_p wire_req req_payload |}
  ∧ raw_packet_recv (H := abi_le) (H0 := sock_delivers 16 0 wire_bsamp_3x1)
      3 bsamp_buffer_2x1 (Some 1) 0 0
    = Abort MemoryFault.
Proof.
  split.
  - destruct (raw_packet_recv_outcomes (H := abi_le)
                (H0 := sock_delivers 12 0 wire_req)
                3 stale_packet (Some 0) 0 0 12 12 0 wire_req
                eq_refl eq_refl abi_le_distinct)
      as (_ & _ & _ & _ & Hconverted & _).
    apply (Hconverted req_payload);
      [reflexivity | discriminate | left; reflexivity |].
    apply converted_req; vm_compute; reflexivity.
  - destruct (raw_packet_recv_outcomes (H := abi_le)
                (H0 := sock_delivers 16 0 wire_bsamp_3x1)
                3 bsamp_buffer_2x1 (Some 1) 0 0 16 16 0 wire_bsamp_3x1
                eq_refl eq_refl abi_le_distinct)
      as (_ & _ & _ & _ & _ & Hfits).
    assert (Hok : Forall byte_ok (p wire_bsamp_3x1)).
    { unfold byte_ok. cbn [p wire_bsamp_3x1].
      repeat (apply Forall_cons; split; [lia |]). apply Forall_nil_2. }
    specialize (Hfits Hok eq_refl ltac:(discriminate)
                  (or_intror eq_refl) (or_introl eq_refl)).
    match type of Hfits with
    | if decide ?P then _ else _ => destruct (decide P) as [Hle | _]
    end; [| exact Hfits].
    exfalso. vm_compute in Hle. lia.
Defined.

(** C7, as stated, fails: a request with protocol version [0x01] behind
    a good magic byte is received like any other. *)
Lemma raw_packet_recv_accepts_other_version :
  ¬ recv_validates_version (H := abi_le) (H0 := sock_delivers 12 0 wire_req_v1)
      3 stale_packet (Some 0) 0 0 wire_req_v1.
Proof.
  intros Hclaim.
  assert (Hversion : _p_proto_vers wire_req_v1 ≠ 0x00) by (vm_compute; discriminate).
  apply (λ H, Hclaim (or_intror H)) in Hversion.
  unfold recv_leaves in Hversion. vm_compute in Hversion. discriminate Hversion.
Qed.

Lemma raw_packet_recv_validates_magic_only_witness :
  raw_packet_recv (H := abi_le)
    (H0 := with_version (sock_delivers 12 0 wire_req) 0x01)
    3 stale_packet (Some 0) 0 0
  = state_with_version 0x01 <$>
    raw_packet_recv (H := abi_le) (H0 := sock_delivers 12 0 wire_req)
      3 stale_packet (Some 0) 0 0.
Proof.
  apply (raw_packet_recv_validates_magic_only (H := abi_le)
           (H0 := sock_delivers 12 0 wire_req)
           3 stale_packet (Some 0) 0 0 12 12 0 wire_req 0x01 eq_refl eq_refl).
Defined.

(** The socket read fails with [EAGAIN] and the buffer holds no packet:
    the caller sees [EPROTO]. *)
Lemma raw_packet_recv_magic_before_socket_error_witness :
  ∃ st,
    raw_packet_recv (H := abi_le) (H0 := sock_delivers (-1) 11 stale_packet)
      3 stale_packet (Some 2) 0 0 = Ok st
    ∧ rcv_ret st = -1
    ∧ rcv_errno st = EPROTO
    ∧ rcv_packtype st = Some 2
    ∧ rcv_packet st = stale_packet.
Proof.
  apply (raw_packet_recv_magic_before_socket_error (H := abi_le)
           (H0 := sock_delivers (-1) 11 stale_packet)
           3 stale_packet (Some 2) 0 0 12 (-1) 11 stale_packet eq_refl eq_refl).
  discriminate.
Defined.

(** ** The specification's wording holds where the code agrees with it *)

(** A successful receive satisfies C1 as stated. *)
Example recv_claim_as_stated_on_success :
  recv_claim_as_stated (H := abi_le) (H0 := sock_delivers 12 0 wire_req)
    3 stale_packet (Some 0) 0 0 12 0 wire_req.
Proof.
  unfold recv_claim_as_stated. split_and!.
  - intros Hmagic. by destruct Hmagic.
  - intros _ _. eexists. split; [vm_compute; reflexivity | reflexivity].
  - intros _ Hexpected. by destruct Hexpected.
  - intros _ _ Hunknown. destruct Hunknown. right. by left.
  - intros payload _ _ Hconv. unfold recv_leaves.
    destruct Hconv as [? Ht | ? _ Hp | ? Ht | Ht]; try discriminate Ht.
    vm_compute in Hp. injection Hp as <-. vm_compute. reflexivity.
Qed.

(** A packet of version [0x00] satisfies C7 as stated. *)
Example recv_validates_version_on_version_0 :
  recv_validates_version (H := abi_le) (H0 := sock_delivers 12 0 wire_req)
    3 stale_packet (Some 0) 0 0 wire_req.
Proof. intros [Hmagic | Hversion]; [by destruct Hmagic | by destruct Hversion]. Qed.

(** A packet whose payload is zero already satisfies C8 as stated. *)
Example init_zeroes_the_rest_on_zero_payload :
  init_zeroes_the_rest (set_p stale_packet (replicate 8 0)) 2 0.
Proof.
  unfold init_zeroes_the_rest. cbn. split_and!; try done.
  repeat (apply Forall_cons; split; [done |]). apply Forall_nil_2.
Qed.

(** A board sample of two samples is copied over a buffer of [0x77]:
    twelve payload bytes change, the last two stay. *)
Lemma raw_packet_copy_frame_witness :
  ∃ dst',
    raw_packet_copy (H := abi_le)
      {| _p_magic := 0; _p_proto_vers := 0; p_type := 0; p_flags := 0;
         p := replicate 14 0x77 |}
      {| _p_magic := 0x5A; _p_proto_vers := 0; p_type := 1; p_flags := 0;
         p := bsamp_2x1 |} = Ok dst'
    ∧ _p_magic dst' = 0x5A
    ∧ _p_proto_vers dst' = 0
    ∧ p_type dst' = 1
    ∧ p_flags dst' = 0
    ∧ length (p dst') = 14%nat
    ∧ (∀ i, (i < 12)%nat → p dst' !! i = bsamp_2x1 !! i)
    ∧ (∀ i, (12 ≤ i)%nat → p dst' !! i = replicate 14 0x77 !! i).
Proof.
  apply (raw_packet_copy_frame (H := abi_le)
           {| _p_magic := 0; _p_proto_vers := 0; p_type := 0; p_flags := 0;
              p := replicate 14 0x77 |}
           {| _p_magic := 0x5A; _p_proto_vers := 0; p_type := 1; p_flags := 0;
              p := bsamp_2x1 |} 12 abi_le_distinct).
  - apply (extent_bsamp (H := abi_le) _ 2 1); reflexivity.
  - simpl. lia.
  - simpl. lia.
Defined.

(** ** Claims about the transaction list *)

Lemma set_transactions_assertion_iff cs txns n_txns :
  set_transactions_assertion cs txns n_txns = true
  ↔ txns_empty cs ∨ (txns = None ∧ n_txns = 0).
Proof.
  unfold set_transactions_assertion, txns_empty, is_null.
  rewrite orb_true_iff, !andb_true_iff, !Z.eqb_eq.
  destruct (ctl_txns cs), txns; intuition (discriminate || auto).
Qed.

Lemma set_transactions_assertion_clear cs :
  set_transactions_assertion cs None 0 = true.
Proof. unfold set_transactions_assertion. apply orb_true_r. Qed.

Lemma stamp_requests_spec count : ∀ i txns rid,
  (i + count ≤ length txns)%nat →
  0 <= rid < 65536 →
  ∃ stamped,
    stamp_requests count i txns rid
    = Some (stamped, (rid + Z.of_nat count) mod 65536)
    ∧ length stamped = length txns
    ∧ (∀ j, (j < i ∨ i + count ≤ j)%nat → stamped !! j = txns !! j)
    ∧ (∀ j, (i ≤ j < i + count)%nat →
         stamped !! j
         = set_r_id ((rid + Z.of_nat (j - i)) mod 65536) <$> txns !! j).
Proof.
  induction count as [| count IH]; intros i txns rid Hlen Hrid.
  - exists txns. cbn [stamp_requests]. split_and!; try done.
    + f_equal. f_equal. rewrite Z.add_0_r, Z.mod_small; done.
    + intros j ?. lia.
  - cbn [stamp_requests].
    destruct (lookup_lt_is_Some_2 txns i) as [txn Htxn]; [lia |].
    rewrite Htxn. cbn [mbind option_bind].
    destruct (IH (S i) (<[i := set_r_id rid txn]> txns) ((rid + 1) mod 65536))
      as (stamped & Hrun & Hlength & Hout & Hin).
    { rewrite length_insert. lia. }
    { zdm. }
    exists stamped. rewrite length_insert in Hlength. split_and!.
    + rewrite Hrun. f_equal. f_equal. rewrite Nat2Z.inj_succ. zdm.
    + done.
    + intros j Hj. rewrite Hout by lia. apply list_lookup_insert_ne. lia.
    + intros j Hj. destruct (decide (j = i)) as [-> | Hne].
      * rewrite Hout by lia. rewrite list_lookup_insert_eq by lia.
        rewrite Htxn, Nat.sub_diag, Z.add_0_r, Z.mod_small; done.
      * rewrite Hin by lia. rewrite list_lookup_insert_ne by lia.
        replace (Z.of_nat (j - i)) with (Z.of_nat (j - S i) + 1) by lia.
        f_equal. f_equal. zdm.
Qed.

Lemma access_faults {A} (o : option A) f : access o = Abort f → f = MemoryFault.
Proof. destruct o; [done |]. by intros [= <-]. Qed.

Lemma control_set_transactions_unfold m txns n_txns have_lock :
  (have_lock = false → mtx_held m = false) →
  control_set_transactions m txns n_txns have_lock
  = if negb (set_transactions_assertion (sess m) txns n_txns) then
      Abort AssertionFailed
    else
      let m := entered have_lock m in
      let m := if is_null (ctl_txns (sess m)) then m else emit EvFreeTxns m in
      let cur_rid := ctl_cur_rid (sess m) in
      m ← (if n_txns =? 0 then
             Ok (emit EvStoreTxns (upd_sess (set_txns txns n_txns (-1) cur_rid) m))
           else
             '(stamped, cur_rid) ←
               access (array ← txns;
                       stamp_requests (Z.to_nat n_txns) 0 array cur_rid);
             Ok (emit EvStoreTxns
                   (upd_sess (set_txns (Some stamped) n_txns 0 cur_rid) m)));
      if have_lock then Ok m else __control_must_unlock m.
Proof.
  intros Hlock. unfold control_set_transactions, entered, __control_must_lock.
  destruct have_lock; [done |]. by rewrite Hlock.
Qed.

(** C5.  [control_set_transactions] asserts its precondition: the
    assertion holds exactly when the list of the session is empty
    ([ctl_txns == NULL], [ctl_cur_txn == -1], [ctl_n_txns == 0]) or the
    call clears it ([txns == NULL], [n_txns == 0]); the call dies of the
    assertion exactly when it does not hold, so with [n_txns > 0] while
    [ctl_cur_txn ≠ -1] it does, a call that installs a non-empty list
    and returns found the list empty, and under the precondition the
    assertion never fires. *)
Theorem control_set_transactions_asserts_precondition
    (m : machine) (txns : option (list control_txn)) (n_txns : Z)
    (have_lock : bool) :
  (have_lock = false → mtx_held m = false) →
  let call := control_set_transactions m txns n_txns have_lock in
  (set_transactions_assertion (sess m) txns n_txns = true
   ↔ txns_empty (sess m) ∨ (txns = None ∧ n_txns = 0))
  ∧ (call = Abort AssertionFailed
     ↔ set_transactions_assertion (sess m) txns n_txns = false)
  ∧ (0 < n_txns → ctl_cur_txn (sess m) ≠ -1 → call = Abort AssertionFailed)
  ∧ (0 < n_txns → (∃ m', call = Ok m') → txns_empty (sess m))
  ∧ (txns_empty (sess m) ∨ (txns = None ∧ n_txns = 0) →
     call ≠ Abort AssertionFailed).
Proof.
  intros Hlock call.
  pose proof (set_transactions_assertion_iff (sess m) txns n_txns) as Hiff.
  assert (Hcall : call = Abort AssertionFailed
                  ↔ set_transactions_assertion (sess m) txns n_txns = false).
  { unfold call. rewrite control_set_transactions_unfold by done.
    destruct (set_transactions_assertion (sess m) txns n_txns); cbn [negb];
      [| done].
    split; [| done]. intros Hfail. exfalso. revert Hfail. cbv zeta.
    destruct (n_txns =? 0).
    - cbn [mbind result_bind]. unfold __control_must_unlock, entered.
      destruct have_lock; [by destruct (is_null _) |].
      by destruct (is_null _).
    - destruct (access _) as [[stamped rid] | f] eqn:Haccess.
      + cbn [mbind result_bind]. unfold __control_must_unlock, entered.
        destruct have_lock; [by destruct (is_null _) |].
        by destruct (is_null _).
      + cbn [mbind result_bind]. intros [= ->].
        by apply access_faults in Haccess. }
  split_and!.
  - done.
  - done.
  - intros Hn Hcur. apply Hcall. apply not_true_is_false. rewrite Hiff.
    unfold txns_empty. intros [(_ & _ & ?) | (_ & ?)]; [done | lia].
  - intros Hn [m' Hok]. destruct (set_transactions_assertion _ _ _) eqn:Hassert.
    + destruct (proj1 Hiff eq_refl) as [? | (_ & ?)]; [done | lia].
    + rewrite (proj2 Hcall eq_refl) in Hok. discriminate Hok.
  - intros Hpre Hfail. apply Hcall in Hfail. apply Hiff in Hpre. congruence.
Qed.

(** C3, as stated, fails when the 16-bit [cur_rid] wraps: from
    [cur_rid = 65535] the second of two requests is stamped [0], not
    [65536], and [cur_rid] ends as [1]. *)
Lemma control_set_transactions_wraps :
  ¬ stamping_claim_as_stated (session_at_rest 65535) [txn0; txn0] false.
Proof.
  intros (m' & stamped & Hcall & Htxns & Hstamp & _).
  vm_compute in Hcall. injection Hcall as <-.
  cbn [sess ctl_txns] in Htxns. injection Htxns as <-.
  specialize (Hstamp 1%nat ltac:(simpl; lia)). vm_compute in Hstamp.
  discriminate Hstamp.
Qed.

(** C3, amended.  For a session whose transaction list is empty and
    whose [cur_rid] is [k], [control_set_transactions] with the first
    [n > 0] entries of [txns] stamps the request of [txns[i]] with
    [(k + i) mod 2^16] for every [i < n] and changes nothing else in the
    array, leaves [cur_rid] at [(k + n) mod 2^16] (the counter has 16
    bits and wraps) and sets [cur_txn] to [0]; with [txns = NULL] and
    [n = 0] it sets [cur_txn] to [-1]. *)
Theorem control_set_transactions_stamps
    (m : machine) (txns : list control_txn) (n : nat) (have_lock : bool) (k : Z) :
  (have_lock = false → mtx_held m = false) →
  txns_empty (sess m) →
  ctl_cur_rid (sess m) = k →
  0 <= k < 65536 →
  (0 < n ≤ length txns)%nat →
  (∃ m' stamped,
     control_set_transactions m (Some txns) (Z.of_nat n) have_lock = Ok m'
     ∧ ctl_txns (sess m') = Some stamped
     ∧ ctl_n_txns (sess m') = Z.of_nat n
     ∧ length stamped = length txns
     ∧ (∀ i, (i < n)%nat →
          stamped !! i = set_r_id ((k + Z.of_nat i) mod 65536) <$> txns !! i)
     ∧ (∀ i, (n ≤ i)%nat → stamped !! i = txns !! i)
     ∧ ctl_cur_rid (sess m') = (k + Z.of_nat n) mod 65536
     ∧ ctl_cur_txn (sess m') = 0
     ∧ mtx_held m' = mtx_held m)
  ∧ (∃ m',
       control_set_transactions m None 0 have_lock = Ok m'
       ∧ ctl_txns (sess m') = None
       ∧ ctl_n_txns (sess m') = 0
       ∧ ctl_cur_txn (sess m') = -1
       ∧ ctl_cur_rid (sess m') = k
       ∧ mtx_held m' = mtx_held m).
Proof.
  intros Hlock Hempty Hk Hrange Hn.
  assert (Hnull : is_null (ctl_txns (sess (entered have_lock m))) = true).
  { destruct Hempty as (Hnone & _). unfold entered.
    by destruct have_lock; cbn [sess]; rewrite Hnone. }
  assert (Hrid : ctl_cur_rid (sess (entered have_lock m)) = k).
  { unfold entered. by destruct have_lock. }
  split.
  - destruct (stamp_requests_spec n 0 txns k) as (stamped & Hrun & Hlen & Hout & Hin);
      [lia | done |].
    rewrite control_set_transactions_unfold by done.
    rewrite (proj2 (set_transactions_assertion_iff _ _ _)) by (by left).
    cbn [negb]. cbv zeta. rewrite Hnull, Hrid.
    rewrite (proj2 (Z.eqb_neq _ 0)) by lia.
    rewrite Nat2Z.id. cbn [mbind option_bind]. rewrite Hrun.
    cbn [access mbind result_bind].
    unfold __control_must_unlock, entered.
    destruct have_lock; cbn [emit upd_sess mtx_held].
    + eexists _, stamped. split; [reflexivity |]. cbn [sess set_txns ctl_txns
        ctl_n_txns ctl_cur_rid ctl_cur_txn mtx_held].
      split_and!; try done.
      * intros i Hi. rewrite Hin by lia. by rewrite Nat.sub_0_r.
      * intros i Hi. apply Hout. lia.
    + eexists _, stamped. split; [reflexivity |]. cbn [sess set_txns ctl_txns
        ctl_n_txns ctl_cur_rid ctl_cur_txn mtx_held].
      split_and!; try done.
      * intros i Hi. rewrite Hin by lia. by rewrite Nat.sub_0_r.
      * intros i Hi. apply Hout. lia.
      * symmetry. by apply Hlock.
  - rewrite control_set_transactions_unfold by done.
    rewrite (proj2 (set_transactions_assertion_iff _ _ _)) by (by left).
    cbn [negb]. cbv zeta. rewrite Hnull, Hrid. cbn [Z.eqb mbind result_bind].
    unfold __control_must_unlock, entered.
    destruct have_lock; cbn [emit upd_sess mtx_held].
    + eexists. split; [reflexivity |]. by cbn.
    + eexists. split; [reflexivity |]. cbn. split_and!; try done.
      symmetry. by apply Hlock.
Qed.

(** ** Claims about the close handler and the worker thread *)

Section ControlFacts.
Context `{ControlABI} `{ControlOps}.

(** C4.  When the client's stream endpoint reports EOF or ERROR while
    the transaction list is not empty, the close handler frees the
    endpoint and clears the list between [control_must_lock] and
    [control_must_unlock]: when it hands over to the client side's
    [cs_close] hook, and when it returns unless that hook installs
    transactions itself, [ctl_txns == NULL], [ctl_n_txns == 0] and
    [ctl_cur_txn == -1]. *)
Theorem control_client_event_clears_transactions
    (m : machine) (bev events : Z) (txns : list control_txn) :
  mtx_held m = false →
  bev = cbev (sess m) →
  bev ≠ 0 →
  Z.land events BEV_EVENT_EOF ≠ 0 ∨ Z.land events BEV_EVENT_ERROR ≠ 0 →
  ctl_txns (sess m) = Some txns →
  ∃ cleared m',
    control_client_event bev events m = Ok m'
    ∧ txns_empty cleared
    ∧ cbev cleared = 0
    ∧ sess m' = hook_app (cs_close control_client_ops) cleared
    ∧ trace m' = trace m ++ [EvLock; EvBevFree bev; EvFreeTxns; EvStoreTxns;
                             EvUnlock; EvCloseHook Client]
    ∧ mtx_held m' = false
    ∧ (keeps_txns_empty (cs_close control_client_ops) → txns_empty (sess m')).
Proof.
  intros Hfree Hbev Hnonnull Hevents Htxns.
  destruct m as [cs held tr]. cbn [sess mtx_held trace] in *. subst held.
  unfold control_client_event, control_bevt_handler. cbn [sess].
  rewrite <- Hbev, Z.eqb_refl. cbn [negb].
  assert (Hclosed : negb (Z.land events BEV_EVENT_EOF =? 0)
                    || negb (Z.land events BEV_EVENT_ERROR =? 0) = true).
  { apply orb_true_iff. rewrite !negb_true_iff, !Z.eqb_neq. done. }
  rewrite Hclosed.
  unfold control_client_close, __control_must_lock. cbn [mtx_held sess mbind result_bind].
  rewrite <- Hbev, (proj2 (Z.eqb_neq bev 0)) by done.
  cbn [emit upd_sess sess set_cbev ctl_txns]. rewrite Htxns. cbn [is_null].
  unfold control_clear_transactions, control_set_transactions.
  cbn [mbind result_bind sess emit upd_sess].
  rewrite set_transactions_assertion_clear.
  cbn [negb set_cbev ctl_txns]. rewrite Htxns.
  cbn [is_null Z.eqb mbind result_bind emit upd_sess sess mtx_held trace
         __control_must_unlock].
  set (cleared := set_txns None 0 (-1) (ctl_cur_rid (set_cbev 0 cs)) (set_cbev 0 cs)).
  assert (Hcleared : txns_empty cleared) by done.
  exists cleared. eexists. split; [reflexivity |].
  unfold run_hook, hook_app, keeps_txns_empty.
  cbn [emit upd_sess sess trace mtx_held].
  destruct (cs_close control_client_ops) as [hook |];
    cbn [upd_sess sess trace mtx_held]; rewrite <- !app_assoc;
    split_and!; try done; intros Hkeeps; apply (Hkeeps cleared Hcleared).
Qed.

Lemma wake_set_lor a b cs :
  negb (Z.land (wake_why cs) (Z.lor a b) =? 0) = wake_set a cs || wake_set b cs.
Proof.
  unfold wake_set. rewrite Z.land_lor_distr_r.
  destruct (Z.eqb_spec (Z.land (wake_why cs) a) 0) as [-> | Ha]; cbn [negb orb].
  - by rewrite Z.lor_0_l.
  - apply negb_true_iff, Z.eqb_neq. rewrite Z.lor_eq_0_iff. tauto.
Qed.

(** The inner loop waits once for every time it finds [wake_why] at
    [CONTROL_WHY_NONE], and leaves as soon as it does not. *)
Lemma wait_for_wake_spec env : ∀ m,
  mtx_held m = true →
  ∃ k, (k ≤ length env)%nat
    ∧ (∀ j, (j < k)%nat →
         wake_why (sess_after (take j env) (sess m)) = CONTROL_WHY_NONE)
    ∧ if decide (wake_why (sess (waited k env m)) = CONTROL_WHY_NONE)
      then k = length env ∧ wait_for_wake env m = Asleep (waited k env m)
      else wait_for_wake env m = Running (waited k env m) (drop k env).
Proof.
  induction env as [| others env IH]; intros [cs held tr] Hheld;
    cbn [mtx_held] in Hheld; subst held.
  - exists 0%nat. split; [done |]. split; [intros j ?; lia |].
    unfold waited. cbn [take replicate sess_after foldl sess trace wait_for_wake].
    rewrite app_nil_r. case_decide as Hnone.
    + by rewrite Hnone, Z.eqb_refl.
    + by rewrite (proj2 (Z.eqb_neq _ _)) by done.
  - cbn [wait_for_wake sess]. destruct (Z.eqb_spec (wake_why cs) CONTROL_WHY_NONE) as [Hnone | Hwoken].
    + unfold __control_must_cond_wait. cbn [mtx_held emit upd_sess sess trace].
      destruct (IH {| sess := others cs; mtx_held := true;
                      trace := tr ++ [EvCondWait] |} eq_refl)
        as (k & Hk & Hbefore & Hend).
      exists (S k). split; [simpl; lia |]. split.
      * intros [| j] Hj; [done |]. apply Hbefore. lia.
      * unfold waited in *. cbn [take drop replicate sess_after foldl sess trace length] in *.
        rewrite <- app_assoc in Hend. cbn [app] in Hend.
        unfold sess_after in Hend |- *. cbn [emit upd_sess sess mtx_held trace].
        destruct (decide _); [| exact Hend].
        destruct Hend as [-> Hend]. split; [done | exact Hend].
    + exists 0%nat. split; [lia |]. split; [intros j ?; lia |].
      unfold waited. cbn [take replicate sess_after foldl sess trace drop].
      rewrite app_nil_r. by rewrite decide_False by done.
Qed.

(** C6.  One iteration of the worker's loop, started without the mutex:
    the worker takes the mutex and waits on the condition variable once
    for every time it finds [wake_why == NONE] ([k] times, the others
    acting on the session meanwhile); if nobody ever wakes it, it stays
    asleep; if the EXIT bit is set it releases the mutex and exits
    without calling a thread hook; otherwise it calls the client side's
    thread hook if and only if CLIENT_CMD or CLIENT_RES is set, then the
    data-node side's if and only if DNODE_TXN is set (in [wake_why] as
    the client side left it), both with the mutex held, releases the
    mutex and starts the next iteration. *)
Theorem control_worker_iteration_spec
    (env : list (control_session → control_session)) (m : machine) :
  mtx_held m = false →
  (∃ k, (k ≤ length env)%nat
     ∧ (∀ j, (j < k)%nat →
          wake_why (sess_after (take j env) (sess m)) = CONTROL_WHY_NONE)
     ∧ let cs := sess_after (take k env) (sess m) in
       let tr := trace m ++ EvLock :: replicate k EvCondWait in
       if decide (wake_why cs = CONTROL_WHY_NONE) then
         k = length env
         ∧ control_worker_iteration env m
           = Asleep {| sess := cs; mtx_held := true; trace := tr |}
       else if wake_set CONTROL_WHY_EXIT cs then
         control_worker_iteration env m
         = Exited {| sess := cs; mtx_held := false;
                     trace := tr ++ [EvUnlock; EvThreadExit] |}
       else
         let client := wake_set CONTROL_WHY_CLIENT_CMD cs
                       || wake_set CONTROL_WHY_CLIENT_RES cs in
         let cs1 := if client then hook_app (cs_thread control_client_ops) cs
                    else cs in
         let dnode := wake_set CONTROL_WHY_DNODE_TXN cs1 in
         let cs2 := if dnode then hook_app (cs_thread control_dnode_ops) cs1
                    else cs1 in
         control_worker_iteration env m
         = Running {| sess := cs2; mtx_held := false;
                      trace := tr ++ (if client then [EvThreadHook Client] else [])
                                  ++ (if dnode then [EvThreadHook Dnode] else [])
                                  ++ [EvUnlock] |}
             (drop k env))
  ∧ (∀ fuel,
       control_worker_main (S fuel) env m
       = match control_worker_iteration env m with
         | Running m' env' => control_worker_main fuel env' m'
         | other => other
         end).
Proof.
  intros Hfree. split; [| done].
  destruct m as [cs0 held tr0]. cbn [mtx_held sess trace] in *. subst held.
  unfold control_worker_iteration, __control_must_lock. cbn [mtx_held sess trace].
  destruct (wait_for_wake_spec env
              {| sess := cs0; mtx_held := true; trace := tr0 ++ [EvLock] |} eq_refl)
    as (k & Hk & Hbefore & Hend).
  exists k. split; [done |]. split; [done |].
  unfold waited in Hend. cbn [sess trace] in Hend, Hbefore.
  rewrite <- app_assoc in Hend. cbn [app] in Hend. cbv zeta.
  set (cs := sess_after (take k env) cs0) in *.
  set (tr := tr0 ++ EvLock :: replicate k EvCondWait) in *.
  case_decide as Hnone.
  { destruct Hend as [-> Hend]. by rewrite Hend. }
  rewrite Hend. cbn [sess]. rewrite (proj2 (Z.eqb_neq _ _)) by done.
  fold (wake_set CONTROL_WHY_EXIT cs).
  destruct (wake_set CONTROL_WHY_EXIT cs).
  { cbn [__control_must_unlock mtx_held]. unfold emit. cbn [sess mtx_held trace].
    by rewrite <- app_assoc. }
  rewrite wake_set_lor.
  unfold control_client_thread, control_dnode_thread, run_hook, hook_app.
  destruct (wake_set CONTROL_WHY_CLIENT_CMD cs || wake_set CONTROL_WHY_CLIENT_RES cs);
    destruct (cs_thread control_client_ops) as [client_hook |];
    cbn [emit upd_sess sess trace mtx_held];
    match goal with
    | |- context [negb (Z.land (wake_why ?c) CONTROL_WHY_DNODE_TXN =? 0)] =>
        fold (wake_set CONTROL_WHY_DNODE_TXN c);
        destruct (wake_set CONTROL_WHY_DNODE_TXN c)
    end;
    destruct (cs_thread control_dnode_ops) as [dnode_hook |];
    cbn [emit upd_sess sess trace mtx_held __control_must_unlock app];
    rewrite <- ?app_assoc; cbn [app]; rewrite ?app_nil_r; reflexivity.
Qed.
End ControlFacts.

(** ** The control claims at concrete sessions *)

(** Far from the wrap, the stamps are as C3 states them. *)
Example stamping_claim_as_stated_without_wrap :
  stamping_claim_as_stated (session_at_rest 7) [txn0; txn0; txn0] false.
Proof.
  unfold stamping_claim_as_stated. eexists _, _.
  split; [vm_compute; reflexivity |]. cbn [sess ctl_txns ctl_cur_rid ctl_cur_txn].
  split_and!; try done.
  intros [| [| [| i]]] Hi; try done. simpl in Hi. lia.
Qed.

(** Three requests are stamped from [cur_rid = 65534]: they get
    [65534], [65535] and [0], and [cur_rid] ends as [1]. *)
Lemma control_set_transactions_stamps_witness :
  ∃ m' stamped,
    control_set_transactions (session_at_rest 65534)
      (Some [txn0; txn0; txn0]) 3 false = Ok m'
    ∧ ctl_txns (sess m') = Some stamped
    ∧ ctl_n_txns (sess m') = 3
    ∧ length stamped = 3%nat
    ∧ (∀ i, (i < 3)%nat →
         stamped !! i
         = set_r_id ((65534 + Z.of_nat i) mod 65536) <$> [txn0; txn0; txn0] !! i)
    ∧ (∀ i, (3 ≤ i)%nat → stamped !! i = [txn0; txn0; txn0] !! i)
    ∧ ctl_cur_rid (sess m') = 1
    ∧ ctl_cur_txn (sess m') = 0
    ∧ mtx_held m' = false.
Proof.
  apply (control_set_transactions_stamps (session_at_rest 65534)
           [txn0; txn0; txn0] 3 false 65534).
  - reflexivity.
  - unfold txns_empty. simpl. tauto.
  - reflexivity.
  - lia.
  - simpl. lia.
Defined.

(** Installing a list while transaction 1 of 3 is in flight dies of the
    assertion. *)
Lemma control_set_transactions_asserts_precondition_witness :
  control_set_transactions session_busy (Some [txn0]) 1 false
  = Abort AssertionFailed.
Proof.
  destruct (control_set_transactions_asserts_precondition
              session_busy (Some [txn0]) 1 false (λ _, eq_refl))
    as (_ & _ & Hbusy & _).
  apply Hbusy; [lia | simpl; lia].
Defined.

(** The client hangs up in the middle of three transactions. *)
Lemma control_client_event_clears_transactions_witness :
  ∃ cleared m',
    control_client_event (H0 := no_hooks) 0x1000 BEV_EVENT_EOF session_busy = Ok m'
    ∧ txns_empty cleared
    ∧ cbev cleared = 0
    ∧ sess m' = hook_app (cs_close (control_client_ops (ControlOps := no_hooks))) cleared
    ∧ trace m' = [EvLock; EvBevFree 0x1000; EvFreeTxns; EvStoreTxns; EvUnlock;
                  EvCloseHook Client]
    ∧ mtx_held m' = false
    ∧ (keeps_txns_empty (cs_close (control_client_ops (ControlOps := no_hooks)))
       → txns_empty (sess m')).
Proof.
  apply (control_client_event_clears_transactions (H0 := no_hooks)
           session_busy 0x1000 BEV_EVENT_EOF [txn0; txn0; txn0]).
  - reflexivity.
  - reflexivity.
  - discriminate.
  - left. vm_compute. discriminate.
  - reflexivity.
Defined.

(** The worker is woken once for nothing and once with CLIENT_CMD and
    DNODE_TXN. *)
Lemma control_worker_iteration_spec_witness :
  let env := [sets_wake 0; sets_wake 10] in
  let m := session_at_rest 0 in
  ∃ k, (k ≤ length env)%nat
    ∧ (∀ j, (j < k)%nat →
         wake_why (sess_after (take j env) (sess m))
         = CONTROL_WHY_NONE (ControlABI := why_bits))
    ∧ let cs := sess_after (take k env) (sess m) in
      let tr := trace m ++ EvLock :: replicate k EvCondWait in
      if decide (wake_why cs = CONTROL_WHY_NONE (ControlABI := why_bits)) then
        k = length env
        ∧ control_worker_iteration (H := why_bits) (H0 := no_hooks) env m
          = Asleep {| sess := cs; mtx_held := true; trace := tr |}
      else if wake_set (CONTROL_WHY_EXIT (ControlABI := why_bits)) cs then
        control_worker_iteration (H := why_bits) (H0 := no_hooks) env m
        = Exited {| sess := cs; mtx_held := false;
                    trace := tr ++ [EvUnlock; EvThreadExit] |}
      else
        let client := wake_set (CONTROL_WHY_CLIENT_CMD (ControlABI := why_bits)) cs
                      || wake_set (CONTROL_WHY_CLIENT_RES (ControlABI := why_bits)) cs in
        let cs1 := if client
                   then hook_app (cs_thread (control_client_ops (ControlOps := no_hooks))) cs
                   else cs in
        let dnode := wake_set (CONTROL_WHY_DNODE_TXN (ControlABI := why_bits)) cs1 in
        let cs2 := if dnode
                   then hook_app (cs_thread (control_dnode_ops (ControlOps := no_hooks))) cs1
                   else cs1 in
        control_worker_iteration (H := why_bits) (H0 := no_hooks) env m
        = Running {| sess := cs2; mtx_held := false;
                     trace := tr ++ (if client then [EvThreadHook Client] else [])
                                 ++ (if dnode then [EvThreadHook Dnode] else [])
                                 ++ [EvUnlock] |}
            (drop k env).
Proof.
  intros env m.
  apply (control_worker_iteration_spec (H := why_bits) (H0 := no_hooks) env m).
  reflexivity.
Defined.

(* ===================================================================== *)
(** * Part III: further properties of the two files                      *)
(* ===================================================================== *)

(** ** Requests and responses on the wire *)

Section RequestCodec.
Context `{RawPacketsABI}.

Lemma store16_app pre b0 b1 post a v :
  a = length pre →
  store16 (pre ++ b0 :: b1 :: post) a v = Some (pre ++ enc16 v ++ post).
Proof.
  intros Ha. unfold store16.
  rewrite decide_True by (rewrite length_app; simpl; lia).
  f_equal. apply (write_bytes_app _ pre [b0; b1] post); [done |].
  by rewrite length_enc16.
Qed.

Lemma req_hton_explicit b0 b1 b2 b3 b4 b5 b6 b7 rest :
  raw_msg_req_hton ([b0; b1; b2; b3; b4; b5; b6; b7] ++ rest)
  = Some (enc16 (htons (dec16 b0 b1)) ++ [b2; b3]
          ++ enc32 (htonl (dec32 b4 b5 b6 b7)) ++ rest).
Proof. apply req_ntoh_explicit. Qed.

Lemma req_split (msg : list Z) :
  (sizeof_raw_msg_req ≤ length msg)%nat →
  ∃ b0 b1 b2 b3 b4 b5 b6 b7 rest,
    msg = [b0; b1; b2; b3; b4; b5; b6; b7] ++ rest.
Proof. apply bsamp_split. Qed.

Lemma req_ntoh_hton_explicit b0 b1 b2 b3 b4 b5 b6 b7 rest :
  byte_ok b0 → byte_ok b1 → byte_ok b4 → byte_ok b5 → byte_ok b6 → byte_ok b7 →
  raw_msg_req_hton ([b0; b1; b2; b3; b4; b5; b6; b7] ++ rest)
    ≫= raw_msg_req_ntoh
  = Some ([b0; b1; b2; b3; b4; b5; b6; b7] ++ rest).
Proof.
  intros H0 H1 H4 H5 H6 H7. rewrite req_hton_explicit. cbn [mbind option_bind].
  pose proof (dec16_range _ _ H0 H1) as Hid.
  pose proof (dec32_range _ _ _ _ H4 H5 H6 H7) as Hval.
  destruct (enc16_inv (htons (dec16 b0 b1))) as (c0 & c1 & -> & _ & _ & Hdc).
  destruct (enc32_inv (htonl (dec32 b4 b5 b6 b7)))
    as (a0 & a1 & a2 & a3 & -> & _ & _ & _ & _ & Hda).
  rewrite Z.mod_small in Hdc by (by apply htons_range).
  rewrite Z.mod_small in Hda by (by apply htonl_range).
  change ([c0; c1] ++ [b2; b3] ++ [a0; a1; a2; a3] ++ rest)
    with ([c0; c1; b2; b3; a0; a1; a2; a3] ++ rest).
  rewrite req_ntoh_explicit, Hdc, Hda, ntohs_htons, ntohl_htonl by done.
  by rewrite enc16_dec16, enc32_dec32.
Qed.

Lemma req_codec_facts (msg : list Z) (id val : Z) :
  Forall byte_ok msg →
  (sizeof_raw_msg_req ≤ length msg)%nat →
  load16 msg off_r_id = Some id →
  load32 msg off_r_val = Some val →
  ∃ wire,
    raw_msg_req_hton msg = Some wire
    ∧ raw_msg_res_hton msg = Some wire
    ∧ load16 wire off_r_id = Some (htons id)
    ∧ load32 wire off_r_val = Some (htonl val)
    ∧ length wire = length msg
    ∧ (∀ i, (i = 2 ∨ i = 3 ∨ sizeof_raw_msg_req ≤ i)%nat → wire !! i = msg !! i)
    ∧ raw_msg_req_ntoh wire = Some msg
    ∧ raw_msg_res_ntoh wire = Some msg.
Proof.
  intros Hok Hlen Hid Hval.
  destruct (req_split msg Hlen) as (b0 & b1 & b2 & b3 & b4 & b5 & b6 & b7 & rest & ->).
  injection Hid as <-. injection Hval as <-.
  assert (Hbytes : byte_ok b0 ∧ byte_ok b1 ∧ byte_ok b4 ∧ byte_ok b5
                   ∧ byte_ok b6 ∧ byte_ok b7).
  { repeat (apply Forall_cons in Hok as [? Hok]). by split_and!. }
  destruct Hbytes as (H0 & H1 & H4 & H5 & H6 & H7).
  pose proof (req_ntoh_hton_explicit b0 b1 b2 b3 b4 b5 b6 b7 rest H0 H1 H4 H5 H6 H7)
    as Hround.
  unfold raw_msg_res_hton, raw_msg_res_ntoh.
  rewrite req_hton_explicit in Hround |- *. cbn [mbind option_bind] in Hround.
  eexists. split; [reflexivity |]. split; [reflexivity |].
  pose proof (dec16_range _ _ H0 H1) as Hidr.
  pose proof (dec32_range _ _ _ _ H4 H5 H6 H7) as Hvalr.
  destruct (enc16_inv (htons (dec16 b0 b1))) as (c0 & c1 & Ec & _ & _ & Hdc).
  destruct (enc32_inv (htonl (dec32 b4 b5 b6 b7)))
    as (a0 & a1 & a2 & a3 & Ea & _ & _ & _ & _ & Hda).
  rewrite Ec, Ea in *.
  rewrite Z.mod_small in Hdc by (by apply htons_range).
  rewrite Z.mod_small in Hda by (by apply htonl_range).
  split_and!.
  - unfold load16. simpl. by rewrite Hdc.
  - unfold load32. simpl. by rewrite Hda.
  - done.
  - unfold sizeof_raw_msg_req. intros i Hi.
    do 8 (destruct i as [| i]; [done || lia |]). done.
  - done.
  - done.
Qed.

(** X1.  The request codec: [raw_msg_req_hton] puts [r_id] and [r_val]
    in network order and leaves [r_type], [r_addr] and every byte behind
    the message alone; [raw_msg_req_ntoh] (and [raw_msg_res_ntoh], which
    is the same conversion) restores the message bit for bit. *)
Theorem raw_msg_req_round_trip (msg : list Z) (id val : Z) :
  Forall byte_ok msg →
  (sizeof_raw_msg_req ≤ length msg)%nat →
  load16 msg off_r_id = Some id →
  load32 msg off_r_val = Some val →
  ∃ wire,
    raw_msg_req_hton msg = Some wire
    ∧ raw_msg_res_hton msg = Some wire
    ∧ load16 wire off_r_id = Some (htons id)
    ∧ load32 wire off_r_val = Some (htonl val)
    ∧ length wire = length msg
    ∧ (∀ i, (i = 2 ∨ i = 3 ∨ sizeof_raw_msg_req ≤ i)%nat → wire !! i = msg !! i)
    ∧ raw_msg_req_ntoh wire = Some msg
    ∧ raw_msg_res_ntoh wire = Some msg.
Proof. apply req_codec_facts. Qed.
End RequestCodec.

Lemma raw_msg_req_round_trip_witness :
  ∃ wire,
    raw_msg_req_hton (H := abi_le) req_payload = Some wire
    ∧ raw_msg_res_hton (H := abi_le) req_payload = Some wire
    ∧ load16 (H := abi_le) wire off_r_id = Some (htons (H := abi_le) 0x1234)
    ∧ load32 (H := abi_le) wire off_r_val = Some (htonl (H := abi_le) 0xDEADBEEF)
    ∧ length wire = length req_payload
    ∧ (∀ i, (i = 2 ∨ i = 3 ∨ sizeof_raw_msg_req ≤ i)%nat →
         wire !! i = req_payload !! i)
    ∧ raw_msg_req_ntoh (H := abi_le) wire = Some req_payload
    ∧ raw_msg_res_ntoh (H := abi_le) wire = Some req_payload.
Proof.
  apply (raw_msg_req_round_trip (H := abi_le) req_payload 0x1234 0xDEADBEEF).
  - unfold req_payload, byte_ok. repeat (apply Forall_cons; split; [lia |]).
    apply Forall_nil_2.
  - vm_compute. lia.
  - vm_compute. reflexivity.
  - vm_compute. reflexivity.
Defined.

(** ** Sending, and receiving what was sent *)

Section SendFacts.
Context `{RawPacketsABI} `{SocketLayer}.

Lemma set_p_set_p pkt payload payload' :
  set_p (set_p pkt payload) payload' = set_p pkt payload'.
Proof. done. Qed.

(** A packet of a known type whose buffer holds its payload can be
    converted for the wire, and what is converted converts back. *)
Lemma sent_as_exists pkt n :
  Forall byte_ok (p pkt) →
  payload_extent pkt n →
  (n ≤ length (p pkt))%nat →
  ∃ wire, sent_as (p_type pkt) (p pkt) wire
          ∧ converted (p_type pkt) wire (p pkt).
Proof.
  intros Hok Hextent Hlen.
  destruct Hextent as [Ht | Ht | Ht | nchips nlines Ht Hnc Hnl].
  - exists (p pkt). split; by constructor.
  - destruct (req_split (p pkt) Hlen)
      as (b0 & b1 & b2 & b3 & b4 & b5 & b6 & b7 & rest & Hp).
    rewrite Hp in Hok. repeat (apply Forall_cons in Hok as [? Hok]).
    pose proof (req_ntoh_hton_explicit b0 b1 b2 b3 b4 b5 b6 b7 rest) as Hround.
    rewrite <- Hp in Hround.
    destruct (raw_msg_req_hton (p pkt)) as [wire |] eqn:Hwire;
      [| by discriminate Hround].
    exists wire. split; [by apply sent_req | apply converted_req; auto].
  - destruct (req_split (p pkt) Hlen)
      as (b0 & b1 & b2 & b3 & b4 & b5 & b6 & b7 & rest & Hp).
    rewrite Hp in Hok. repeat (apply Forall_cons in Hok as [? Hok]).
    pose proof (req_ntoh_hton_explicit b0 b1 b2 b3 b4 b5 b6 b7 rest) as Hround.
    rewrite <- Hp in Hround.
    destruct (raw_msg_req_hton (p pkt)) as [wire |] eqn:Hwire;
      [| by discriminate Hround].
    exists wire. split; [by apply sent_res | apply converted_res; auto].
  - destruct (bsamp_split (p pkt))
      as (h0 & h1 & h2 & h3 & h4 & h5 & h6 & h7 & rest & Hp); [lia |].
    rewrite Hp in Hok, Hnc, Hnl, Hlen.
    injection Hnc as <-. injection Hnl as <-.
    pose proof (bsamp_ntoh_hton h0 h1 h2 h3 h4 h5 h6 h7 rest Hok) as Hround.
    rewrite <- Hp in Hround.
    destruct (raw_msg_bsamp_hton (p pkt)) as [wire |] eqn:Hwire.
    + exists wire. split; [by apply sent_bsamp |]. apply converted_bsamp; [done |].
      apply Hround. rewrite length_app in Hlen.
      unfold sizeof_raw_msg_bsamp, sizeof_raw_samp_t in Hlen. simpl in Hlen. lia.
    + exfalso. assert (Hnone : None = Some (p pkt)); [| discriminate Hnone].
      rewrite <- Hround; [done |]. rewrite length_app in Hlen.
      unfold sizeof_raw_msg_bsamp, sizeof_raw_samp_t in Hlen. simpl in Hlen. lia.
Qed.

Lemma raw_packet_send_sent sockfd pkt flags errno wire len :
  pkt_types_distinct →
  sent_as (p_type pkt) (p pkt) wire →
  recv_packsize pkt (p_type pkt) = Some len →
  raw_packet_send sockfd pkt flags errno
  = Ok {| snd_ret := (sys_send sockfd (set_p pkt wire) len flags errno).1;
          snd_errno := (sys_send sockfd (set_p pkt wire) len flags errno).2;
          snd_packet := set_p pkt wire |}.
Proof.
  intros Hd Hsent Hlen. unfold raw_packet_send, recv_packsize in *.
  destruct (pkt_types_distinct_inv Hd) as (? & ? & ? & ? & ? & ?).
  destruct Hsent as [wire Ht Hw | wire Ht Hw | wire Ht Hw | Ht]; rewrite Ht in *.
  - rewrite Z.eqb_refl in *.
    destruct (raw_packet_sampsize pkt) as [sampsize |]; [| done].
    injection Hlen as <-. rewrite Hw. cbn [access mbind result_bind].
    by destruct (sys_send _ _ _ _ _).
  - rewrite (proj2 (Z.eqb_neq _ _)) in * by congruence.
    rewrite Z.eqb_refl. injection Hlen as <-. rewrite Hw.
    cbn [access mbind result_bind]. by destruct (sys_send _ _ _ _ _).
  - rewrite (proj2 (Z.eqb_neq _ _)) in * by congruence.
    rewrite (proj2 (Z.eqb_neq RAW_PKT_TYPE_RES RAW_PKT_TYPE_REQ)) by congruence.
    rewrite Z.eqb_refl. injection Hlen as <-. rewrite Hw.
    cbn [access mbind result_bind]. by destruct (sys_send _ _ _ _ _).
  - rewrite (proj2 (Z.eqb_neq _ _)) in * by congruence.
    rewrite (proj2 (Z.eqb_neq RAW_PKT_TYPE_ERR RAW_PKT_TYPE_REQ)) by congruence.
    rewrite (proj2 (Z.eqb_neq RAW_PKT_TYPE_ERR RAW_PKT_TYPE_RES)) by congruence.
    rewrite Z.eqb_refl. injection Hlen as <-. rewrite set_p_same.
    by destruct (sys_send _ _ _ _ _).
Qed.


Lemma recv_packsize_total pkt n :
  pkt_types_distinct →
  payload_extent pkt n →
  ∃ len, recv_packsize pkt (p_type pkt) = Some len.
Proof.
  intros Hd Hextent. unfold recv_packsize.
  destruct (pkt_types_distinct_inv Hd) as (? & ? & ? & ? & ? & ?).
  destruct Hextent as [Ht | Ht | Ht | nchips nlines Ht Hnc Hnl]; rewrite Ht.
  - rewrite (proj2 (Z.eqb_neq _ _)) by congruence. eauto.
  - rewrite (proj2 (Z.eqb_neq _ _)) by congruence. eauto.
  - rewrite (proj2 (Z.eqb_neq _ _)) by congruence. eauto.
  - rewrite Z.eqb_refl. unfold raw_packet_sampsize, raw_bsamp_nsamps.
    rewrite Hnc, Hnl. cbn [mbind option_bind]. eauto.
Qed.

(** X3.  What [raw_packet_send] puts on the wire, [raw_packet_recv]
    turns back into the packet that was sent: for a packet with the
    magic byte of [raw_packet_init], a known type and a buffer that
    holds its payload, the send reaches the socket, and a receive to
    which a socket delivers the sent buffer, expecting any type or the
    type sent, returns the socket's byte count and leaves the original
    packet, header and payload, and its type in the expected-type
    cell. *)
Theorem raw_packet_send_recv_round_trip
    (sockfd : Z) (pkt : raw_packet) (flags errno : Z) (n : nat) :
  pkt_types_distinct →
  _p_magic pkt = 0x5A →
  Forall byte_ok (p pkt) →
  payload_extent pkt n →
  (n ≤ length (p pkt))%nat →
  ∃ st,
    raw_packet_send sockfd pkt flags errno = Ok st
    ∧ ∀ (R : SocketLayer) (rfd : Z) (buf : raw_packet) (packtype : option Z)
        (rflags rerrno packsize ret errno' : Z),
        recv_packsize buf (default 0 packtype) = Some packsize →
        sys_recv (SocketLayer := R) rfd buf packsize rflags rerrno
        = (ret, errno', snd_packet st) →
        ret ≠ -1 →
        default 0 packtype = 0 ∨ default 0 packtype = p_type pkt →
        raw_packet_recv (H0 := R) rfd buf packtype rflags rerrno
        = Ok {| rcv_ret := ret; rcv_errno := errno';
                rcv_packtype := (λ _, p_type pkt) <$> packtype;
                rcv_packet := pkt |}.
Proof.
  intros Hd Hmagic Hok Hextent Hlen.
  destruct (sent_as_exists pkt n Hok Hextent Hlen) as (wire & Hsent & Hback).
  destruct (recv_packsize_total pkt n Hd Hextent) as [len Hsize].
  rewrite (raw_packet_send_sent sockfd pkt flags errno wire len Hd Hsent Hsize).
  eexists. split; [reflexivity |]. cbn [snd_packet].
  intros R rfd buf packtype rflags rerrno packsize ret errno' Hpacksize Hrecv Hret Hexp.
  pose proof (recv_type_accepted (H0 := R) rfd buf packtype rflags rerrno
                packsize ret errno' (set_p pkt wire) Hpacksize Hrecv
                ret errno' pkt) as Haccepted.
  unfold recv_leaves in Haccepted. cbn [set_p _p_magic p_type] in Haccepted.
  apply Haccepted; try done.
  intros out.
  rewrite (recv_switch_converted (p_type pkt) ret errno' (set_p pkt wire)
             out (p pkt) Hd Hback).
  by rewrite set_p_set_p, set_p_same.
Qed.
End SendFacts.


Lemma host_req_bytes_ok : Forall byte_ok (p host_req).
Proof.
  cbn. unfold byte_ok. repeat (apply Forall_cons; split; [lia |]).
  apply Forall_nil_2.
Qed.

Lemma host_req_extent : payload_extent (H := abi_le) host_req sizeof_raw_msg_req.
Proof. by apply extent_req. Qed.

Lemma raw_packet_send_recv_round_trip_witness :
  ∃ st,
    raw_packet_send (H := abi_le) (H0 := sock_delivers 0 0 wire_req) 3 host_req 0 0
    = Ok st
    ∧ ∀ (R : SocketLayer) (rfd : Z) (buf : raw_packet) (packtype : option Z)
        (rflags rerrno packsize ret errno' : Z),
        recv_packsize (H := abi_le) buf (default 0 packtype) = Some packsize →
        sys_recv (SocketLayer := R) rfd buf packsize rflags rerrno
        = (ret, errno', snd_packet st) →
        ret ≠ -1 →
        default 0 packtype = 0 ∨ default 0 packtype = p_type host_req →
        raw_packet_recv (H := abi_le) (H0 := R) rfd buf packtype rflags rerrno
        = Ok {| rcv_ret := ret; rcv_errno := errno';
                rcv_packtype := (λ _, p_type host_req) <$> packtype;
                rcv_packet := host_req |}.
Proof.
  apply (raw_packet_send_recv_round_trip (H := abi_le)
           (H0 := sock_delivers 0 0 wire_req) 3 host_req 0 0 sizeof_raw_msg_req
           abi_le_distinct eq_refl host_req_bytes_ok host_req_extent).
  vm_compute. lia.
Defined.

Section SendTwice.
Context `{RawPacketsABI} `{SocketLayer}.

(** X4.  The conversion is done in the caller's buffer: after a request
    or response has been sent, its buffer holds [r_id] and [r_val] in
    network order, and sending the same buffer again converts it once
    more, which puts the original host-order bytes on the wire and
    back in the buffer. *)
Theorem raw_packet_send_twice
    (sockfd : Z) (pkt : raw_packet) (flags errno errno2 : Z) (id val : Z) :
  pkt_types_distinct →
  p_type pkt = RAW_PKT_TYPE_REQ ∨ p_type pkt = RAW_PKT_TYPE_RES →
  Forall byte_ok (p pkt) →
  (sizeof_raw_msg_req ≤ length (p pkt))%nat →
  load16 (p pkt) off_r_id = Some id →
  load32 (p pkt) off_r_val = Some val →
  ∃ st1 st2,
    raw_packet_send sockfd pkt flags errno = Ok st1
    ∧ load16 (p (snd_packet st1)) off_r_id = Some (htons id)
    ∧ load32 (p (snd_packet st1)) off_r_val = Some (htonl val)
    ∧ raw_packet_send sockfd (snd_packet st1) flags errno2 = Ok st2
    ∧ snd_packet st2 = pkt.
Proof.
  intros Hd Htype Hok Hlen Hid Hval.
  destruct (req_codec_facts (p pkt) id val Hok Hlen Hid Hval)
    as (wire & Hwire & _ & Hwid & Hwval & _ & _ & Hback & _).
  assert (Hsent : sent_as (p_type pkt) (p pkt) wire).
  { destruct Htype; [by apply sent_req | by apply sent_res]. }
  assert (Hsent' : sent_as (p_type pkt) wire (p pkt)).
  { destruct Htype; [by apply sent_req | by apply sent_res]. }
  assert (Hsize : ∀ payload, recv_packsize (set_p pkt payload) (p_type pkt)
                             = Some sizeof_raw_packet).
  { intros payload. unfold recv_packsize.
    destruct (pkt_types_distinct_inv Hd) as (? & ? & ? & ? & ? & ?).
    by destruct Htype as [-> | ->];
      rewrite (proj2 (Z.eqb_neq _ _)) by congruence. }
  pose proof (Hsize (p pkt)) as Hsize0. rewrite set_p_same in Hsize0.
  rewrite (raw_packet_send_sent sockfd pkt flags errno wire _ Hd Hsent Hsize0).
  eexists _, _. split; [reflexivity |]. cbn [snd_packet].
  rewrite (raw_packet_send_sent sockfd (set_p pkt wire) flags errno2 (p pkt)
             sizeof_raw_packet Hd Hsent' (Hsize wire)).
  cbn [set_p p]. split_and!; try done. cbn [snd_packet]. by destruct pkt.
Qed.
End SendTwice.

Lemma raw_packet_send_twice_witness :
  ∃ st1 st2,
    raw_packet_send (H := abi_le) (H0 := sock_delivers 0 0 wire_req) 3 host_req 0 0
    = Ok st1
    ∧ load16 (H := abi_le) (p (snd_packet st1)) off_r_id
      = Some (htons (H := abi_le) 0x1234)
    ∧ load32 (H := abi_le) (p (snd_packet st1)) off_r_val
      = Some (htonl (H := abi_le) 0xDEADBEEF)
    ∧ raw_packet_send (H := abi_le) (H0 := sock_delivers 0 0 wire_req)
        3 (snd_packet st1) 0 0 = Ok st2
    ∧ snd_packet st2 = host_req.
Proof.
  apply (raw_packet_send_twice (H := abi_le) (H0 := sock_delivers 0 0 wire_req)
           3 host_req 0 0 0 0x1234 0xDEADBEEF abi_le_distinct).
  - left. reflexivity.
  - exact host_req_bytes_ok.
  - vm_compute. lia.
  - vm_compute. reflexivity.
  - vm_compute. reflexivity.
Defined.

(** ** What a receive tells its caller *)

Section RecvPostconditions.
Context `{RawPacketsABI} `{SocketLayer}.

Lemma recv_switch_inv t ret errno packet out st :
  recv_switch t ret errno packet out = Ok st →
  (∃ payload, converted t (p packet) payload
              ∧ st = out ret errno (set_p packet payload))
  ∨ (¬ known_type t ∧ st = out (-1) EPROTO packet).
Proof.
  unfold recv_switch, known_type.
  destruct (Z.eqb_spec t RAW_PKT_TYPE_BSAMP) as [Hb | Hb].
  { destruct (raw_msg_bsamp_ntoh (p packet)) as [payload |] eqn:Hp; [| done].
    intros [= <-]. left. exists payload. split; [by apply converted_bsamp | done]. }
  destruct (Z.eqb_spec t RAW_PKT_TYPE_REQ) as [Hq | Hq].
  { destruct (raw_msg_req_ntoh (p packet)) as [payload |] eqn:Hp; [| done].
    intros [= <-]. left. exists payload. split; [by apply converted_req | done]. }
  destruct (Z.eqb_spec t RAW_PKT_TYPE_RES) as [Hs | Hs].
  { destruct (raw_msg_res_ntoh (p packet)) as [payload |] eqn:Hp; [| done].
    intros [= <-]. left. exists payload. split; [by apply converted_res | done]. }
  destruct (Z.eqb_spec t RAW_PKT_TYPE_ERR) as [He | He].
  { intros [= <-]. left. exists (p packet).
    split; [by apply converted_err | by rewrite set_p_same]. }
  intros [= <-]. right. split; [tauto | done].
Qed.

(** X5.  Reading the result of [raw_packet_recv]: a call that returns
    [-1] has left the buffer exactly as the socket left it (nothing is
    ever converted and then rejected); a call that returns anything else
    returns the count and leaves the [errno] of the socket's [recv], and
    then the magic byte is [0x5A], the type is one of the four, it is
    the expected type if one was given and it stands in the
    expected-type cell, the header is as it arrived and the payload is
    the converted one. *)
Theorem raw_packet_recv_result
    (sockfd : Z) (packet : raw_packet) (packtype : option Z) (flags errno : Z)
    (packsize ret errno' : Z) (packet' : raw_packet) (st : recv_state) :
  recv_packsize packet (default 0 packtype) = Some packsize →
  sys_recv sockfd packet packsize flags errno = (ret, errno', packet') →
  raw_packet_recv sockfd packet packtype flags errno = Ok st →
  (rcv_ret st = -1 → rcv_packet st = packet')
  ∧ (rcv_ret st ≠ -1 →
     rcv_ret st = ret
     ∧ rcv_errno st = errno'
     ∧ _p_magic packet' = 0x5A
     ∧ known_type (p_type packet')
     ∧ (default 0 packtype = 0 ∨ default 0 packtype = p_type packet')
     ∧ rcv_packtype st = (λ _, p_type packet') <$> packtype
     ∧ rcv_packet st = set_p packet' (p (rcv_packet st))
     ∧ converted (p_type packet') (p packet') (p (rcv_packet st))).
Proof.
  intros Hpacksize Hrecv. unfold raw_packet_recv.
  rewrite Hpacksize. cbn [access mbind result_bind]. rewrite Hrecv.
  destruct (Z.eqb_spec (_p_magic packet') PACKET_HEADER_MAGIC) as [Hmagic | Hmagic];
    cbn [negb]; [| by intros [= <-]].
  destruct (Z.eqb_spec ret (-1)) as [Hret | Hret]; [by intros [= <-] |].
  assert (Hswitch : ∀ t,
            default 0 packtype = 0 ∨ default 0 packtype = t →
            t = p_type packet' →
            recv_switch t ret errno' packet'
              (λ ret errno packet,
                 {| rcv_ret := ret; rcv_errno := errno;
                    rcv_packtype := (λ _, t) <$> packtype;
                    rcv_packet := packet |}) = Ok st →
            (rcv_ret st = -1 → rcv_packet st = packet')
            ∧ (rcv_ret st ≠ -1 →
               rcv_ret st = ret ∧ rcv_errno st = errno'
               ∧ _p_magic packet' = 0x5A ∧ known_type (p_type packet')
               ∧ (default 0 packtype = 0 ∨ default 0 packtype = p_type packet')
               ∧ rcv_packtype st = (λ _, p_type packet') <$> packtype
               ∧ rcv_packet st = set_p packet' (p (rcv_packet st))
               ∧ converted (p_type packet') (p packet') (p (rcv_packet st)))).
  { intros t Hexp -> Hrun.
    apply recv_switch_inv in Hrun as [(payload & Hconv & ->) | (Hunknown & ->)];
      cbn [rcv_ret rcv_errno rcv_packtype rcv_packet set_p p].
    - split; [done |]. intros _. split_and!; try done.
      destruct Hconv; unfold known_type; tauto.
    - split; [done |]. intros Hne. by destruct Hne. }
  destruct (Z.eqb_spec (default 0 packtype) 0) as [Hzero | Hnonzero].
  { apply Hswitch; [by left | done]. }
  destruct (Z.eqb_spec (default 0 packtype) (p_type packet')) as [Hsame | Hdiff];
    cbn [negb]; [| by intros [= <-]].
  intros Hrun. rewrite Hsame in Hrun.
  by apply (Hswitch (p_type packet')); [right | |].
Qed.
End RecvPostconditions.

Lemma raw_packet_recv_result_witness :
  _p_magic wire_req = 0x5A
  ∧ known_type (H := abi_le) (p_type wire_req)
  ∧ converted (H := abi_le) (p_type wire_req) (p wire_req) (p host_req).
Proof.
  assert (Hret : rcv_ret {| rcv_ret := 12; rcv_errno := 0; rcv_packtype := Some 2;
                            rcv_packet := host_req |} ≠ -1) by (cbn; lia).
  destruct (raw_packet_recv_result (H := abi_le) (H0 := sock_delivers 12 0 wire_req)
              3 stale_packet (Some 0) 0 0 12 12 0 wire_req
              {| rcv_ret := 12; rcv_errno := 0; rcv_packtype := Some 2;
                 rcv_packet := host_req |}
              eq_refl eq_refl ltac:(vm_compute; reflexivity))
    as [_ Hgood].
  destruct (Hgood Hret) as (_ & _ & Hmagic & Hknown & _ & _ & _ & Hconv).
  by split_and!.
Defined.

(** ** Copying: when it fails, and copying again *)

Section CopyFacts.
Context `{RawPacketsABI}.

Lemma memcpy_ok dst src n :
  (n ≤ length src)%nat → (n ≤ length dst)%nat →
  memcpy dst src n = Some (take n src ++ drop n dst).
Proof. intros. unfold memcpy. by rewrite decide_True. Qed.

Lemma memcpy_fails dst src n :
  memcpy dst src n = None ↔ (length src < n ∨ length dst < n)%nat.
Proof. unfold memcpy. case_decide; split; (done || lia). Qed.

Lemma memcpy_inv dst src n payload :
  memcpy dst src n = Some payload →
  (n ≤ length src)%nat ∧ (n ≤ length dst)%nat
  ∧ payload = take n src ++ drop n dst.
Proof. unfold memcpy. case_decide as Hn; [| done]. intros [= <-]. tauto. Qed.

Lemma load16_take m n a :
  (a + 2 ≤ n)%nat → load16 (take n m) a = load16 m a.
Proof.
  intros Ha. unfold load16.
  by rewrite !lookup_take_lt by lia.
Qed.

Lemma raw_packet_sampsize_take (s src : raw_packet) n :
  (sizeof_raw_msg_bsamp ≤ n)%nat →
  take n (p s) = take n (p src) →
  raw_packet_sampsize s = raw_packet_sampsize src.
Proof.
  intros Hn Htake. unfold raw_packet_sampsize, raw_bsamp_nsamps.
  unfold sizeof_raw_msg_bsamp in Hn.
  rewrite <- (load16_take (p s) n off_bs_nchips) by (unfold off_bs_nchips; lia).
  rewrite <- (load16_take (p s) n off_bs_nlines) by (unfold off_bs_nlines; lia).
  rewrite Htake.
  rewrite (load16_take (p src) n off_bs_nchips) by (unfold off_bs_nchips; lia).
  by rewrite (load16_take (p src) n off_bs_nlines) by (unfold off_bs_nlines; lia).
Qed.

(** A copy that succeeds is one [memcpy] of some length [n] after the
    header, and any packet of the same type with the same first [n]
    payload bytes is copied over the same length. *)
Lemma raw_packet_copy_inv dst src dst' :
  raw_packet_copy dst src = Ok dst' →
  ∃ n, (n ≤ length (p src))%nat ∧ (n ≤ length (p dst))%nat
       ∧ dst' = set_p (copy_header dst src) (take n (p src) ++ drop n (p dst))
       ∧ ∀ d s, p_type s = p_type src →
                take n (p s) = take n (p src) →
                (n ≤ length (p d))%nat →
                raw_packet_copy d s
                = Ok (set_p (copy_header d s) (take n (p s) ++ drop n (p d))).
Proof.
  assert (Hlen : ∀ (s : raw_packet) n, (n ≤ length (p src))%nat →
            take n (p s) = take n (p src) → (n ≤ length (p s))%nat).
  { intros s n Hn Htake. apply (f_equal length) in Htake.
    rewrite !length_take in Htake. lia. }
  unfold raw_packet_copy at 1. cbn [copy_header p].
  destruct (p_type src =? RAW_PKT_TYPE_BSAMP) eqn:Hb.
  { destruct (raw_packet_sampsize src) as [sampsize |] eqn:Hsamp; [| done].
    cbn [access mbind result_bind].
    destruct (memcpy _ _ _) as [payload |] eqn:Hcopy; [| done].
    cbn [access mbind result_bind]. intros [= <-].
    apply memcpy_inv in Hcopy as (Hs & Hd & ->).
    eexists. split_and!; [exact Hs | exact Hd | done |].
    intros d s Ht Htake Hdl. unfold raw_packet_copy. rewrite Ht, Hb.
    rewrite (raw_packet_sampsize_take s src
               (sizeof_raw_msg_bsamp + Z.to_nat sampsize) ltac:(lia) Htake), Hsamp.
    cbn [access mbind result_bind copy_header p].
    by rewrite memcpy_ok by eauto. }
  destruct ((p_type src =? RAW_PKT_TYPE_REQ) || (p_type src =? RAW_PKT_TYPE_RES))
    eqn:Hq.
  { destruct (memcpy _ _ _) as [payload |] eqn:Hcopy; [| done].
    cbn [access mbind result_bind]. intros [= <-].
    apply memcpy_inv in Hcopy as (Hs & Hd & ->).
    eexists. split_and!; [exact Hs | exact Hd | done |].
    intros d s Ht Htake Hdl. unfold raw_packet_copy. rewrite Ht, Hb, Hq.
    cbn [access mbind result_bind copy_header p].
    by rewrite memcpy_ok by eauto. }
  destruct (p_type src =? RAW_PKT_TYPE_ERR) eqn:He; [| done].
  intros [= <-]. exists 0%nat. split_and!; [lia | lia | |].
  { rewrite take_0, drop_0. by rewrite set_p_same. }
  intros d s Ht _ _. unfold raw_packet_copy. rewrite Ht, Hb, Hq, He.
  rewrite take_0, drop_0. by rewrite set_p_same.
Qed.

(** The two models of [raw_packet_copy] agree. *)
Lemma raw_packet_copy_outcome_result (dst src : raw_packet) :
  raw_packet_copy dst src = result_of_copy (raw_packet_copy_outcome dst src).
Proof.
  unfold raw_packet_copy, raw_packet_copy_outcome.
  destruct (p_type src =? RAW_PKT_TYPE_BSAMP).
  { destruct (raw_packet_sampsize src); cbn [access mbind result_bind]; [| done].
    by destruct (memcpy _ _ _). }
  destruct ((p_type src =? RAW_PKT_TYPE_REQ) || (p_type src =? RAW_PKT_TYPE_RES)).
  { by destruct (memcpy _ _ _). }
  by destruct (p_type src =? RAW_PKT_TYPE_ERR).
Qed.

(** X6.  The assertion of [raw_packet_copy] fails exactly when the type
    of [src] is none of the four packet types.  The header of [dst]
    has been overwritten with that of [src] by then, and the payload of
    [dst] is as it was.  Nothing else stops a copy except a buffer that
    is too short, and that only for one of the four types. *)
Theorem raw_packet_copy_asserts_known_type (dst src : raw_packet) :
  raw_packet_copy dst src = result_of_copy (raw_packet_copy_outcome dst src)
  ∧ (raw_packet_copy dst src = Abort AssertionFailed
     ↔ ¬ known_type (p_type src))
  ∧ (∀ dst', raw_packet_copy_outcome dst src = Asserted dst'
             ↔ ¬ known_type (p_type src)
               ∧ dst' = {| _p_magic := _p_magic src;
                           _p_proto_vers := _p_proto_vers src;
                           p_type := p_type src; p_flags := p_flags src;
                           p := p dst |})
  ∧ (∀ f, raw_packet_copy dst src = Abort f →
          if decide (known_type (p_type src)) then f = MemoryFault
          else f = AssertionFailed).
Proof.
  split; [apply raw_packet_copy_outcome_result |].
  rewrite raw_packet_copy_outcome_result.
  unfold raw_packet_copy_outcome, copy_header. cbn [p].
  destruct (decide (known_type (p_type src))) as [Hk | Hk];
    unfold known_type in *;
    destruct (Z.eqb_spec (p_type src) RAW_PKT_TYPE_BSAMP) as [Hb | Hb];
    destruct (Z.eqb_spec (p_type src) RAW_PKT_TYPE_REQ) as [Hq | Hq];
    destruct (Z.eqb_spec (p_type src) RAW_PKT_TYPE_RES) as [Hs | Hs];
    destruct (Z.eqb_spec (p_type src) RAW_PKT_TYPE_ERR) as [He | He];
    cbn [orb];
    try (exfalso; tauto);
    repeat match goal with
           | |- context [match ?x with Some _ => _ | None => _ end] => destruct x
           end;
    cbn [result_of_copy];
    (split_and!;
     [ split; first [done | tauto]
     | intros dst'; split;
       [ first [done | intros [= <-]; split; [tauto | done]]
       | intros [Hn Hdst]; first [tauto | by rewrite Hdst] ]
     | intros f Hf; first [done | by injection Hf as <-] ]).
Qed.

(** X7.  For a packet of one of the four types, whose payload extent is
    [n] bytes, [raw_packet_copy] runs off a buffer exactly when the
    payload of [src] or that of [dst] is shorter than [n]. *)
Theorem raw_packet_copy_faults (dst src : raw_packet) (n : nat) :
  pkt_types_distinct →
  payload_extent src n →
  raw_packet_copy dst src = Abort MemoryFault
  ↔ (length (p src) < n ∨ length (p dst) < n)%nat.
Proof.
  intros Hdistinct Hextent.
  destruct (pkt_types_distinct_inv Hdistinct) as (? & ? & ? & ? & ? & ?).
  assert (Hcopy : ∀ k dst0,
            (payload ← access (memcpy (p dst) (p src) k);
             Ok (set_p dst0 payload)) = Abort MemoryFault
            ↔ (length (p src) < k ∨ length (p dst) < k)%nat).
  { intros k dst0. rewrite <- memcpy_fails.
    destruct (memcpy (p dst) (p src) k); cbn [access mbind result_bind];
      split; done. }
  unfold raw_packet_copy. cbn [copy_header p].
  destruct Hextent as [Ht | Ht | Ht | nchips nlines Ht Hnc Hnl]; rewrite Ht.
  - rewrite (proj2 (Z.eqb_neq _ _)) by congruence.
    rewrite (proj2 (Z.eqb_neq _ _)) by congruence.
    rewrite (proj2 (Z.eqb_neq _ _)) by congruence.
    rewrite Z.eqb_refl. cbn [orb]. split; [done | lia].
  - rewrite (proj2 (Z.eqb_neq _ _)) by congruence.
    rewrite Z.eqb_refl. cbn [orb]. apply Hcopy.
  - rewrite (proj2 (Z.eqb_neq _ _)) by congruence.
    rewrite (proj2 (Z.eqb_neq RAW_PKT_TYPE_RES RAW_PKT_TYPE_REQ)) by congruence.
    rewrite Z.eqb_refl. cbn [orb]. apply Hcopy.
  - rewrite Z.eqb_refl. unfold raw_packet_sampsize, raw_bsamp_nsamps.
    rewrite Hnc, Hnl. cbn [mbind option_bind result_bind access].
    replace (Z.to_nat (nchips * nlines * Z.of_nat sizeof_raw_samp_t))
      with (sizeof_raw_samp_t * Z.to_nat (nchips * nlines))%nat
      by (unfold sizeof_raw_samp_t; lia).
    apply Hcopy.
Qed.

(** X8.  A copy that succeeded can be repeated and undone by copying:
    copying [src] into the result again changes nothing, and copying
    the result back into [src] leaves [src] as it is. *)
Theorem raw_packet_copy_again (dst src dst' : raw_packet) :
  raw_packet_copy dst src = Ok dst' →
  raw_packet_copy dst' src = Ok dst'
  ∧ raw_packet_copy src dst' = Ok src.
Proof.
  intros Hcopy.
  apply raw_packet_copy_inv in Hcopy as (n & Hs & Hd & -> & Hsame).
  assert (Htake : take n (take n (p src) ++ drop n (p dst)) = take n (p src)).
  { rewrite take_app_le by (rewrite length_take; lia).
    rewrite take_take. f_equal. lia. }
  assert (Hdrop : drop n (take n (p src) ++ drop n (p dst)) = drop n (p dst)).
  { rewrite drop_app_ge by (rewrite length_take; lia).
    rewrite length_take. replace (n - n `min` length (p src))%nat with 0%nat by lia.
    apply drop_0. }
  split.
  - rewrite (Hsame _ src eq_refl eq_refl); cbn [set_p p copy_header].
    + by rewrite Hdrop.
    + rewrite length_app, length_take, length_drop. lia.
  - rewrite (Hsame src (set_p (copy_header dst src)
                          (take n (p src) ++ drop n (p dst))));
      cbn [set_p p copy_header p_type]; [| done | done | done].
    rewrite Htake, take_drop. by destruct src.
Qed.
End CopyFacts.

Lemma raw_packet_copy_faults_witness :
  raw_packet_copy (H := abi_le) (set_p stale_packet (replicate 10 0x77))
    {| _p_magic := 0x5A; _p_proto_vers := 0; p_type := 1; p_flags := 0;
       p := bsamp_2x1 |} = Abort MemoryFault
  ↔ (length bsamp_2x1 < 12)%nat ∨ (length (replicate 10 0x77) < 12)%nat.
Proof.
  apply (raw_packet_copy_faults (H := abi_le)
           (set_p stale_packet (replicate 10 0x77))
           {| _p_magic := 0x5A; _p_proto_vers := 0; p_type := 1; p_flags := 0;
              p := bsamp_2x1 |} 12 abi_le_distinct).
  apply (extent_bsamp (H := abi_le) _ 2 1); reflexivity.
Defined.

Lemma raw_packet_copy_again_witness :
  let src := {| _p_magic := 0x5A; _p_proto_vers := 0; p_type := 1; p_flags := 0;
                p := bsamp_2x1 |} in
  let dst' := set_p src (take 12 bsamp_2x1 ++ [0x77; 0x77]) in
  raw_packet_copy (H := abi_le) dst' src = Ok dst'
  ∧ raw_packet_copy (H := abi_le) src dst' = Ok src.
Proof.
  apply (raw_packet_copy_again (H := abi_le)
           (set_p stale_packet (replicate 14 0x77))).
  vm_compute; reflexivity.
Defined.

(** ** Allocating a board sample *)

Section CreateFacts.
Context `{RawPacketsABI} `{Allocator}.

(** The two stores of [raw_packet_create_bsamp] on a payload of at least
    eight bytes. *)
Lemma store_dimensions h0 h1 h2 h3 h4 h5 h6 h7 rest nchips nlines :
  (payload ← store16 ([h0; h1; h2; h3; h4; h5; h6; h7] ++ rest)
               off_bs_nchips nchips;
   store16 payload off_bs_nlines nlines)
  = Some ([h0; h1; h2; h3] ++ enc16 nchips ++ enc16 nlines ++ rest).
Proof.
  rewrite (store16_app [h0; h1; h2; h3] h4 h5 (h6 :: h7 :: rest)) by done.
  cbn [mbind option_bind].
  destruct (enc16_inv nchips) as (c0 & c1 & -> & _).
  by rewrite (store16_app [h0; h1; h2; h3; c0; c1] h6 h7 rest).
Qed.

(** What [raw_packet_create_bsamp] does with the block it is given. *)
Lemma raw_packet_create_bsamp_run nchips nlines block :
  malloc ((Z.of_nat offsetof_raw_packet_p + Z.of_nat sizeof_raw_msg_bsamp
           + nchips * nlines * Z.of_nat sizeof_raw_samp_t) mod (SIZE_MAX + 1))
  = Some block →
  (sizeof_raw_packet_header ≤ offsetof_raw_packet_p)%nat →
  if decide (offsetof_raw_packet_p + sizeof_raw_msg_bsamp ≤ length block)%nat
  then ∃ h0 h1 h2 h3 h4 h5 h6 h7 rest,
         drop offsetof_raw_packet_p block
         = [h0; h1; h2; h3; h4; h5; h6; h7] ++ rest
         ∧ raw_packet_create_bsamp nchips nlines
           = Ok (Some {| _p_magic := PACKET_HEADER_MAGIC;
                         _p_proto_vers := PACKET_HEADER_PROTO_VERS;
                         p_type := RAW_PKT_TYPE_BSAMP;
                         p_flags := 0;
                         p := [h0; h1; h2; h3] ++ enc16 nchips
                              ++ enc16 nlines ++ rest |})
  else raw_packet_create_bsamp nchips nlines = Abort MemoryFault.
Proof.
  intros Hmalloc Hoff. unfold raw_packet_create_bsamp. rewrite Hmalloc.
  unfold sizeof_raw_packet_header, sizeof_raw_msg_bsamp in *.
  case_decide as Hlen.
  - rewrite decide_True by lia.
    destruct (bsamp_split (drop offsetof_raw_packet_p block))
      as (h0 & h1 & h2 & h3 & h4 & h5 & h6 & h7 & rest & Hblock).
    { rewrite length_drop. unfold sizeof_raw_msg_bsamp. lia. }
    exists h0, h1, h2, h3, h4, h5, h6, h7, rest. split; [done |].
    cbn [raw_packet_init packet_at p set_p]. rewrite Hblock.
    pose proof (store_dimensions h0 h1 h2 h3 h4 h5 h6 h7 rest nchips nlines)
      as Hstores.
    destruct (store16 _ off_bs_nchips nchips) as [payload |];
      cbn [mbind option_bind] in Hstores; [| done].
    cbn [access mbind result_bind]. by rewrite Hstores.
  - case_decide; [| done]. cbn [raw_packet_init packet_at p set_p].
    destruct (store16 (drop offsetof_raw_packet_p block) off_bs_nchips nchips)
      as [payload |] eqn:Hfirst; cbn [access mbind result_bind]; [| done].
    apply store16_length in Hfirst. rewrite length_drop in Hfirst.
    rewrite store16_short; [done |]. unfold off_bs_nlines. lia.
Qed.

(** X9.  [raw_packet_create_bsamp] returns a null pointer when [malloc]
    does.  Otherwise, when the size fits a [size_t] and the block has
    the size asked for, it returns a board-sample packet with the magic
    byte, protocol version 0 and flags 0, whose payload is exactly as
    long as its dimensions say; [bs_nchips] and [bs_nlines] read back
    as given, and [bs_idx] and the samples are whatever [malloc] left
    in the block. *)
Theorem raw_packet_create_bsamp_spec (nchips nlines size : Z) :
  0 <= nchips < 65536 →
  0 <= nlines < 65536 →
  (sizeof_raw_packet_header ≤ offsetof_raw_packet_p)%nat →
  size = Z.of_nat offsetof_raw_packet_p + Z.of_nat sizeof_raw_msg_bsamp
         + nchips * nlines * Z.of_nat sizeof_raw_samp_t →
  size <= SIZE_MAX →
  (∀ block, malloc size = Some block → length block = Z.to_nat size) →
  match malloc size with
  | None => raw_packet_create_bsamp nchips nlines = Ok None
  | Some block =>
      ∃ ret,
        raw_packet_create_bsamp nchips nlines = Ok (Some ret)
        ∧ _p_magic ret = 0x5A ∧ _p_proto_vers ret = 0
        ∧ p_type ret = RAW_PKT_TYPE_BSAMP ∧ p_flags ret = 0
        ∧ load16 (p ret) off_bs_nchips = Some nchips
        ∧ load16 (p ret) off_bs_nlines = Some nlines
        ∧ raw_packet_sampsize ret
          = Some (nchips * nlines * Z.of_nat sizeof_raw_samp_t)
        ∧ payload_extent ret (length (p ret))
        ∧ take off_bs_nchips (p ret)
          = take off_bs_nchips (drop offsetof_raw_packet_p block)
        ∧ drop sizeof_raw_msg_bsamp (p ret)
          = drop sizeof_raw_msg_bsamp (drop offsetof_raw_packet_p block)
  end.
Proof.
  intros Hnc Hnl Hoff Hsize Hfits Hsound.
  assert (Hmod : size mod (SIZE_MAX + 1) = size).
  { apply Z.mod_small. subst size.
    unfold sizeof_raw_msg_bsamp, sizeof_raw_samp_t in *. nia. }
  destruct (malloc size) as [block |] eqn:Hmalloc.
  2: { unfold raw_packet_create_bsamp. by rewrite <- Hsize, Hmod, Hmalloc. }
  pose proof (Hsound block eq_refl) as Hlen.
  pose proof (raw_packet_create_bsamp_run nchips nlines block) as Hrun.
  rewrite <- Hsize, Hmod in Hrun. specialize (Hrun Hmalloc Hoff).
  rewrite decide_True in Hrun
    by (subst size; unfold sizeof_raw_msg_bsamp, sizeof_raw_samp_t in *; nia).
  destruct Hrun as (h0 & h1 & h2 & h3 & h4 & h5 & h6 & h7 & rest & Hblock & ->).
  assert (Hrest : length rest = (sizeof_raw_samp_t * Z.to_nat (nchips * nlines))%nat).
  { apply (f_equal length) in Hblock. rewrite length_drop, length_app in Hblock.
    simpl in Hblock. subst size.
    unfold sizeof_raw_msg_bsamp, sizeof_raw_samp_t in *. nia. }
  destruct (enc16_inv nchips) as (c0 & c1 & Hc & _ & _ & Hcv).
  destruct (enc16_inv nlines) as (l0 & l1 & Hl & _ & _ & Hlv).
  rewrite Z.mod_small in Hcv, Hlv by lia.
  eexists. split; [reflexivity |]. cbn [_p_magic _p_proto_vers p_type p_flags p].
  rewrite Hc, Hl, Hblock.
  assert (Hload1 : load16 ([h0; h1; h2; h3] ++ [c0; c1] ++ [l0; l1] ++ rest)
                     off_bs_nchips = Some nchips).
  { rewrite (load16_app [h0; h1; h2; h3] c0 c1 (l0 :: l1 :: rest)) by done.
    by rewrite Hcv. }
  assert (Hload2 : load16 ([h0; h1; h2; h3] ++ [c0; c1] ++ [l0; l1] ++ rest)
                     off_bs_nlines = Some nlines).
  { rewrite (load16_app [h0; h1; h2; h3; c0; c1] l0 l1 rest) by done.
    by rewrite Hlv. }
  split_and!; try done.
  - unfold raw_packet_sampsize, raw_bsamp_nsamps. cbn [p].
    by rewrite Hload1, Hload2.
  - replace (length ([h0; h1; h2; h3] ++ [c0; c1] ++ [l0; l1] ++ rest))
      with (sizeof_raw_msg_bsamp + sizeof_raw_samp_t * Z.to_nat (nchips * nlines))%nat
      by (rewrite !length_app, Hrest; simpl; unfold sizeof_raw_msg_bsamp; lia).
    by apply extent_bsamp.
Qed.

(** X10.  Where [size_t] is too narrow for the size of the packet, the
    size wraps before [malloc] sees it: a packet that
    [raw_packet_create_bsamp] then returns claims more samples than its
    block holds. *)
Theorem raw_packet_create_bsamp_wraps (nchips nlines : Z) (ret : raw_packet) :
  0 <= nchips < 65536 →
  0 <= nlines < 65536 →
  (sizeof_raw_packet_header ≤ offsetof_raw_packet_p)%nat →
  0 <= SIZE_MAX
  < Z.of_nat offsetof_raw_packet_p + Z.of_nat sizeof_raw_msg_bsamp
    + nchips * nlines * Z.of_nat sizeof_raw_samp_t →
  (∀ size block, malloc size = Some block → length block = Z.to_nat size) →
  raw_packet_create_bsamp nchips nlines = Ok (Some ret) →
  ∃ n, payload_extent ret n ∧ (length (p ret) < n)%nat.
Proof.
  intros Hnc Hnl Hoff Hwrap Hsound Hret.
  set (size := (Z.of_nat offsetof_raw_packet_p + Z.of_nat sizeof_raw_msg_bsamp
                + nchips * nlines * Z.of_nat sizeof_raw_samp_t)
               mod (SIZE_MAX + 1)).
  assert (Hsmall : 0 <= size <= SIZE_MAX).
  { assert (Hpos : 0 < SIZE_MAX + 1) by lia.
    pose proof (Z.mod_pos_bound
                  (Z.of_nat offsetof_raw_packet_p + Z.of_nat sizeof_raw_msg_bsamp
                   + nchips * nlines * Z.of_nat sizeof_raw_samp_t)
                  (SIZE_MAX + 1) Hpos).
    unfold size. lia. }
  destruct (malloc size) as [block |] eqn:Hmalloc.
  2: { unfold raw_packet_create_bsamp in Hret. fold size in Hret.
       by rewrite Hmalloc in Hret. }
  pose proof (Hsound size block Hmalloc) as Hlen.
  pose proof (raw_packet_create_bsamp_run nchips nlines block Hmalloc Hoff) as Hrun.
  case_decide as Hroom; [| congruence].
  destruct Hrun as (h0 & h1 & h2 & h3 & h4 & h5 & h6 & h7 & rest & Hblock & Hrun).
  rewrite Hrun in Hret. injection Hret as <-.
  destruct (enc16_inv nchips) as (c0 & c1 & Hc & _ & _ & Hcv).
  destruct (enc16_inv nlines) as (l0 & l1 & Hl & _ & _ & Hlv).
  rewrite Z.mod_small in Hcv, Hlv by lia.
  exists (sizeof_raw_msg_bsamp + sizeof_raw_samp_t * Z.to_nat (nchips * nlines))%nat.
  split.
  - apply (extent_bsamp _ nchips nlines); cbn [p_type p]; [done | |];
      rewrite Hc, Hl.
    + rewrite (load16_app [h0; h1; h2; h3] c0 c1 (l0 :: l1 :: rest)) by done.
      by rewrite Hcv.
    + rewrite (load16_app [h0; h1; h2; h3; c0; c1] l0 l1 rest) by done.
      by rewrite Hlv.
  - cbn [p]. rewrite Hc, Hl. apply (f_equal length) in Hblock.
    rewrite length_drop, length_app in Hblock.
    simpl in *. unfold sizeof_raw_msg_bsamp, sizeof_raw_samp_t in *. nia.
Qed.
End CreateFacts.

Lemma raw_packet_create_bsamp_spec_witness :
  ∃ ret,
    raw_packet_create_bsamp (H := abi_le) (H0 := alloc_cd 64) 2 1 = Ok (Some ret)
    ∧ _p_magic ret = 0x5A ∧ _p_proto_vers ret = 0
    ∧ p_type ret = 1 ∧ p_flags ret = 0
    ∧ load16 (H := abi_le) (p ret) off_bs_nchips = Some 2
    ∧ load16 (H := abi_le) (p ret) off_bs_nlines = Some 1
    ∧ raw_packet_sampsize (H := abi_le) ret = Some 4
    ∧ payload_extent (H := abi_le) ret (length (p ret))
    ∧ take off_bs_nchips (p ret) = replicate 4 0xCD
    ∧ drop sizeof_raw_msg_bsamp (p ret) = replicate 4 0xCD.
Proof.
  apply (raw_packet_create_bsamp_spec (H := abi_le) (H0 := alloc_cd 64) 2 1 16);
    try (vm_compute; reflexivity); try (vm_compute; lia).
  - split; vm_compute; congruence.
  - split; vm_compute; congruence.
  - vm_compute. congruence.
  - intros block [= <-]. vm_compute; reflexivity.
Defined.

Lemma raw_packet_create_bsamp_wraps_witness :
  ∃ n, payload_extent (H := abi_le)
         {| _p_magic := 0x5A; _p_proto_vers := 0; p_type := 1; p_flags := 0;
            p := [0xCD; 0xCD; 0xCD; 0xCD; 0; 1; 128; 0] |} n
       ∧ (length [0xCD; 0xCD; 0xCD; 0xCD; 0; 1; 128; 0] < n)%nat.
Proof.
  apply (raw_packet_create_bsamp_wraps (H := abi_le) (H0 := alloc_cd 16) 256 128).
  - lia.
  - lia.
  - vm_compute. lia.
  - split; vm_compute; congruence.
  - intros size block [= <-]. apply length_replicate.
  - vm_compute; reflexivity.
Defined.

(* ===================================================================== *)
(** * Part IV: further properties of the control session                 *)
(* ===================================================================== *)

(** ** The event callbacks *)

Section EventFacts.
Context `{ControlABI} `{ControlOps}.

(** Clearing the list with the mutex held, whatever the list is. *)
Lemma control_clear_transactions_locked m :
  control_clear_transactions m true
  = Ok (emit EvStoreTxns
          (upd_sess (λ cs, set_txns None 0 (-1) (ctl_cur_rid cs) cs)
             (if is_null (ctl_txns (sess m)) then m else emit EvFreeTxns m))).
Proof.
  unfold control_clear_transactions, control_set_transactions.
  cbn [mbind result_bind]. rewrite set_transactions_assertion_clear.
  cbn [negb Z.eqb mbind result_bind].
  by destruct (is_null (ctl_txns (sess m))).
Qed.

(** The close handler of a side, as one function of the side. *)
Lemma control_close_run (s : side) m :
  mtx_held m = false →
  let slot := match s with Client => cbev | Dnode => dbev end in
  let set_slot := match s with Client => set_cbev | Dnode => set_dbev end in
  let ops := match s with Client => control_client_ops | Dnode => control_dnode_ops end in
  let close := match s with
               | Client => control_client_close
               | Dnode => control_dnode_close
               end in
  let cleared :=
    if is_null (ctl_txns (sess m)) then set_slot 0 (sess m)
    else set_txns None 0 (-1) (ctl_cur_rid (sess m)) (set_slot 0 (sess m)) in
  close m
  = if slot (sess m) =? 0 then Abort AssertionFailed
    else Ok {| sess := hook_app (cs_close ops) cleared;
               mtx_held := false;
               trace := trace m ++ [EvLock; EvBevFree (slot (sess m))]
                        ++ (if is_null (ctl_txns (sess m)) then []
                            else [EvFreeTxns; EvStoreTxns])
                        ++ [EvUnlock; EvCloseHook s] |}.
Proof.
  intros Hfree. destruct m as [cs held tr]. cbn [mtx_held sess trace] in *.
  subst held.
  destruct s; cbv zeta;
    unfold control_client_close, control_dnode_close, __control_must_lock;
    cbn [mtx_held sess trace mbind result_bind];
    (destruct (_ =? 0); [done |]);
    cbn [emit upd_sess sess set_cbev set_dbev ctl_txns mtx_held trace];
    (destruct (ctl_txns cs) as [txns |] eqn:Htxns; cbn [is_null]);
    rewrite ?control_clear_transactions_locked;
    cbn [emit upd_sess sess set_cbev set_dbev ctl_txns mtx_held trace is_null
           mbind result_bind __control_must_unlock];
    rewrite ?Htxns; cbn [is_null];
    unfold run_hook, hook_app;
    cbn [emit upd_sess sess set_cbev set_dbev ctl_txns mtx_held trace is_null
           mbind result_bind __control_must_unlock ctl_cur_rid];
    (destruct (cs_close _) as [hook |]);
    unfold emit, upd_sess; cbn [sess mtx_held trace];
    rewrite <- ?app_assoc; reflexivity.
Qed.

(** X11.  The data node's event callback, called without the mutex:
    the assertion fails when the bufferevent is not the session's;
    an event with neither EOF nor ERROR changes nothing; a closing
    event on a null [dbev] fails the assertion of the close handler;
    otherwise the endpoint is freed and [dbev] zeroed, a transaction
    list, if there is one, is freed and cleared, all with the mutex
    held, and the [cs_close] hook runs after the mutex is released.
    The client's endpoint, the wake reasons and [cur_rid] are not
    touched before the hook. *)
Theorem control_dnode_event_outcomes (m : machine) (bev events : Z) :
  mtx_held m = false →
  if negb (bev =? dbev (sess m)) then
    control_dnode_event bev events m = Abort AssertionFailed
  else if negb (closing events) then
    control_dnode_event bev events m = Ok m
  else if bev =? 0 then
    control_dnode_event bev events m = Abort AssertionFailed
  else
    ∃ cleared m',
      control_dnode_event bev events m = Ok m'
      ∧ sess m' = hook_app (cs_close control_dnode_ops) cleared
      ∧ dbev cleared = 0
      ∧ ctl_txns cleared = None
      ∧ (ctl_txns (sess m) ≠ None → txns_empty cleared)
      ∧ (ctl_txns (sess m) = None → cleared = set_dbev 0 (sess m))
      ∧ cbev cleared = cbev (sess m)
      ∧ wake_why cleared = wake_why (sess m)
      ∧ ctl_cur_rid cleared = ctl_cur_rid (sess m)
      ∧ mtx_held m' = false
      ∧ trace m' = trace m ++ [EvLock; EvBevFree bev]
                   ++ (if is_null (ctl_txns (sess m)) then []
                       else [EvFreeTxns; EvStoreTxns])
                   ++ [EvUnlock; EvCloseHook Dnode].
Proof.
  intros Hfree. unfold control_dnode_event, control_bevt_handler.
  fold (closing events).
  destruct (Z.eqb_spec bev (dbev (sess m))) as [-> | Hbev]; cbn [negb]; [| done].
  destruct (closing events); cbn [negb]; [| done].
  rewrite (control_close_run Dnode m Hfree). cbv zeta.
  destruct (dbev (sess m) =? 0); [done |].
  eexists _, _. split; [reflexivity |]. cbn [sess mtx_held trace].
  split; [reflexivity |].
  destruct (ctl_txns (sess m)) eqn:Htxns; cbn [is_null];
    split_and!; try done; by rewrite ?Htxns.
Qed.

(** X12.  After a closing event has been handled and the client's
    endpoint freed, a second closing event for it fails the assertion
    instead of freeing the endpoint again, unless the [cs_close] hook
    has put something into [cbev]. *)
Theorem control_client_event_not_twice
    (m m' : machine) (bev bev' events events' : Z) :
  mtx_held m = false →
  keeps cbev (cs_close control_client_ops) →
  closing events = true →
  closing events' = true →
  control_client_event bev events m = Ok m' →
  cbev (sess m') = 0
  ∧ control_client_event bev' events' m' = Abort AssertionFailed.
Proof.
  intros Hfree Hkeeps Hclosing Hclosing'.
  unfold control_client_event at 1, control_bevt_handler. fold (closing events).
  destruct (Z.eqb_spec bev (cbev (sess m))) as [-> | Hbev]; cbn [negb]; [| done].
  rewrite Hclosing. rewrite (control_close_run Client m Hfree). cbv zeta.
  destruct (cbev (sess m) =? 0); [done |]. intros [= <-]. cbn [sess].
  assert (Hnull : cbev (hook_app (cs_close control_client_ops)
                          (if is_null (ctl_txns (sess m)) then set_cbev 0 (sess m)
                           else set_txns None 0 (-1) (ctl_cur_rid (sess m))
                                  (set_cbev 0 (sess m)))) = 0).
  { rewrite Hkeeps. by destruct (is_null _). }
  split; [done |].
  unfold control_client_event, control_bevt_handler. fold (closing events').
  cbn [sess]. rewrite Hnull, Hclosing'.
  destruct (Z.eqb_spec bev' 0) as [-> | Hbev']; cbn [negb]; [| done].
  unfold control_client_close, __control_must_lock.
  cbn [mtx_held sess mbind result_bind]. by rewrite Hnull.
Qed.
End EventFacts.

Lemma control_dnode_event_outcomes_witness :
  ∃ cleared m',
    control_dnode_event (H0 := no_hooks) 0x2000 BEV_EVENT_EOF session_busy = Ok m'
    ∧ sess m' = cleared
    ∧ dbev cleared = 0
    ∧ ctl_txns cleared = None
    ∧ (ctl_txns (sess session_busy) ≠ None → txns_empty cleared)
    ∧ (ctl_txns (sess session_busy) = None → cleared = set_dbev 0 (sess session_busy))
    ∧ cbev cleared = 0x1000
    ∧ wake_why cleared = 0
    ∧ ctl_cur_rid cleared = 3
    ∧ mtx_held m' = false
    ∧ trace m' = [EvLock; EvBevFree 0x2000; EvFreeTxns; EvStoreTxns;
                  EvUnlock; EvCloseHook Dnode].
Proof.
  exact (control_dnode_event_outcomes (H0 := no_hooks) session_busy 0x2000
           BEV_EVENT_EOF eq_refl).
Defined.

Lemma control_client_event_not_twice_witness :
  ∃ m', control_client_event (H0 := no_hooks) 0x1000 BEV_EVENT_EOF session_busy = Ok m'
        ∧ cbev (sess m') = 0
        ∧ control_client_event (H0 := no_hooks) 0x1000 BEV_EVENT_ERROR m'
          = Abort AssertionFailed.
Proof.
  eexists. split; [vm_compute; reflexivity |].
  apply (control_client_event_not_twice (H0 := no_hooks) session_busy _
           0x1000 0x1000 BEV_EVENT_EOF BEV_EVENT_ERROR eq_refl);
    [intros cs; reflexivity | reflexivity | reflexivity |
     vm_compute; reflexivity].
Defined.

(** ** Waking the worker *)

Section WakeFacts.

Lemma control_set_wake_run m why :
  control_set_wake m why
  = if mtx_held m then Abort MutexMisuse
    else Ok {| sess := sets_wake why (sess m); mtx_held := false;
               trace := trace m ++ [EvLock; EvUnlock] |}.
Proof.
  unfold control_set_wake, __control_must_lock. destruct (mtx_held m); [done |].
  cbn [mbind result_bind __control_must_unlock upd_sess mtx_held sess trace].
  by rewrite <- app_assoc.
Qed.

Lemma wake_set_sets_wake why b cs :
  wake_set b (sets_wake why cs) = wake_set b cs || negb (Z.land why b =? 0).
Proof.
  unfold wake_set, sets_wake. cbn [set_wake_why wake_why].
  rewrite Z.land_lor_distr_l.
  destruct (Z.eqb_spec (Z.land (wake_why cs) b) 0) as [-> | Hold]; cbn [negb orb].
  - by rewrite Z.lor_0_l.
  - apply negb_true_iff, Z.eqb_neq. rewrite Z.lor_eq_0_iff. tauto.
Qed.

(** X13.  [control_set_wake], called without the mutex, only adds wake
    reasons: afterwards a reason is set exactly when it was set before
    or shares a bit with [why]; nothing else in the session changes,
    the mutex is taken once and released, and asking a second time for
    the same reasons changes nothing more. *)
Theorem control_set_wake_adds (m : machine) (why : Z) :
  mtx_held m = false →
  ∃ m',
    control_set_wake m why = Ok m'
    ∧ (∀ b, wake_set b (sess m')
            = wake_set b (sess m) || negb (Z.land why b =? 0))
    ∧ same_but_wake (sess m) (sess m')
    ∧ mtx_held m' = false
    ∧ trace m' = trace m ++ [EvLock; EvUnlock]
    ∧ ∃ m'', control_set_wake m' why = Ok m'' ∧ sess m'' = sess m'.
Proof.
  intros Hfree. rewrite control_set_wake_run, Hfree.
  eexists. split; [reflexivity |]. cbn [sess mtx_held trace].
  split_and!; try done.
  - intros b. apply wake_set_sets_wake.
  - rewrite control_set_wake_run. cbn [mtx_held sess].
    eexists. split; [reflexivity |]. cbn [sess].
    unfold sets_wake, set_wake_why. cbn [wake_why cbev dbev ctl_txns
      ctl_n_txns ctl_cur_txn ctl_cur_rid].
    by rewrite <- Z.lor_assoc, Z.lor_diag.
Qed.

End WakeFacts.

Lemma control_set_wake_adds_witness :
  ∃ m',
    control_set_wake (session_at_rest 0) 6 = Ok m'
    ∧ (∀ b, wake_set b (sess m')
            = wake_set b (sess (session_at_rest 0))
              || negb (Z.land 6 b =? 0))
    ∧ same_but_wake (sess (session_at_rest 0)) (sess m')
    ∧ mtx_held m' = false
    ∧ trace m' = [EvLock; EvUnlock]
    ∧ ∃ m'', control_set_wake m' 6 = Ok m'' ∧ sess m'' = sess m'.
Proof.
  exact (control_set_wake_adds (session_at_rest 0) 6 eq_refl).
Defined.


(** ** The worker over many iterations *)

Section WorkerFacts.
Context `{ControlABI} `{ControlOps}.

Lemma well_locked_app tr1 : ∀ held tr2,
  well_locked held (tr1 ++ tr2)
  = held' ← well_locked held tr1; well_locked held' tr2.
Proof.
  induction tr1 as [| e tr1 IH]; intros held tr2; [done |].
  destruct e, held; cbn [app well_locked mbind option_bind]; by rewrite ?IH.
Qed.

Lemma well_locked_waits k :
  well_locked true (replicate k EvCondWait) = Some true.
Proof. induction k as [| k IH]; [done | exact IH]. Qed.

(** One iteration keeps the lock discipline, whatever the hooks and the
    other threads do. *)
Lemma control_worker_iteration_safe env m :
  mtx_held m = false →
  ∃ added,
    match control_worker_iteration env m with
    | Running m' env' =>
        trace m' = trace m ++ added ∧ mtx_held m' = false
        ∧ well_locked false added = Some false
        ∧ ∃ k, env' = drop k env
    | Exited m' =>
        trace m' = trace m ++ added ∧ mtx_held m' = false
        ∧ well_locked false added = Some false
        ∧ wake_set CONTROL_WHY_EXIT (sess m') = true
    | Asleep m' =>
        trace m' = trace m ++ added ∧ mtx_held m' = true
        ∧ well_locked false added = Some true
        ∧ wake_why (sess m') = CONTROL_WHY_NONE
    | Failed _ => False
    end.
Proof.
  intros Hfree. destruct m as [cs0 held tr0]. cbn [mtx_held sess trace] in *.
  subst held.
  unfold control_worker_iteration, __control_must_lock. cbn [mtx_held sess trace].
  destruct (wait_for_wake_spec env
              {| sess := cs0; mtx_held := true; trace := tr0 ++ [EvLock] |} eq_refl)
    as (k & Hk & _ & Hend).
  unfold waited in Hend. cbn [sess trace] in Hend.
  rewrite <- app_assoc in Hend. cbn [app] in Hend.
  set (cs := sess_after (take k env) cs0) in *.
  assert (Hwaits : ∀ rest held',
            well_locked true rest = Some held' →
            well_locked false (EvLock :: replicate k EvCondWait ++ rest)
            = Some held').
  { intros rest held' Hrest. cbn [well_locked].
    by rewrite well_locked_app, well_locked_waits. }
  case_decide as Hnone.
  { destruct Hend as [_ ->]. exists (EvLock :: replicate k EvCondWait ++ []).
    rewrite app_nil_r. split_and!; try done.
    rewrite <- (app_nil_r (replicate _ _)). by apply Hwaits. }
  rewrite Hend. cbn [sess]. rewrite (proj2 (Z.eqb_neq _ _)) by done.
  fold (wake_set CONTROL_WHY_EXIT cs).
  destruct (wake_set CONTROL_WHY_EXIT cs) eqn:Hexit; cbn [negb].
  { cbn [__control_must_unlock mtx_held]. unfold emit. cbn [sess mtx_held trace].
    exists (EvLock :: replicate k EvCondWait ++ [EvUnlock; EvThreadExit]).
    split_and!; try done.
    - rewrite <- ?app_assoc. cbn [app]. rewrite <- ?app_assoc. done.
    - by apply Hwaits. }
  unfold control_client_thread, control_dnode_thread, run_hook.
  set (client := negb (Z.land (wake_why cs)
                         (Z.lor CONTROL_WHY_CLIENT_CMD CONTROL_WHY_CLIENT_RES) =? 0)).
  destruct client;
    destruct (cs_thread control_client_ops) as [client_hook |];
    unfold emit, upd_sess; cbn [sess trace mtx_held];
    match goal with
    | |- context [negb (Z.land (wake_why ?c) CONTROL_WHY_DNODE_TXN =? 0)] =>
        destruct (negb (Z.land (wake_why c) CONTROL_WHY_DNODE_TXN =? 0))
    end;
    destruct (cs_thread control_dnode_ops) as [dnode_hook |];
    cbn [sess trace mtx_held __control_must_unlock];
    rewrite <- ?app_assoc; cbn [app];
    match goal with
    | |- ∃ added, ?tr = tr0 ++ added ∧ _ =>
        match tr with
        | tr0 ++ EvLock :: replicate k EvCondWait ++ ?rest =>
            exists (EvLock :: replicate k EvCondWait ++ rest)
        end
    end;
    (split_and!; [done | done | by apply Hwaits | by exists k]).
Qed.

(** X15.  However long the worker runs, whatever the hooks and the
    other threads do to the session: started without the mutex it never
    misuses the mutex and never fails its assertion; what it adds to
    the trace keeps the lock discipline (it waits and calls the thread
    hooks only with the mutex held, and leaves the thread only without
    it); it holds the mutex only while it sleeps, with
    [wake_why == CONTROL_WHY_NONE], and it exits only with the EXIT
    bit set. *)
Theorem control_worker_main_safe (fuel : nat)
    (env : list (control_session → control_session)) (m : machine) :
  mtx_held m = false →
  ∃ added,
    match control_worker_main fuel env m with
    | Running m' env' =>
        trace m' = trace m ++ added ∧ mtx_held m' = false
        ∧ well_locked false added = Some false
        ∧ ∃ k, env' = drop k env
    | Exited m' =>
        trace m' = trace m ++ added ∧ mtx_held m' = false
        ∧ well_locked false added = Some false
        ∧ wake_set CONTROL_WHY_EXIT (sess m') = true
    | Asleep m' =>
        trace m' = trace m ++ added ∧ mtx_held m' = true
        ∧ well_locked false added = Some true
        ∧ wake_why (sess m') = CONTROL_WHY_NONE
    | Failed _ => False
    end.
Proof.
  revert env m. induction fuel as [| fuel IH]; intros env m Hfree.
  { exists []. cbn [control_worker_main]. rewrite app_nil_r.
    split_and!; try done. by exists 0%nat. }
  cbn [control_worker_main].
  destruct (control_worker_iteration_safe env m Hfree) as [added1 Hstep].
  destruct (control_worker_iteration env m) as [m1 env1 | m1 | m1 | f];
    [| by exists added1 | by exists added1 | done].
  destruct Hstep as (Htr1 & Hfree1 & Hlocked1 & k1 & ->).
  destruct (IH (drop k1 env) m1 Hfree1) as [added2 Hrest].
  exists (added1 ++ added2).
  assert (Hlocked : ∀ held', well_locked false added2 = Some held' →
                             well_locked false (added1 ++ added2) = Some held').
  { intros held' Hlocked2. by rewrite well_locked_app, Hlocked1. }
  destruct (control_worker_main fuel (drop k1 env) m1) as [m2 env2 | m2 | m2 | f];
    [| | | done].
  - destruct Hrest as (Htr2 & Hfree2 & Hlocked2 & k2 & ->).
    split_and!; [by rewrite Htr2, Htr1, app_assoc | done | by apply Hlocked |].
    exists (k1 + k2)%nat. by rewrite drop_drop.
  - destruct Hrest as (Htr2 & Hfree2 & Hlocked2 & Hexit).
    split_and!; [by rewrite Htr2, Htr1, app_assoc | done | by apply Hlocked | done].
  - destruct Hrest as (Htr2 & Hheld2 & Hlocked2 & Hnone).
    split_and!; [by rewrite Htr2, Htr1, app_assoc | done | by apply Hlocked | done].
Qed.



(** Left alone between the iterations, the worker among the others is
    the worker. *)
Lemma control_worker_main_among_alone fuel : ∀ env m,
  control_worker_main_among (replicate fuel id) env m
  = control_worker_main fuel env m.
Proof.
  induction fuel as [| fuel IH]; intros env m; [done |].
  cbn [replicate control_worker_main_among control_worker_main].
  replace (upd_sess id m) with m by (by destruct m).
  destruct (control_worker_iteration env m); by rewrite ?IH.
Qed.




End WorkerFacts.

Lemma control_worker_main_safe_witness :
  ∃ added,
    match control_worker_main (H := why_bits) (H0 := exit_hooks) 2
            [sets_wake 2] (session_at_rest 0) with
    | Running m' env' =>
        trace m' = trace (session_at_rest 0) ++ added ∧ mtx_held m' = false
        ∧ well_locked false added = Some false
        ∧ ∃ k, env' = drop k [sets_wake 2]
    | Exited m' =>
        trace m' = trace (session_at_rest 0) ++ added ∧ mtx_held m' = false
        ∧ well_locked false added = Some false
        ∧ wake_set 1 (sess m') = true
    | Asleep m' =>
        trace m' = trace (session_at_rest 0) ++ added ∧ mtx_held m' = true
        ∧ well_locked false added = Some true
        ∧ wake_why (sess m') = 0
    | Failed _ => False
    end.
Proof.
  exact (control_worker_main_safe (H := why_bits) (H0 := exit_hooks) 2
           [sets_wake 2] (session_at_rest 0) eq_refl).
Defined.

(** The run of the example: the worker waits once, runs the client's
    thread hook, which asks for the exit, and leaves in its second
    iteration. *)
Example control_worker_main_exits :
  ∃ m', control_worker_main (H := why_bits) (H0 := exit_hooks) 2
          [sets_wake 2] (session_at_rest 0) = Exited m'
        ∧ trace m' = [EvLock; EvCondWait; EvThreadHook Client; EvUnlock;
                      EvLock; EvUnlock; EvThreadExit].
Proof. eexists. split; vm_compute; reflexivity. Qed.


(** The run of the example: the client's reason is found in the first
    iteration; the data node's is added before the second, which calls
    both hooks; the exit is asked for before the third, which leaves. *)
Example control_worker_main_among_exits :
  ∃ m', control_worker_main_among (H := why_bits) (H0 := no_hooks)
          [id; sets_wake 8; sets_wake 1; id] []
          (upd_sess (sets_wake 2) (session_at_rest 0)) = Exited m'
        ∧ wake_why (sess m') = 11
        ∧ trace m' = [EvLock; EvThreadHook Client; EvUnlock;
                      EvLock; EvThreadHook Client; EvThreadHook Dnode; EvUnlock;
                      EvLock; EvUnlock; EvThreadExit].
Proof. eexists. split_and!; vm_compute; reflexivity. Qed.

(** ** The transaction list: clearing, and the array behind it *)

Section TransactionFacts.

Lemma stamp_requests_fails count : ∀ i txns rid,
  stamp_requests count i txns rid = None
  ↔ (0 < count ∧ length txns < i + count)%nat.
Proof.
  induction count as [| count IH]; intros i txns rid; cbn [stamp_requests].
  { split; [done | lia]. }
  destruct (txns !! i) as [txn |] eqn:Hi; cbn [mbind option_bind].
  - apply lookup_lt_Some in Hi. rewrite IH, length_insert. lia.
  - apply lookup_ge_None in Hi. split; [lia | done].
Qed.

(** X17.  Clearing the transaction list ([txns == NULL], [n_txns == 0])
    succeeds on every session, busy or not: the list is empty
    afterwards, the old array is freed exactly when there was one, the
    request counter, the endpoints and the wake reasons stay, the
    mutex is as the caller had it; clearing again changes nothing, and
    the assertion of the next [control_set_transactions] holds
    whatever it is asked to install. *)
Theorem control_set_transactions_clears (m : machine) (have_lock : bool) :
  (have_lock = false → mtx_held m = false) →
  ∃ m',
    control_set_transactions m None 0 have_lock = Ok m'
    ∧ txns_empty (sess m')
    ∧ ctl_cur_rid (sess m') = ctl_cur_rid (sess m)
    ∧ cbev (sess m') = cbev (sess m)
    ∧ dbev (sess m') = dbev (sess m)
    ∧ wake_why (sess m') = wake_why (sess m)
    ∧ mtx_held m' = mtx_held m
    ∧ trace m' = trace m
                 ++ (if have_lock then [] else [EvLock])
                 ++ (if is_null (ctl_txns (sess m)) then [] else [EvFreeTxns])
                 ++ [EvStoreTxns]
                 ++ (if have_lock then [] else [EvUnlock])
    ∧ (∃ m'', control_set_transactions m' None 0 have_lock = Ok m''
              ∧ sess m'' = sess m')
    ∧ (∀ txns n_txns, set_transactions_assertion (sess m') txns n_txns = true).
Proof.
  intros Hlock.
  assert (Hclear : ∀ m0, (have_lock = false → mtx_held m0 = false) →
            control_set_transactions m0 None 0 have_lock
            = Ok {| sess := set_txns None 0 (-1) (ctl_cur_rid (sess m0)) (sess m0);
                    mtx_held := mtx_held m0;
                    trace := trace m0
                             ++ (if have_lock then [] else [EvLock])
                             ++ (if is_null (ctl_txns (sess m0)) then []
                                 else [EvFreeTxns])
                             ++ [EvStoreTxns]
                             ++ (if have_lock then [] else [EvUnlock]) |}).
  { intros [cs held tr] Hlock0. cbn [mtx_held sess trace] in *.
    rewrite control_set_transactions_unfold by done.
    rewrite set_transactions_assertion_clear. cbn [negb Z.eqb]. cbv zeta.
    unfold entered, __control_must_unlock.
    destruct have_lock; cbn [sess mtx_held trace];
      destruct (ctl_txns cs) as [txns |]; cbn [is_null];
      unfold emit, upd_sess;
      cbn [sess mtx_held trace mbind result_bind ctl_cur_rid];
      rewrite <- ?app_assoc, ?app_nil_r; cbn [app]; try reflexivity.
    all: by rewrite Hlock0. }
  rewrite (Hclear m Hlock). eexists. split; [reflexivity |].
  cbn [sess mtx_held trace]. split_and!; try done.
  rewrite Hclear by done. eexists. split; [reflexivity |]. done.
Qed.

(** X18.  The assertion of [control_set_transactions] does not look at
    the array: on a session whose list is empty, a call with
    [n_txns > 0] runs off its argument exactly when [txns] is null or
    has fewer than [n_txns] entries. *)
Theorem control_set_transactions_faults
    (m : machine) (txns : option (list control_txn)) (n_txns : Z)
    (have_lock : bool) :
  (have_lock = false → mtx_held m = false) →
  txns_empty (sess m) →
  0 < n_txns →
  control_set_transactions m txns n_txns have_lock = Abort MemoryFault
  ↔ match txns with
    | None => True
    | Some array => Z.of_nat (length array) < n_txns
    end.
Proof.
  intros Hlock Hempty Hn.
  rewrite control_set_transactions_unfold by done.
  rewrite (proj2 (set_transactions_assertion_iff _ _ _)) by (by left).
  cbn [negb]. cbv zeta. rewrite (proj2 (Z.eqb_neq _ 0)) by lia.
  destruct txns as [array |]; cbn [mbind option_bind access result_bind];
    [| done].
  destruct (stamp_requests _ _ _ _) as [[stamped rid] |] eqn:Hstamp;
    cbn [access mbind result_bind].
  - assert (Hfits : ¬ (0 < Z.to_nat n_txns ∧ length array < 0 + Z.to_nat n_txns)%nat).
    { rewrite <- stamp_requests_fails. by rewrite Hstamp. }
    split; [| lia].
    unfold __control_must_unlock, entered.
    by destruct have_lock, (is_null _).
  - apply stamp_requests_fails in Hstamp. split; [lia | done].
Qed.
End TransactionFacts.

Lemma control_set_transactions_clears_witness :
  ∃ m',
    control_set_transactions session_busy None 0 false = Ok m'
    ∧ txns_empty (sess m')
    ∧ ctl_cur_rid (sess m') = 3
    ∧ cbev (sess m') = 0x1000
    ∧ dbev (sess m') = 0x2000
    ∧ wake_why (sess m') = 0
    ∧ mtx_held m' = false
    ∧ trace m' = [EvLock; EvFreeTxns; EvStoreTxns; EvUnlock]
    ∧ (∃ m'', control_set_transactions m' None 0 false = Ok m''
              ∧ sess m'' = sess m')
    ∧ (∀ txns n_txns, set_transactions_assertion (sess m') txns n_txns = true).
Proof.
  exact (control_set_transactions_clears session_busy false (λ _, eq_refl)).
Defined.

Lemma control_set_transactions_faults_witness :
  control_set_transactions (session_at_rest 0) None 3 false = Abort MemoryFault
  ∧ control_set_transactions (session_at_rest 0) (Some [txn0; txn0]) 3 true
    = Abort MemoryFault.
Proof.
  split.
  - apply (control_set_transactions_faults (session_at_rest 0) None 3 false);
      [done | done | lia | done].
  - apply (control_set_transactions_faults (session_at_rest 0)
             (Some [txn0; txn0]) 3 true); [done | done | lia | simpl; lia].
Defined.

(** ** Stopping the worker *)

Section StopFacts.
Context `{ControlABI} `{ControlOps}.

Lemma exit_bit_set w :
  CONTROL_WHY_EXIT ≠ 0 →
  Z.land CONTROL_WHY_NONE CONTROL_WHY_EXIT = 0 →
  Z.lor w CONTROL_WHY_EXIT ≠ CONTROL_WHY_NONE
  ∧ negb (Z.land (Z.lor w CONTROL_WHY_EXIT) CONTROL_WHY_EXIT =? 0) = true.
Proof.
  intros Hexit Hnone.
  assert (Hland : Z.land (Z.lor w CONTROL_WHY_EXIT) CONTROL_WHY_EXIT
                  = CONTROL_WHY_EXIT).
  { apply Z.bits_inj'. intros n _. rewrite Z.land_spec, Z.lor_spec.
    by destruct (Z.testbit w n), (Z.testbit CONTROL_WHY_EXIT n). }
  split.
  - intros Heq. rewrite Heq in Hland. congruence.
  - rewrite Hland. by apply negb_true_iff, Z.eqb_neq.
Qed.

(** X19.  Asking for the exit stops the worker, where EXIT is a bit
    that [CONTROL_WHY_NONE] does not have: after
    [control_set_wake(cs, CONTROL_WHY_EXIT)], which [control_free]
    begins with, a worker that starts its next iteration, and a worker
    that sleeps in [pthread_cond_wait] meanwhile, releases the mutex
    and leaves the thread without calling a thread hook, whatever other
    reasons are set. *)
Theorem control_set_wake_exit_stops_worker
    (m : machine) (env : list (control_session → control_session)) :
  mtx_held m = false →
  CONTROL_WHY_EXIT ≠ 0 →
  Z.land CONTROL_WHY_NONE CONTROL_WHY_EXIT = 0 →
  (∃ m1,
     control_set_wake m CONTROL_WHY_EXIT = Ok m1
     ∧ control_worker_iteration env m1
       = Exited {| sess := sess m1; mtx_held := false;
                   trace := trace m ++ [EvLock; EvUnlock;
                                        EvLock; EvUnlock; EvThreadExit] |})
  ∧ (wake_why (sess m) = CONTROL_WHY_NONE →
     control_worker_iteration (sets_wake CONTROL_WHY_EXIT :: env) m
     = Exited {| sess := sets_wake CONTROL_WHY_EXIT (sess m); mtx_held := false;
                 trace := trace m ++ [EvLock; EvCondWait;
                                      EvUnlock; EvThreadExit] |}).
Proof.
  intros Hfree Hexit Hnone. destruct m as [cs held tr].
  cbn [mtx_held sess trace] in *. subst held.
  destruct (exit_bit_set (wake_why cs) Hexit Hnone) as [Hwoken Hbit].
  assert (Hwait : ∀ tr0,
            wait_for_wake env {| sess := sets_wake CONTROL_WHY_EXIT cs;
                                 mtx_held := true; trace := tr0 |}
            = Running {| sess := sets_wake CONTROL_WHY_EXIT cs;
                         mtx_held := true; trace := tr0 |} env).
  { intros tr0.
    destruct env; cbn [wait_for_wake sess sets_wake set_wake_why wake_why];
      by rewrite (proj2 (Z.eqb_neq _ _)) by done. }
  split.
  - rewrite control_set_wake_run. cbn [mtx_held sess trace].
    eexists. split; [reflexivity |].
    unfold control_worker_iteration, __control_must_lock. cbn [mtx_held sess trace].
    rewrite Hwait. cbn [sess sets_wake set_wake_why wake_why].
    rewrite (proj2 (Z.eqb_neq _ _)) by done. rewrite Hbit.
    cbn [__control_must_unlock mtx_held]. unfold emit. cbn [sess mtx_held trace].
    by rewrite <- !app_assoc.
  - intros Hasleep.
    unfold control_worker_iteration, __control_must_lock. cbn [mtx_held sess trace].
    cbn [wait_for_wake sess]. rewrite Hasleep, Z.eqb_refl.
    unfold __control_must_cond_wait. cbn [mtx_held].
    unfold emit, upd_sess. cbn [sess mtx_held trace].
    rewrite Hwait. cbn [sess sets_wake set_wake_why wake_why].
    rewrite (proj2 (Z.eqb_neq _ _)) by done. rewrite Hbit.
    cbn [__control_must_unlock mtx_held sess trace].
    by rewrite <- !app_assoc.
Qed.
End StopFacts.

Lemma control_set_wake_exit_stops_worker_witness :
  (∃ m1,
     control_set_wake (session_at_rest 0) 1 = Ok m1
     ∧ control_worker_iteration (H := why_bits) (H0 := exit_hooks) [] m1
       = Exited {| sess := sess m1; mtx_held := false;
                   trace := [EvLock; EvUnlock; EvLock; EvUnlock; EvThreadExit] |})
  ∧ control_worker_iteration (H := why_bits) (H0 := exit_hooks) [sets_wake 1]
      (session_at_rest 0)
    = Exited {| sess := sets_wake 1 (sess (session_at_rest 0));
                mtx_held := false;
                trace := [EvLock; EvCondWait; EvUnlock; EvThreadExit] |}.
Proof.
  assert (Hexit : CONTROL_WHY_EXIT (ControlABI := why_bits) ≠ 0)
    by (vm_compute; congruence).
  destruct (control_set_wake_exit_stops_worker (H := why_bits) (H0 := exit_hooks)
              (session_at_rest 0) [] eq_refl Hexit eq_refl) as [Hawake Hasleep].
  split; [exact Hawake | exact (Hasleep eq_refl)].
Defined.

(* ===================================================================== *)
(** * Part V: connections, reading, and the life of a session            *)
(* ===================================================================== *)

Section ProcessFacts.
Context `{ControlABI} `{System} `{ControlSideOps}.

Lemma on_machine_lock pr :
  mtx_held (mach pr) = false →
  on_machine __control_must_lock pr
  = Ok {| mach := {| sess := session pr; mtx_held := true;
                     trace := trace (mach pr) ++ [EvLock] |};
          cecl := cecl pr; ddatafd := ddatafd pr; cdatafd := cdatafd pr;
          ddataevt := ddataevt pr; calls := calls pr ++ [Sync EvLock] |}.
Proof.
  intros Hfree. unfold on_machine, __control_must_lock. rewrite Hfree.
  cbn [mbind result_bind trace]. by rewrite drop_app_length.
Qed.

Lemma on_machine_unlock pr :
  mtx_held (mach pr) = true →
  on_machine __control_must_unlock pr
  = Ok {| mach := {| sess := session pr; mtx_held := false;
                     trace := trace (mach pr) ++ [EvUnlock] |};
          cecl := cecl pr; ddatafd := ddatafd pr; cdatafd := cdatafd pr;
          ddataevt := ddataevt pr; calls := calls pr ++ [Sync EvUnlock] |}.
Proof.
  intros Hheld. unfold on_machine, __control_must_unlock. rewrite Hheld.
  cbn [mbind result_bind trace]. by rewrite drop_app_length.
Qed.

Lemma on_machine_set_wake why pr :
  mtx_held (mach pr) = false →
  on_machine (λ m, control_set_wake m why) pr
  = Ok {| mach := {| sess := sets_wake why (session pr); mtx_held := false;
                     trace := trace (mach pr) ++ [EvLock; EvUnlock] |};
          cecl := cecl pr; ddatafd := ddatafd pr; cdatafd := cdatafd pr;
          ddataevt := ddataevt pr;
          calls := calls pr ++ [Sync EvLock; Sync EvUnlock] |}.
Proof.
  intros Hfree. unfold on_machine. rewrite control_set_wake_run, Hfree.
  cbn [mbind result_bind trace]. by rewrite drop_app_length.
Qed.

(** The read wrapper of a side. *)
Lemma control_read_run s pr :
  control_read s pr
  = ({| mach := {| sess := (hook_ret (cs_read (side_ops_of s))
                              CONTROL_WHY_NONE (session pr)).1;
                   mtx_held := mtx_held (mach pr);
                   trace := trace (mach pr) |};
        cecl := cecl pr; ddatafd := ddatafd pr; cdatafd := cdatafd pr;
        ddataevt := ddataevt pr;
        calls := calls pr
                 ++ match cs_read (side_ops_of s) with
                    | Some hook => [ReadHook s (hook (session pr)).2]
                    | None => []
                    end |},
     (hook_ret (cs_read (side_ops_of s)) CONTROL_WHY_NONE (session pr)).2).
Proof.
  unfold control_read, hook_ret, session.
  destruct pr as [[cs held tr] ? ? ? ? cl].
  destruct (cs_read (side_ops_of s)) as [hook |]; cbn; [done |].
  by rewrite app_nil_r.
Qed.

(** X14.  A read callback, called without the mutex: with a null
    [cs_read] hook, or when the hook returns [CONTROL_WHY_NONE], it
    returns without touching the mutex or signalling; when the hook
    returns exactly [CONTROL_WHY_EXIT] the process ends; for every
    other value (also one that contains the EXIT bit among others) the
    returned bits are added to [wake_why] as the hook left it, under
    the mutex, and the condition is signalled once, after the mutex is
    released; the process ends if signalling fails. *)
Theorem control_bev_reader_outcomes (s : side) (pr : process) :
  mtx_held (mach pr) = false →
  let cs := (hook_ret (cs_read (side_ops_of s)) CONTROL_WHY_NONE (session pr)).1 in
  let why := (hook_ret (cs_read (side_ops_of s)) CONTROL_WHY_NONE (session pr)).2 in
  let read := match cs_read (side_ops_of s) with
              | Some _ => [ReadHook s why]
              | None => []
              end in
  ∃ pr',
    mtx_held (mach pr') = false
    ∧ if decide (why = CONTROL_WHY_NONE) then
        control_bev_reader s pr = Done pr'
        ∧ session pr' = cs ∧ calls pr' = calls pr ++ read
      else if decide (why = CONTROL_WHY_EXIT) then
        control_bev_reader s pr = Fatal pr'
        ∧ session pr' = cs ∧ calls pr' = calls pr ++ read
      else
        control_bev_reader s pr
        = (if decide (pthread_cond_signal = 0) then Done pr' else Fatal pr')
        ∧ (∀ b, wake_set b (session pr')
                = wake_set b cs || negb (Z.land why b =? 0))
        ∧ same_but_wake cs (session pr')
        ∧ calls pr' = calls pr ++ read
                      ++ [Sync EvLock; Sync EvUnlock;
                          CondSignal pthread_cond_signal].
Proof.
  intros Hfree. cbv zeta. unfold control_bev_reader.
  rewrite control_read_run.
  set (cs := (hook_ret (cs_read (side_ops_of s)) CONTROL_WHY_NONE (session pr)).1).
  set (why := (hook_ret (cs_read (side_ops_of s)) CONTROL_WHY_NONE (session pr)).2).
  assert (Hread : match cs_read (side_ops_of s) with
                  | Some hook => [ReadHook s (hook (session pr)).2]
                  | None => []
                  end
                  = match cs_read (side_ops_of s) with
                    | Some _ => [ReadHook s why]
                    | None => []
                    end).
  { unfold why, hook_ret. by destruct (cs_read (side_ops_of s)). }
  rewrite Hread.
  case_decide as Hnone.
  { rewrite Hnone, Z.eqb_refl. eexists. split; [| split; [reflexivity |]]; done. }
  rewrite (proj2 (Z.eqb_neq _ _)) by done.
  case_decide as Hexit.
  { rewrite Hexit, Z.eqb_refl. eexists. split; [| split; [reflexivity |]]; done. }
  rewrite (proj2 (Z.eqb_neq _ _)) by done.
  unfold control_must_wake. rewrite on_machine_set_wake by (by rewrite Hfree).
  unfold __control_must_signal, call. cbn [mach cecl ddatafd cdatafd ddataevt calls].
  assert (Hsignal : ∀ P : process,
            match (if negb (pthread_cond_signal =? 0) then inr P else inl P) with
            | inl pr => Done pr
            | inr pr => Fatal pr
            end
            = if decide (pthread_cond_signal = 0) then Done P else Fatal P).
  { intros P. case_decide as Hsig.
    - by rewrite Hsig.
    - by rewrite (proj2 (Z.eqb_neq _ _)) by done. }
  rewrite Hsignal.
  eexists. split; [| split; [reflexivity |]]; [done |].
  unfold session. cbn [mach sess calls].
  split_and!; try done.
  - intros b. apply wake_set_sets_wake.
  - by rewrite <- !app_assoc.
Qed.
End ProcessFacts.

Lemma control_bev_reader_outcomes_witness :
  ∃ pr',
    control_bev_reader (H := why_bits) (H0 := sys_ok) (H1 := read_cmd) Client
      (process_of (session_at_rest 0)) = Done pr'
    ∧ wake_set 2 (session pr') = true
    ∧ calls pr' = [ReadHook Client 2; Sync EvLock; Sync EvUnlock; CondSignal 0].
Proof.
  destruct (control_bev_reader_outcomes (H := why_bits) (H0 := sys_ok)
              (H1 := read_cmd) Client (process_of (session_at_rest 0)) eq_refl)
    as (pr' & _ & Hrun & Hbits & _ & Hcalls).
  exists pr'. split; [exact Hrun |]. split; [| exact Hcalls].
  rewrite (Hbits 2). vm_compute; reflexivity.
Defined.

(** ** Opening a connection *)

(** Running the ledger over calls whose results are known. *)
Ltac ledger :=
  repeat (progress
            (rewrite ?Z.eqb_refl;
             cbn [account account_call release release_owner release_owned
                    disown acquire own live owned take_out same_resource
                    mbind option_bind negb])).

Section ConnFacts.
Context `{ControlABI} `{System} `{ControlSideOps}.

Lemma slot_set_slot s v cs : slot s (set_slot s v cs) = v.
Proof. by destruct s. Qed.

Lemma take_out_head r rs :
  same_resource r r = true → take_out r (r :: rs) = Some rs.
Proof. intros Hsame. cbn [take_out]. by rewrite Hsame. Qed.

Lemma same_resource_refl r : same_resource r r = true.
Proof. destruct r; cbn [same_resource]; by rewrite ?Z.eqb_refl. Qed.

Lemma account_app cs1 : ∀ cs2 lg,
  account (cs1 ++ cs2) lg = lg' ← account cs1 lg; account cs2 lg'.
Proof.
  induction cs1 as [| c cs1 IH]; intros cs2 lg; [done |].
  cbn [app account]. destruct (account_call c lg); cbn [mbind option_bind];
    [apply IH | done].
Qed.

(** What [control_conn_open] does, case by case. *)
Lemma control_conn_open_run (s : side) (fd : Z) (pr : process) :
  mtx_held (mach pr) = false →
  let opts := Z.lor BEV_OPT_CLOSE_ON_FREE BEV_OPT_THREADSAFE in
  let bev := bufferevent_socket_new fd opts in
  let hook := (λ h cs, h cs fd) <$> cs_open (side_ops_of s) in
  let opened := hook_ret hook 0 (set_slot s bev (session pr)) in
  let made := [BevSocketNew fd opts bev; BevGetEnabled bev; BevDisable bev;
               BevSetcb bev s; BevGetEnabled bev; BevDisable bev;
               Sync EvLock; Sync EvUnlock]
              ++ match hook with
                 | Some _ => [OpenHook s fd opened.2]
                 | None => []
                 end in
  ∃ pr',
    control_conn_open s fd pr = Ok pr'
    ∧ mtx_held (mach pr') = false
    ∧ cecl pr' = cecl pr ∧ ddatafd pr' = ddatafd pr
    ∧ cdatafd pr' = cdatafd pr ∧ ddataevt pr' = ddataevt pr
    ∧ if decide (slot s (session pr) = 0) then
        if decide (bev = 0) then
          session pr' = session pr
          ∧ calls pr' = calls pr ++ [BevSocketNew fd opts 0; BevGetEnabled 0;
                                     BevDisable 0]
        else if decide (opened.2 = -1) then
          session pr' = set_slot s 0 opened.1
          ∧ calls pr' = calls pr ++ made ++ [Closesocket fd; BevFree bev]
        else
          session pr' = opened.1
          ∧ calls pr' = calls pr ++ made ++ [BevEnable bev]
      else
        session pr' = session pr ∧ calls pr' = calls pr ++ [Closesocket fd].
Proof.
  intros Hfree. cbv zeta. unfold control_conn_open.
  destruct pr as [[cs held tr] ecl dfd cfd evt cl].
  unfold session in *. cbn [mach sess mtx_held] in *. subst held.
  case_decide as Hslot.
  2: { rewrite (proj2 (Z.eqb_neq _ _)) by done. cbn [negb].
       eexists. split; [reflexivity |]. by cbn. }
  rewrite Hslot. cbn [Z.eqb negb].
  unfold control_new_bev.
  set (opts := Z.lor BEV_OPT_CLOSE_ON_FREE BEV_OPT_THREADSAFE).
  set (bev := bufferevent_socket_new fd opts).
  case_decide as Hbev.
  { rewrite Hbev. cbn [Z.eqb]. unfold call. cbn [mach cecl ddatafd cdatafd ddataevt calls].
    eexists. split; [reflexivity |]. cbn [mach sess mtx_held cecl ddatafd
      cdatafd ddataevt calls].
    split_and!; try done. by rewrite <- !app_assoc. }
  rewrite (proj2 (Z.eqb_neq bev 0)) by done.
  unfold call. cbn [mach cecl ddatafd cdatafd ddataevt calls].
  rewrite (proj2 (Z.eqb_neq bev 0)) by done.
  rewrite on_machine_lock by done. cbn [mbind result_bind].
  unfold upd_cs, upd_sess, session.
  cbn [mach sess mtx_held trace cecl ddatafd cdatafd ddataevt calls].
  rewrite on_machine_unlock by done. cbn [mbind result_bind].
  unfold session. cbn [mach sess mtx_held trace cecl ddatafd cdatafd ddataevt calls].
  unfold control_open, hook_ret, session, refuse_connection, call, upd_cs, upd_sess.
  destruct (cs_open (side_ops_of s)) as [hook |]; cbn [fmap option_fmap option_map].
  - cbn [mach sess mtx_held trace cecl ddatafd cdatafd ddataevt calls].
    case_decide as Hopened.
    + rewrite Hopened, Z.eqb_refl.
      eexists. split; [reflexivity |].
      cbn [mach sess mtx_held trace cecl ddatafd cdatafd ddataevt calls].
      split_and!; try done. by rewrite <- !app_assoc.
    + rewrite (proj2 (Z.eqb_neq _ (-1))) by done.
      eexists. split; [reflexivity |].
      cbn [mach sess mtx_held trace cecl ddatafd cdatafd ddataevt calls].
      split_and!; try done. by rewrite <- !app_assoc.
  - cbn [snd fst Z.eqb]. try rewrite decide_False by done.
    eexists. split; [reflexivity |].
    cbn [mach sess mtx_held trace cecl ddatafd cdatafd ddataevt calls].
    split_and!; try done. by rewrite <- !app_assoc.
Qed.

(** X20.  [control_conn_open], called without the mutex for a socket
    [fd] that the caller has just got, never fails, and as for [fd]:
    when the side has an endpoint already, [fd] is closed and nothing
    else happens; when no bufferevent can be made, the null pointer is
    passed to [bufferevent_disable], and [fd] is neither closed nor
    kept in the session; when the [cs_open] hook returns [-1], the
    endpoint is zeroed again and [fd] is closed twice, by
    [refuse_connection] and by freeing the bufferevent that owns it;
    otherwise the bufferevent that owns [fd] is the side's endpoint,
    unless the hook has put something else there, and it is enabled
    last. *)
Theorem control_conn_open_accounts (s : side) (fd : Z) (pr : process) :
  mtx_held (mach pr) = false →
  calls pr = [] →
  let opts := Z.lor BEV_OPT_CLOSE_ON_FREE BEV_OPT_THREADSAFE in
  let bev := bufferevent_socket_new fd opts in
  let opened := hook_ret ((λ h cs, h cs fd) <$> cs_open (side_ops_of s)) 0
                  (set_slot s bev (session pr)) in
  let before := {| live := [RFd fd]; owned := [] |} in
  ∃ pr',
    control_conn_open s fd pr = Ok pr'
    ∧ mtx_held (mach pr') = false
    ∧ if decide (slot s (session pr) = 0) then
        if decide (bev = 0) then
          session pr' = session pr
          ∧ BevDisable 0 ∈ calls pr'
          ∧ account (calls pr') before = Some before
        else if decide (opened.2 = -1) then
          session pr' = set_slot s 0 opened.1
          ∧ account (calls pr') before = None
        else
          session pr' = opened.1
          ∧ last (calls pr') = Some (BevEnable bev)
          ∧ account (calls pr') before
            = Some {| live := [RBev bev; RFd fd]; owned := [(RBev bev, fd)] |}
      else
        session pr' = session pr
        ∧ account (calls pr') before = Some no_resources.
Proof.
  intros Hfree Hcalls. cbv zeta.
  destruct (control_conn_open_run s fd pr Hfree)
    as (pr' & Hrun & Hfree' & _ & _ & _ & _ & Hcases).
  exists pr'. split; [done |]. split; [done |].
  rewrite Hcalls in Hcases. cbn [app] in Hcases.
  set (opts := Z.lor BEV_OPT_CLOSE_ON_FREE BEV_OPT_THREADSAFE) in *.
  set (bev := bufferevent_socket_new fd opts) in *.
  assert (Hopts : (Z.land opts BEV_OPT_CLOSE_ON_FREE =? 0) = false) by done.
  case_decide as Hslot.
  2: { destruct Hcases as [Hsess ->]. split; [done |].
       cbn [account account_call release live owned take_out same_resource
              mbind option_bind]. by rewrite Z.eqb_refl. }
  case_decide as Hbev.
  { destruct Hcases as [Hsess ->]. split; [done |]. split.
    - rewrite !elem_of_cons. tauto.
    - cbn [account account_call mbind option_bind]. by rewrite Z.eqb_refl. }
  assert (Hmade : ∀ hook_calls rest,
            (∀ c, c ∈ hook_calls → ∃ ret, c = OpenHook s fd ret) →
            account (BevSocketNew fd opts bev :: BevGetEnabled bev :: BevDisable bev
                     :: BevSetcb bev s :: BevGetEnabled bev :: BevDisable bev
                     :: Sync EvLock :: Sync EvUnlock :: hook_calls ++ rest)
              {| live := [RFd fd]; owned := [] |}
            = account rest {| live := [RBev bev; RFd fd];
                              owned := [(RBev bev, fd)] |}).
  { intros hook_calls rest Hhook.
    cbn [account account_call mbind option_bind].
    rewrite (proj2 (Z.eqb_neq bev 0)) by done. rewrite Hopts.
    cbn [mbind option_bind acquire own live owned].
    assert (Hskip : ∀ lg, account hook_calls lg = Some lg).
    { induction hook_calls as [| c cs IH]; intros lg; [done |].
      destruct (Hhook c) as [ret ->]; [by left |]. cbn [account account_call
        mbind option_bind]. apply IH. intros c Hc. apply Hhook. by right. }
    by rewrite account_app, Hskip. }
  assert (Hhook : ∀ c,
            c ∈ match (λ h cs, h cs fd) <$> cs_open (side_ops_of s) with
                | Some _ =>
                    [OpenHook s fd
                       (hook_ret ((λ h cs, h cs fd) <$> cs_open (side_ops_of s)) 0
                          (set_slot s bev (session pr))).2]
                | None => []
                end →
            ∃ ret, c = OpenHook s fd ret).
  { intros c. destruct (cs_open (side_ops_of s)); cbn [fmap option_fmap option_map].
    - rewrite list_elem_of_singleton. intros ->. by eexists.
    - by rewrite elem_of_nil. }
  case_decide as Hopened.
  - destruct Hcases as [Hsess ->]. split; [done |].
    rewrite Hmade by done.
    by ledger.
  - destruct Hcases as [Hsess ->]. split; [done |]. split.
    + rewrite !app_comm_cons. apply last_snoc.
    + rewrite Hmade by done. done.
Qed.
End ConnFacts.

Lemma control_conn_open_accounts_witness :
  ∃ pr',
    control_conn_open (H0 := sys_ok) (H1 := refusing) Dnode 4
      (process_of (upd_sess (set_dbev 0) (session_at_rest 0))) = Ok pr'
    ∧ mtx_held (mach pr') = false
    ∧ dbev (session pr') = 0
    ∧ account (calls pr') {| live := [RFd 4]; owned := [] |} = None.
Proof.
  destruct (control_conn_open_accounts (H0 := sys_ok) (H1 := refusing) Dnode 4
              (process_of (upd_sess (set_dbev 0) (session_at_rest 0)))
              eq_refl eq_refl) as (pr' & Hrun & Hfree & Hcases).
  exists pr'. split; [exact Hrun |]. split; [exact Hfree |].
  vm_compute in Hcases. destruct Hcases as [Hsess Haccount].
  split; [exact (f_equal dbev Hsess) | exact Haccount].
Defined.

(** ** Making and freeing a session *)

Section LifeFacts.
Context `{ControlABI} `{System} `{ControlSideOps}.

Lemma neutral_app cs1 cs2 : neutral cs1 → neutral cs2 → neutral (cs1 ++ cs2).
Proof.
  intros H1' H2' lg. rewrite account_app, H1'. cbn [mbind option_bind]. apply H2'.
Qed.

Lemma neutral_start s ops cs : neutral (start_calls s ops cs).
Proof. unfold start_calls. by destruct (cs_start ops). Qed.

Lemma neutral_stop s ops : neutral (stop_calls s ops).
Proof. unfold stop_calls. by destruct (cs_stop ops). Qed.

Lemma account_neutral hs rest lg :
  neutral hs → account (hs ++ rest) lg = account rest lg.
Proof. intros Hn. by rewrite account_app, Hn. Qed.

Lemma made_bev_app cs1 cs2 : made_bev (cs1 ++ cs2) = made_bev cs1 || made_bev cs2.
Proof. apply existsb_app. Qed.

Lemma made_bev_start s ops cs : made_bev (start_calls s ops cs) = false.
Proof. unfold start_calls. by destruct (cs_start ops). Qed.

Lemma made_bev_stop s ops : made_bev (stop_calls s ops) = false.
Proof. unfold stop_calls. by destruct (cs_stop ops). Qed.

Lemma control_start_run s pr :
  control_start s pr
  = ({| mach := upd_sess (λ cs, (hook_ret (cs_start (side_ops_of s)) 0 cs).1)
                  (mach pr);
        cecl := cecl pr; ddatafd := ddatafd pr; cdatafd := cdatafd pr;
        ddataevt := ddataevt pr;
        calls := calls pr ++ start_calls s (side_ops_of s) (session pr) |},
     (hook_ret (cs_start (side_ops_of s)) 0 (session pr)).2).
Proof.
  unfold control_start, start_calls, hook_ret, session, call, upd_cs.
  destruct pr as [[cs held tr] ? ? ? ? cl].
  destruct (cs_start (side_ops_of s)) as [hook |]; cbn; [done |].
  by rewrite app_nil_r.
Qed.

Lemma control_stop_run s pr :
  control_stop s pr
  = {| mach := upd_sess (hook_app (cs_stop (side_ops_of s))) (mach pr);
       cecl := cecl pr; ddatafd := ddatafd pr; cdatafd := cdatafd pr;
       ddataevt := ddataevt pr;
       calls := calls pr ++ stop_calls s (side_ops_of s) |}.
Proof.
  unfold control_stop, stop_calls, hook_app, session, call, upd_cs.
  destruct pr as [[cs held tr] ? ? ? ? cl].
  destruct (cs_stop (side_ops_of s)) as [hook |]; cbn; [done |].
  by rewrite app_nil_r.
Qed.

Lemma account_start s ops cs lg : account (start_calls s ops cs) lg = Some lg.
Proof. apply neutral_start. Qed.

Lemma account_stop s ops lg : account (stop_calls s ops) lg = Some lg.
Proof. apply neutral_stop. Qed.

(** [goto l] either ends the process, because a [destroy] failed, or
    makes the calls of [unwind l] and returns [NULL]. *)
Lemma goto_calls l local_cecl local_ddatafd pr pr' :
  goto l local_cecl local_ddatafd pr = Null pr' →
  calls pr' = calls pr ++ unwind l local_cecl local_ddatafd pr
  ∧ ((label_index l <=? 5)%nat = true → (pthread_cond_destroy =? 0) = true)
  ∧ ((label_index l <=? 6)%nat = true → (pthread_mutex_destroy =? 0) = true).
Proof.
  destruct pr as [[cs held tr] ecl dfd cfd evt cl].
  unfold goto, unwind, session.
  destruct l;
    cbn [drop label_index labels fall_through at_label Nat.leb
           mach sess ddataevt ddatafd calls];
    rewrite ?control_stop_run;
    unfold call, session;
    cbn [mach sess ddataevt ddatafd cdatafd cecl calls upd_sess mtx_held trace];
    repeat match goal with
           | |- context [negb (?a =? ?b)] => destruct (a =? b) eqn:?; cbn [negb]
           end;
    try discriminate;
    intros [= <-]; cbn [calls]; rewrite <- ?app_assoc; cbn [app];
    rewrite ?app_nil_r; done.
Qed.

Lemma refused_app cs1 cs2 : refused (cs1 ++ cs2) = refused cs1 || refused cs2.
Proof. apply existsb_app. Qed.

Lemma refused_start s ops cs : refused (start_calls s ops cs) = false.
Proof. unfold start_calls. by destruct (cs_start ops). Qed.

Lemma fall_through_not_done ls lc ld : ∀ pr pr',
  fall_through ls lc ld pr ≠ Done pr'.
Proof.
  induction ls as [| l ls IH]; intros pr pr'; cbn [fall_through]; [done |].
  destruct (at_label l lc ld pr); [apply IH | done].
Qed.

Lemma goto_not_done l lc ld pr pr' : goto l lc ld pr ≠ Done pr'.
Proof. apply fall_through_not_done. Qed.

Ltac known :=
  repeat match goal with
         | Heq : (?a =? ?b) = _ |- context [?a =? ?b] => rewrite Heq
         | Heq : malloc_session = _ |- context [malloc_session] => rewrite Heq
         | Heq : dbev ?c = _ |- context [dbev ?c] => rewrite Heq
         | Heq : cbev ?c = _ |- context [cbev ?c] => rewrite Heq
         end.

Ltac books :=
  repeat (progress
            (known;
             rewrite ?account_app, ?account_start, ?account_stop,
               ?made_bev_app, ?made_bev_start, ?made_bev_stop,
               ?refused_app, ?refused_start, ?Z.eqb_refl;
             cbn [account account_call release release_owner release_owned
                    disown acquire own live owned take_out same_resource
                    no_resources made_bev refused existsb orb
                    mbind option_bind negb app])).

Ltac leaf :=
  lazy beta iota;
  let Hgoto := fresh "Hgoto" in
  let Hcd := fresh "Hcd" in
  let Hmd := fresh "Hmd" in
  intros Hgoto; apply goto_calls in Hgoto as (-> & Hcd & Hmd);
  unfold unwind, session in *;
  cbn [label_index Nat.leb mach sess calls ddataevt ddatafd cdatafd cecl
         call upd_cs upd_sess set_cecl set_ddatafd set_cdatafd set_ddataevt
         set_dbev set_cbev set_wake_why set_txns dbev] in *;
  try specialize (Hcd eq_refl); try specialize (Hmd eq_refl);
  books; try done.

Ltac failed :=
  lazy beta iota;
  let Hgoto := fresh "Hgoto" in
  intros Hgoto; by apply goto_not_done in Hgoto.

(** X21.  When [control_new] returns [NULL] it has released what it
    had acquired, each thing once, on every path through its labels,
    unless it had made the bufferevent of the data node's connection:
    then the socket connected to the data node is closed twice, by
    freeing the bufferevent that owns it (or by [refuse_connection])
    and by [evutil_closesocket] at [nodnonblock]. *)
Theorem control_new_null_accounts
    (client_port dnode_port sample_port : Z) (pr0 pr : process) :
  mtx_held (mach pr0) = false →
  calls pr0 = [] →
  sockutil_get_tcp_connected_p dnode_port ≠ sockutil_get_tcp_passive client_port →
  keeps_ret dbev (cs_start dnode_side_ops) →
  (∀ fd, keeps_ret dbev ((λ h cs, h cs fd) <$> cs_open dnode_side_ops)) →
  control_new client_port dnode_port sample_port pr0 = Null pr →
  account (calls pr) no_resources
  = if made_bev (calls pr) then None else Some no_resources.
Proof.
  intros Hfree Hcalls Hfds Hstart Hopen.
  destruct pr0 as [[cs0 held tr0] ecl0 dfd0 cfd0 evt0 cl0].
  cbn [mach mtx_held calls] in Hfree, Hcalls. subst held cl0.
  unfold control_new.
  unfold call at 1. cbn [mach cecl ddatafd cdatafd ddataevt calls app].
  destruct malloc_session eqn:Hmalloc; cbn [negb]; [| leaf].
  unfold control_new_listener.
  set (s := sockutil_get_tcp_passive client_port) in *.
  set (flags := Z.lor (Z.lor LEV_OPT_CLOSE_ON_FREE LEV_OPT_REUSEABLE) LEV_OPT_THREADSAFE).
  assert (Hflags : (Z.land flags LEV_OPT_CLOSE_ON_FREE =? 0) = false) by done.
  set (e := evconnlistener_new s flags).
  destruct (s =? -1) eqn:Hs; [leaf |].
  destruct (e =? 0) eqn:He; [leaf |].
  cbv beta iota. rewrite He.
  set (d := sockutil_get_tcp_connected_p dnode_port) in *.
  assert (Hds : (d =? s) = false) by (by apply Z.eqb_neq).
  destruct (d =? -1) eqn:Hd; [leaf |].
  destruct (evutil_make_socket_nonblocking d =? 0) eqn:Hnb; cbn [negb]; [| leaf].
  destruct (pthread_mutex_init =? 0) eqn:Hmi; cbn [negb]; [| leaf].
  destruct (pthread_cond_init =? 0) eqn:Hci; cbn [negb]; [| leaf].
  rewrite control_start_run.
  match goal with |- context [negb (?a =? 0)] => destruct (a =? 0) eqn:Hcstart end;
    cbn [negb]; [| leaf].
  rewrite control_start_run.
  match goal with |- context [negb (?a =? 0)] => destruct (a =? 0) eqn:Hdstart end;
    cbn [negb]; [| leaf].
  set (b := bufferevent_socket_new d (Z.lor BEV_OPT_CLOSE_ON_FREE BEV_OPT_THREADSAFE)).
  assert (Hopts : (Z.land (Z.lor BEV_OPT_CLOSE_ON_FREE BEV_OPT_THREADSAFE)
                     BEV_OPT_CLOSE_ON_FREE =? 0) = false) by done.
  match goal with
  | |- context [control_conn_open Dnode d ?P] =>
      destruct (control_conn_open_run Dnode d P eq_refl)
        as (pr1 & Hrun & Hfree1 & Hcecl & Hdd & Hcd & Hev & Hcases);
      rewrite Hrun; clear Hrun
  end.
  rewrite decide_True in Hcases by (cbn; apply Hstart).
  fold b in Hcases.
  destruct pr1 as [[cs1 held1 tr1] ecl1 dfd1 cfd1 evt1 cl1].
  unfold session in Hcases.
  cbn [mach sess mtx_held cecl ddatafd cdatafd ddataevt calls
         call upd_cs upd_sess set_cecl app] in Hfree1, Hcecl, Hdd, Hcd, Hev, Hcases.
  subst held1 ecl1 dfd1 cfd1 evt1.
  set (u := sockutil_get_udp_socket sample_port).
  set (ev := event_new u).
  pose proof (Hopen d) as Hopen_d. unfold keeps_ret, hook_ret in Hopen_d.
  pose proof Hstart as Hstart'. unfold keeps_ret, hook_ret in Hstart'.
  unfold hook_ret in Hcases. cbn [side_ops_of] in Hcases.
  destruct (cs_open dnode_side_ops) as [open_hook |];
    cbn [fmap option_fmap option_map app] in Hcases, Hopen_d;
    (case_decide as Hb; [| case_decide as Hopened]);
    destruct Hcases as [Hsess ->];
    try (apply Z.eqb_eq in Hb as Hb0);
    try (apply Z.eqb_neq in Hb as Hb0);
    apply (f_equal dbev) in Hsess;
    cbn [set_slot set_dbev dbev fst snd] in Hsess;
    rewrite ?Hopen_d, ?Hstart' in Hsess;
    cbn [set_slot set_dbev dbev fst snd] in Hsess;
    cbn [ddatafd set_ddatafd call mach cecl cdatafd ddataevt calls];
    (destruct (u =? -1) eqn:Hu; [leaf |]);
    (destruct (evutil_make_socket_nonblocking u =? -1) eqn:Hnbu; [leaf |]);
    cbn [ddatafd set_ddatafd set_cdatafd set_ddataevt call mach cecl cdatafd
           ddataevt calls];
    fold ev;
    (destruct (ev =? 0) eqn:Hev0; [leaf |]);
    rewrite on_machine_lock by done;
    cbn [ddatafd set_ddatafd set_cdatafd set_ddataevt call mach cecl cdatafd
           ddataevt calls mtx_held];
    rewrite on_machine_unlock by done;
    (destruct (pthread_create =? 0) eqn:Hpc; cbn [negb]; [done | leaf]).
Qed.

(** The session that [control_new] returns. *)
Lemma control_new_done_state
    (client_port dnode_port sample_port : Z) (pr0 pr : process) :
  mtx_held (mach pr0) = false →
  control_new client_port dnode_port sample_port pr0 = Done pr →
  let u := sockutil_get_udp_socket sample_port in
  txns_empty (session pr) ∧ ctl_cur_rid (session pr) = 0
  ∧ cecl pr ≠ 0
  ∧ ddatafd pr = u ∧ u ≠ -1 ∧ cdatafd pr = -1
  ∧ ddataevt pr = event_new u ∧ ddataevt pr ≠ 0
  ∧ mtx_held (mach pr) = false
  ∧ (∃ before,
       calls pr = before ++ [EventAdd (event_new u); Sync EvLock;
                             ThreadCreate 0; Sync EvUnlock]).
Proof.
  intros Hfree.
  destruct pr0 as [[cs0 held tr0] ecl0 dfd0 cfd0 evt0 cl0].
  cbn [mach mtx_held calls] in Hfree. subst held.
  unfold control_new.
  unfold call at 1. cbn [mach cecl ddatafd cdatafd ddataevt calls app].
  destruct malloc_session eqn:Hmalloc; cbn [negb]; [| failed].
  unfold control_new_listener.
  set (s := sockutil_get_tcp_passive client_port) in *.
  set (flags := Z.lor (Z.lor LEV_OPT_CLOSE_ON_FREE LEV_OPT_REUSEABLE) LEV_OPT_THREADSAFE).
  set (e := evconnlistener_new s flags).
  destruct (s =? -1) eqn:Hs; [failed |].
  destruct (e =? 0) eqn:He; [failed |].
  cbv beta iota. rewrite He.
  set (d := sockutil_get_tcp_connected_p dnode_port) in *.
  destruct (d =? -1) eqn:Hd; [failed |].
  destruct (evutil_make_socket_nonblocking d =? 0) eqn:Hnb; cbn [negb]; [| failed].
  destruct (pthread_mutex_init =? 0) eqn:Hmi; cbn [negb]; [| failed].
  destruct (pthread_cond_init =? 0) eqn:Hci; cbn [negb]; [| failed].
  rewrite control_start_run.
  match goal with |- context [negb (?a =? 0)] => destruct (a =? 0) eqn:Hcstart end;
    cbn [negb]; [| failed].
  rewrite control_start_run.
  match goal with |- context [negb (?a =? 0)] => destruct (a =? 0) eqn:Hdstart end;
    cbn [negb]; [| failed].
  match goal with
  | |- context [control_conn_open Dnode d ?P] =>
      destruct (control_conn_open_run Dnode d P eq_refl)
        as (pr1 & Hrun & Hfree1 & Hcecl & Hdd & Hcd & Hev & Hcases);
      rewrite Hrun; clear Hrun;
      assert (Hcalls1 : ∃ more, calls pr1 = calls P ++ more)
  end.
  { repeat case_decide; destruct Hcases as [_ ->]; by eexists. }
  clear Hcases. destruct Hcalls1 as [more1 Hcalls1].
  destruct pr1 as [[cs1 held1 tr1] ecl1 dfd1 cfd1 evt1 cl1].
  cbn [mach sess mtx_held cecl ddatafd cdatafd ddataevt calls
         call upd_cs upd_sess set_cecl app] in Hfree1, Hcecl, Hdd, Hcd, Hev, Hcalls1.
  subst held1 ecl1 dfd1 cfd1 evt1 cl1.
  set (u := sockutil_get_udp_socket sample_port).
  set (ev := event_new u).
  cbn [ddatafd set_ddatafd call mach cecl cdatafd ddataevt calls].
  destruct (u =? -1) eqn:Hu; [failed |].
  destruct (evutil_make_socket_nonblocking u =? -1) eqn:Hnbu; [failed |].
  cbn [ddatafd set_ddatafd set_cdatafd set_ddataevt call mach cecl cdatafd
         ddataevt calls].
  fold ev.
  destruct (ev =? 0) eqn:Hev0; [failed |].
  rewrite on_machine_lock by done.
  cbn [ddatafd set_ddatafd set_cdatafd set_ddataevt call mach cecl cdatafd
         ddataevt calls mtx_held].
  rewrite on_machine_unlock by done.
  destruct (pthread_create =? 0) eqn:Hpc; cbn [negb]; [| failed].
  intros [= <-]. cbv zeta. fold u ev.
  unfold session.
  cbn [mach sess cecl ddatafd cdatafd ddataevt calls mtx_held upd_cs upd_sess
         set_txns ctl_txns ctl_n_txns ctl_cur_txn ctl_cur_rid].
  apply Z.eqb_neq in He, Hu, Hev0. apply Z.eqb_eq in Hpc.
  split_and!; try done.
  rewrite Hpc.
  match goal with
  | |- ∃ before, (((?X ++ _) ++ _) ++ _) ++ _ = _ => exists X
  end.
  by rewrite <- !app_assoc.
Qed.

(** X22.  The session that [control_new] returns, whatever was in
    the block that [malloc] gave and whatever the start and open hooks
    did: the transaction list is empty and the request counter [0]; the
    listener and the sample socket are there, nobody is registered for
    the samples, the sample event is added; the worker has been
    created, between [control_must_lock] and [control_must_unlock],
    as the last thing.  [control_sample] then reads and drops a
    datagram on every readable event of the sample socket, and ignores
    the events of other sockets. *)
Theorem control_new_done
    (client_port dnode_port sample_port : Z) (pr0 pr : process) :
  mtx_held (mach pr0) = false →
  control_new client_port dnode_port sample_port pr0 = Done pr →
  let u := sockutil_get_udp_socket sample_port in
  txns_empty (session pr) ∧ ctl_cur_rid (session pr) = 0
  ∧ cecl pr ≠ 0
  ∧ ddatafd pr = u ∧ u ≠ -1 ∧ cdatafd pr = -1
  ∧ ddataevt pr = event_new u ∧ ddataevt pr ≠ 0
  ∧ mtx_held (mach pr) = false
  ∧ (∃ before,
       calls pr = before ++ [EventAdd (event_new u); Sync EvLock;
                             ThreadCreate 0; Sync EvUnlock])
  ∧ (∀ events, Z.land events EV_READ ≠ 0 →
       control_sample u events pr = call (Recvfrom u) pr)
  ∧ (∀ fd events, fd ≠ u → control_sample fd events pr = pr).
Proof.
  intros Hfree Hnew.
  destruct (control_new_done_state _ _ _ _ _ Hfree Hnew)
    as (Hempty & Hrid & Hcecl & Hsample & Hu & Hnobody & Hevt & Hadded
        & Hfree' & Hcalls).
  cbv zeta. split_and!; try done.
  - intros events Hread. unfold control_sample.
    rewrite Hsample, Z.eqb_refl, Hnobody. cbn [negb andb].
    by rewrite (proj2 (Z.eqb_neq _ 0)) by done.
  - intros fd events Hfd. unfold control_sample. rewrite Hsample.
    by rewrite (proj2 (Z.eqb_neq fd _)) by done.
Qed.

Lemma control_stop_mach s pr :
  mach (control_stop s pr) = upd_sess (hook_app (cs_stop (side_ops_of s))) (mach pr).
Proof. by rewrite control_stop_run. Qed.

Lemma control_stop_calls s pr :
  calls (control_stop s pr) = calls pr ++ stop_calls s (side_ops_of s).
Proof. by rewrite control_stop_run. Qed.

Lemma control_stop_fields s pr :
  cecl (control_stop s pr) = cecl pr
  ∧ ddatafd (control_stop s pr) = ddatafd pr
  ∧ cdatafd (control_stop s pr) = cdatafd pr
  ∧ ddataevt (control_stop s pr) = ddataevt pr.
Proof. by rewrite control_stop_run. Qed.

(** [control_free] either ends the process, because signalling or
    joining failed, or makes the calls of [free_calls] and returns. *)
Lemma control_free_run pr pr' :
  mtx_held (mach pr) = false →
  control_free pr = Done pr' →
  calls pr' = calls pr ++ free_calls pr
  ∧ (pthread_cond_signal =? 0) = true
  ∧ (pthread_join =? 0) = true.
Proof.
  intros Hfree. unfold control_free, control_must_wake.
  rewrite on_machine_set_wake by done.
  unfold __control_must_signal, __control_must_join.
  destruct (pthread_cond_signal =? 0) eqn:Hsignal; cbn [negb]; [| done].
  destruct (pthread_join =? 0) eqn:Hjoin; cbn [negb]; [| done].
  destruct pr as [[cs held tr] ecl dfd cfd evt cl].
  cbv zeta. intros [= <-]. split; [| done].
  unfold free_calls, stopped, session.
  cbn [calls call when mach sess cecl ddatafd cdatafd ddataevt upd_cs].
  rewrite !control_stop_calls, !control_stop_mach.
  rewrite !(proj1 (control_stop_fields _ _)).
  cbn [calls call when mach sess cecl ddatafd cdatafd ddataevt upd_cs upd_sess
         side_ops_of].
  by rewrite <- !app_assoc.
Qed.

Lemma stopped_endpoints cs :
  keeps cbev (cs_stop client_side_ops) → keeps dbev (cs_stop client_side_ops) →
  keeps cbev (cs_stop dnode_side_ops) → keeps dbev (cs_stop dnode_side_ops) →
  keeps cbev (Some worker_until_exit) → keeps dbev (Some worker_until_exit) →
  cbev (stopped cs) = cbev cs ∧ dbev (stopped cs) = dbev cs.
Proof.
  intros Hcc Hcd Hdc Hdd Hwc Hwd. unfold stopped.
  rewrite Hcc, Hcd, Hdc, Hdd.
  specialize (Hwc (sets_wake CONTROL_WHY_EXIT cs)).
  specialize (Hwd (sets_wake CONTROL_WHY_EXIT cs)).
  cbn [hook_app] in Hwc, Hwd. by rewrite Hwc, Hwd.
Qed.

(** X23.  A session made by [control_new] and freed right away by
    [control_free], with hooks and a worker that leave the two
    endpoints alone: everything that was acquired is released exactly
    once when the data node's connection was established; when no
    bufferevent could be made for it, the socket connected to the data
    node is never closed; when the [cs_open] hook refused the
    connection, that socket has been closed twice. *)
Theorem control_new_free_accounts
    (client_port dnode_port sample_port : Z) (pr0 pr pr' : process) :
  mtx_held (mach pr0) = false →
  calls pr0 = [] →
  sockutil_get_tcp_connected_p dnode_port ≠ sockutil_get_tcp_passive client_port →
  side_keeps_endpoints client_side_ops →
  side_keeps_endpoints dnode_side_ops →
  keeps cbev (Some worker_until_exit) →
  keeps dbev (Some worker_until_exit) →
  pthread_cond_destroy = 0 →
  pthread_mutex_destroy = 0 →
  control_new client_port dnode_port sample_port pr0 = Done pr →
  control_free pr = Done pr' →
  account (calls pr') no_resources
  = if negb (made_bev (calls pr)) then
      Some {| live := [RFd (sockutil_get_tcp_connected_p dnode_port)];
              owned := [] |}
    else if refused (calls pr) then None
    else Some no_resources.
Proof.
  intros Hfree Hcalls Hfds (Hcsc & _ & Hcpc & Hcpd & _)
    (Hdsc & Hdsd & Hdpc & Hdpd & Hopen) Hwc Hwd Hcdestroy Hmdestroy Hnew Hfreed.
  assert (Hmtx : mtx_held (mach pr) = false).
  { by destruct (control_new_done_state _ _ _ _ _ Hfree Hnew)
      as (_ & _ & _ & _ & _ & _ & _ & _ & ? & _). }
  apply control_free_run in Hfreed as (-> & Hsig & Hjoin); [| done].
  rewrite account_app.
  unfold free_calls.
  destruct (stopped_endpoints (session pr) Hcpc Hcpd Hdpc Hdpd Hwc Hwd)
    as [-> ->].
  apply Z.eqb_eq in Hcdestroy as Hcd0, Hmdestroy as Hmd0.
  rewrite Hcdestroy, Hmdestroy.
  revert Hnew.
  destruct pr0 as [[cs0 held tr0] ecl0 dfd0 cfd0 evt0 cl0].
  cbn [mach mtx_held calls] in Hfree, Hcalls. subst held cl0.
  unfold control_new.
  unfold call at 1. cbn [mach cecl ddatafd cdatafd ddataevt calls app].
  destruct malloc_session eqn:Hmalloc; cbn [negb]; [| failed].
  unfold control_new_listener.
  set (s := sockutil_get_tcp_passive client_port) in *.
  set (flags := Z.lor (Z.lor LEV_OPT_CLOSE_ON_FREE LEV_OPT_REUSEABLE) LEV_OPT_THREADSAFE).
  assert (Hflags : (Z.land flags LEV_OPT_CLOSE_ON_FREE =? 0) = false) by done.
  set (e := evconnlistener_new s flags).
  destruct (s =? -1) eqn:Hs; [failed |].
  destruct (e =? 0) eqn:He; [failed |].
  cbv beta iota. rewrite He.
  set (d := sockutil_get_tcp_connected_p dnode_port) in *.
  assert (Hds : (d =? s) = false) by (by apply Z.eqb_neq).
  assert (Hsd : (s =? d) = false) by (by apply Z.eqb_neq).
  destruct (d =? -1) eqn:Hd; [failed |].
  destruct (evutil_make_socket_nonblocking d =? 0) eqn:Hnb; cbn [negb]; [| failed].
  destruct (pthread_mutex_init =? 0) eqn:Hmi; cbn [negb]; [| failed].
  destruct (pthread_cond_init =? 0) eqn:Hci; cbn [negb]; [| failed].
  rewrite control_start_run.
  match goal with |- context [negb (?a =? 0)] => destruct (a =? 0) eqn:Hcstart end;
    cbn [negb]; [| failed].
  rewrite control_start_run.
  match goal with |- context [negb (?a =? 0)] => destruct (a =? 0) eqn:Hdstart end;
    cbn [negb]; [| failed].
  set (b := bufferevent_socket_new d (Z.lor BEV_OPT_CLOSE_ON_FREE BEV_OPT_THREADSAFE)).
  assert (Hopts : (Z.land (Z.lor BEV_OPT_CLOSE_ON_FREE BEV_OPT_THREADSAFE)
                     BEV_OPT_CLOSE_ON_FREE =? 0) = false) by done.
  match goal with
  | |- context [control_conn_open Dnode d ?P] =>
      destruct (control_conn_open_run Dnode d P eq_refl)
        as (pr1 & Hrun & Hfree1 & Hcecl & Hdd & Hcd & Hev & Hcases);
      rewrite Hrun; clear Hrun
  end.
  rewrite decide_True in Hcases by (cbn; apply Hdsd).
  fold b in Hcases.
  destruct pr1 as [[cs1 held1 tr1] ecl1 dfd1 cfd1 evt1 cl1].
  unfold session in Hcases.
  cbn [mach sess mtx_held cecl ddatafd cdatafd ddataevt calls
         call upd_cs upd_sess set_cecl app] in Hfree1, Hcecl, Hdd, Hcd, Hev, Hcases.
  subst held1 ecl1 dfd1 cfd1 evt1.
  set (u := sockutil_get_udp_socket sample_port).
  set (ev := event_new u).
  destruct (Hopen d) as [Hopen_c Hopen_d].
  unfold keeps_ret, hook_ret in Hopen_c, Hopen_d, Hcsc, Hdsc, Hdsd.
  unfold hook_ret in Hcases. cbn [side_ops_of] in Hcases.
  destruct (cs_open dnode_side_ops) as [open_hook |];
    cbn [fmap option_fmap option_map app] in Hcases, Hopen_c, Hopen_d;
    (case_decide as Hb; [| case_decide as Hopened]);
    destruct Hcases as [Hsess ->];
    try (apply Z.eqb_eq in Hb as Hb0);
    try (apply Z.eqb_neq in Hb as Hb0);
    try (apply Z.eqb_eq in Hopened as Hop0);
    try (apply Z.eqb_neq in Hopened as Hop0);
    try (unfold session in Hop0;
         cbn [set_slot mach sess upd_cs upd_sess call set_cecl fst snd] in Hop0);
    pose proof (f_equal cbev Hsess) as Hsessc;
    apply (f_equal dbev) in Hsess;
    cbn [set_slot set_dbev set_cbev dbev cbev fst snd] in Hsess, Hsessc;
    rewrite ?Hopen_d, ?Hdsd in Hsess;
    cbn [set_slot set_dbev set_cbev dbev cbev fst snd] in Hsess;
    repeat (progress
              (rewrite ?Hopen_c, ?Hdsc, ?Hcsc in Hsessc;
               cbn [set_slot set_dbev set_cbev set_wake_why dbev cbev fst snd]
                 in Hsessc));
    cbn [ddatafd set_ddatafd call mach cecl cdatafd ddataevt calls];
    (destruct (u =? -1) eqn:Hu; [failed |]);
    (destruct (evutil_make_socket_nonblocking u =? -1) eqn:Hnbu; [failed |]);
    cbn [ddatafd set_ddatafd set_cdatafd set_ddataevt call mach cecl cdatafd
           ddataevt calls];
    fold ev;
    (destruct (ev =? 0) eqn:Hev0; [failed |]);
    rewrite on_machine_lock by done;
    cbn [ddatafd set_ddatafd set_cdatafd set_ddataevt call mach cecl cdatafd
           ddataevt calls mtx_held];
    rewrite on_machine_unlock by done;
    (destruct (pthread_create =? 0) eqn:Hpc; cbn [negb]; [| failed]);
    intros [= <-];
    cbn [session mach sess cecl ddatafd cdatafd ddataevt calls upd_cs upd_sess
           call set_cecl set_ddatafd set_cdatafd set_ddataevt
           set_txns dbev cbev ctl_txns is_null];
    match goal with
    | |- context [is_null ?t] => destruct (is_null t)
    end;
    books; try done.
Qed.
End LifeFacts.

(** The examples: a system that cannot start the worker, with the data
    node's connection established before; and a system where every call
    succeeds. *)
Lemma control_new_null_accounts_witness :
  ∃ pr,
    control_new (H := why_bits) (H0 := sys_no_thread) (H1 := no_side_hooks)
      1 2 3 fresh_block = Null pr
    ∧ made_bev (calls pr) = true
    ∧ account (calls pr) no_resources = None.
Proof.
  eexists. split; [vm_compute; reflexivity |].
  split; [vm_compute; reflexivity |].
  rewrite (control_new_null_accounts (H := why_bits) (H0 := sys_no_thread)
             (H1 := no_side_hooks) 1 2 3 fresh_block _ eq_refl eq_refl).
  - vm_compute; reflexivity.
  - vm_compute. lia.
  - intros cs. reflexivity.
  - intros fd cs. reflexivity.
  - vm_compute; reflexivity.
Defined.

Lemma control_new_done_witness :
  ∃ pr,
    control_new (H := why_bits) (H0 := sys_ok) (H1 := no_side_hooks)
      1 2 3 fresh_block = Done pr
    ∧ txns_empty (session pr) ∧ ctl_cur_rid (session pr) = 0
    ∧ ddatafd pr = 5 ∧ cdatafd pr = -1 ∧ ddataevt pr = 0x305
    ∧ mtx_held (mach pr) = false
    ∧ control_sample 5 EV_READ pr = call (Recvfrom 5) pr.
Proof.
  eexists. split; [vm_compute; reflexivity |].
  match goal with
  | |- txns_empty (session ?pr) ∧ _ =>
      destruct (control_new_done (H := why_bits) (H0 := sys_ok)
                  (H1 := no_side_hooks) 1 2 3 fresh_block pr eq_refl)
        as (Hempty & Hrid & _ & Hsample & _ & Hnobody & Hevt & _ & Hfree
            & _ & Hread & _); [vm_compute; reflexivity |]
  end.
  split_and!.
  - exact Hempty.
  - exact Hrid.
  - exact Hsample.
  - exact Hnobody.
  - exact Hevt.
  - exact Hfree.
  - apply Hread. vm_compute. lia.
Defined.

Lemma control_new_free_accounts_witness :
  ∃ pr pr',
    control_new (H := why_bits) (H0 := sys_ok) (H1 := no_side_hooks)
      1 2 3 fresh_block = Done pr
    ∧ control_free (H := why_bits) (H0 := sys_ok) (H1 := no_side_hooks) pr
      = Done pr'
    ∧ account (calls pr') no_resources = Some no_resources.
Proof.
  eexists. eexists. split; [vm_compute; reflexivity |].
  split; [vm_compute; reflexivity |].
  erewrite (control_new_free_accounts (H := why_bits) (H0 := sys_ok)
              (H1 := no_side_hooks) 1 2 3 fresh_block _ _ eq_refl eq_refl);
    cycle 1.
  - vm_compute. lia.
  - by split_and!.
  - by split_and!.
  - intros cs. reflexivity.
  - intros cs. reflexivity.
  - reflexivity.
  - reflexivity.
  - vm_compute; reflexivity.
  - vm_compute; reflexivity.
  - vm_compute; reflexivity.
Defined.

(** Without memory for the bufferevent of the data node's connection,
    the socket connected to the data node outlives the session. *)
Example control_new_free_leaks :
  ∃ pr pr',
    control_new (H := why_bits) (H0 := sys_no_bev) (H1 := no_side_hooks)
      1 2 3 fresh_block = Done pr
    ∧ control_free (H := why_bits) (H0 := sys_no_bev) (H1 := no_side_hooks) pr
      = Done pr'
    ∧ account (calls pr') no_resources
      = Some {| live := [RFd 4]; owned := [] |}.
Proof.
  eexists. eexists. split; [vm_compute; reflexivity |].
  split; vm_compute; reflexivity.
Qed.
